(** * Sora watermark remover backend: upload fallback chain and prediction polling

    A shallow embedding of [src/server.js]: the upload strategy chain
    ([uploadToReplicate]), the prediction orchestrator
    ([parseReplicateModelVersion], [runPredictionWithUrl]) and the two
    handlers that guard them ([GET /api/health], [POST /api/remove]).

    Modelling conventions.
    - A JavaScript string is a [string] of code units below 256.
    - [undefined] is [None]; a value read out of a parsed JSON body is an
      [option JSON].
    - The network and the clock are an oracle ([World]): the n-th [fetch]
      and the n-th [Date.now()] of a run get the n-th answer.  A run
      threads a [State] that counts the calls made and records what the
      code did to the outside ([Event]).
    - An [async] function is a computation [M A]; a rejected promise or a
      [throw] is [Throw msg] where [msg] is the error's [message].
    - A request is recorded with its method, its URL, its [Authorization]
      header and what its body carries; the multipart encoding and the
      other headers are left out.
    - The [while] loop of the orchestrator runs on fuel, one unit for each
      iteration. *)

From Stdlib Require Import String Ascii List ZArith Lia Bool Arith.
From Stdlib Require Import DecimalString.
Import ListNotations.
Open Scope string_scope.
Open Scope nat_scope.
Set Warnings "-register-all".

(** ** JavaScript string methods used by the server *)

Module Js.

(** [WhiteSpace] and [LineTerminator] code units below 256: TAB, LF, VT, FF,
    CR, SP, NBSP.  This is the set of [String.prototype.trim] and of [\s]. *)
Definition isWhiteSpace (c : ascii) : bool :=
  let n := nat_of_ascii c in
  ((9 <=? n) && (n <=? 13)) || (n =? 32) || (n =? 160).

Fixpoint trimStart (s : string) : string :=
  match s with
  | EmptyString => EmptyString
  | String c r => if isWhiteSpace c then trimStart r else s
  end.

Fixpoint trimEnd (s : string) : string :=
  match s with
  | EmptyString => EmptyString
  | String c r =>
      match trimEnd r with
      | EmptyString => if isWhiteSpace c then EmptyString else String c EmptyString
      | r' => String c r'
      end
  end.

(** [s.trim()] *)
Definition trim (s : string) : string := trimEnd (trimStart s).

(** [s.startsWith(p)], also the test of a regular expression [/^p/] whose
    body [p] is a literal. *)
Fixpoint startsWith (p s : string) : bool :=
  match p, s with
  | EmptyString, _ => true
  | String a p', String b s' => Ascii.eqb a b && startsWith p' s'
  | String _ _, EmptyString => false
  end.

(** What follows the literal prefix [p] in [s], when [s] starts with it. *)
Fixpoint stripPrefix (p s : string) : option string :=
  match p, s with
  | EmptyString, _ => Some s
  | String a p', String b s' => if Ascii.eqb a b then stripPrefix p' s' else None
  | String _ _, EmptyString => None
  end.

(** [s.endsWith(suf)] *)
Fixpoint endsWith (suf s : string) : bool :=
  String.eqb s suf ||
  match s with
  | EmptyString => false
  | String _ r => endsWith suf r
  end.

(** [s.includes(sub)] *)
Fixpoint includes (sub s : string) : bool :=
  startsWith sub s ||
  match s with
  | EmptyString => false
  | String _ r => includes sub r
  end.

(** Lower case of one code unit below 256: A-Z, and U+00C0..U+00DE but the
    multiplication sign U+00D7. *)
Definition toLowerChar (c : ascii) : ascii :=
  let n := nat_of_ascii c in
  if ((65 <=? n) && (n <=? 90)) ||
     ((192 <=? n) && (n <=? 222) && negb (n =? 215))
  then ascii_of_nat (n + 32) else c.

Fixpoint toLowerCase (s : string) : string :=
  match s with
  | EmptyString => EmptyString
  | String c r => String (toLowerChar c) (toLowerCase r)
  end.

(** [s.split(sep)] for a one-character separator. *)
Fixpoint split (sep : ascii) (s : string) : list string :=
  match s with
  | EmptyString => [EmptyString]
  | String c r =>
      if Ascii.eqb c sep then EmptyString :: split sep r
      else match split sep r with
           | h :: t => String c h :: t
           | [] => [String c EmptyString]
           end
  end.

(** [s.replace(/^http:\/\//, "https://")] *)
Definition replaceHttp (s : string) : string :=
  match stripPrefix "http://" s with
  | Some r => "https://" ++ r
  | None => s
  end.

(** The longest prefix of [s] whose characters all satisfy [f]; the match of
    a greedy character class [[...]*]. *)
Fixpoint takeWhile (f : ascii -> bool) (s : string) : string :=
  match s with
  | EmptyString => EmptyString
  | String c r => if f c then String c (takeWhile f r) else EmptyString
  end.

(** [String(n)] for a non-negative integer. *)
Definition ofNat (n : nat) : string := NilEmpty.string_of_uint (Nat.to_uint n).

(** Truthiness of a string that may be [undefined]. *)
Definition truthy (v : option string) : bool :=
  match v with
  | Some (String _ _) => true
  | _ => false
  end.

(** [v || d] for a string [v] that may be [undefined] and a string [d]. *)
Definition orElse (v : option string) (d : string) : string :=
  match v with
  | Some (String c r) => String c r
  | _ => d
  end.

(** [a || b] for two strings that may be [undefined] or [null]. *)
Definition or (a b : option string) : option string :=
  if truthy a then a else b.

(** [`${v}`] for an environment variable, [undefined] when it is not set. *)
Definition template (v : option string) : string :=
  match v with
  | Some s => s
  | None => "undefined"
  end.

(** [s.slice(0, n)] *)
Definition slice0 (n : nat) (s : string) : string := String.substring 0 n s.

(** [lines.join("\n")] *)
Definition joinLines (lines : list string) : string :=
  String.concat (String (ascii_of_nat 10) EmptyString) lines.

(** [s.replace(/\s+/g, "_")]: every maximal run of white space becomes one
    underscore. *)
Fixpoint collapseSpaces (s : string) : string :=
  match s with
  | EmptyString => EmptyString
  | String c r =>
      if isWhiteSpace c then
        match r with
        | String d _ => if isWhiteSpace d then collapseSpaces r
                        else String "_" (collapseSpaces r)
        | EmptyString => "_"
        end
      else String c (collapseSpaces r)
  end.

(** The class [[a-z0-9._-]]. *)
Definition isSafeNameChar (c : ascii) : bool :=
  let n := nat_of_ascii c in
  ((97 <=? n) && (n <=? 122)) || ((48 <=? n) && (n <=? 57)) ||
  (n =? 46) || (n =? 95) || (n =? 45).

(** [s.replace(/[^a-z0-9._-]/g, "-")] *)
Fixpoint dashUnsafe (s : string) : string :=
  match s with
  | EmptyString => EmptyString
  | String c r => String (if isSafeNameChar c then c else "-"%char) (dashUnsafe r)
  end.

Definition hexDigit (n : nat) : ascii :=
  if n <? 10 then ascii_of_nat (48 + n) else ascii_of_nat (55 + n).

Definition percent (n : nat) : string :=
  String "%" (String (hexDigit (n / 16)) (String (hexDigit (n mod 16)) EmptyString)).

(** The characters [encodeURIComponent] leaves alone: A-Z a-z 0-9 - _ . ! ~ * ' ( ) *)
Definition isUnreserved (c : ascii) : bool :=
  let n := nat_of_ascii c in
  ((65 <=? n) && (n <=? 90)) || ((97 <=? n) && (n <=? 122)) ||
  ((48 <=? n) && (n <=? 57)) ||
  (n =? 45) || (n =? 95) || (n =? 46) || (n =? 33) || (n =? 126) ||
  (n =? 42) || (n =? 39) || (n =? 40) || (n =? 41).

(** [encodeURIComponent(s)]: the UTF-8 bytes of every other code unit,
    percent-escaped (one byte below 128, two bytes from 128 to 255). *)
Fixpoint encodeURIComponent (s : string) : string :=
  match s with
  | EmptyString => EmptyString
  | String c r =>
      let n := nat_of_ascii c in
      (if isUnreserved c then String c EmptyString
       else if n <? 128 then percent n
       else percent (192 + n / 64) ++ percent (128 + n mod 64))
      ++ encodeURIComponent r
  end.

End Js.


(** ** Values parsed from JSON bodies *)

Module Json.

(** A JSON value as [JSON.parse] yields it.  Numbers are integers in the
    safe range; an object lists its own properties. *)
Inductive JSON : Type :=
  | JNull
  | JBool (b : bool)
  | JNum (z : Z)
  | JStr (s : string)
  | JArr (items : list JSON)
  | JObj (fields : list (string * JSON)).

Fixpoint lookup (k : string) (fields : list (string * JSON)) : option JSON :=
  match fields with
  | [] => None
  | (k', v) :: rest => if String.eqb k k' then Some v else lookup k rest
  end.

(** [v.k] for a value [v] other than [null], for the property names the
    server reads ([id], [status], [error], [logs], [output], [url],
    [secure_url], [data]), none of which a prototype provides. *)
Definition prop (k : string) (v : JSON) : option JSON :=
  match v with
  | JObj fields => lookup k fields
  | _ => None
  end.

(** [v?.k] *)
Definition optProp (k : string) (v : option JSON) : option JSON :=
  match v with
  | None | Some JNull => None
  | Some v' => prop k v'
  end.

(** Truthiness. *)
Definition truthy (v : option JSON) : bool :=
  match v with
  | None | Some JNull => false
  | Some (JBool b) => b
  | Some (JNum z) => negb (Z.eqb z 0)
  | Some (JStr s) => negb (String.eqb s "")
  | Some (JArr _) | Some (JObj _) => true
  end.

(** [a || b] *)
Definition or (a b : option JSON) : option JSON := if truthy a then a else b.

(** [String(v)] and [`${v}`] for a JSON value: an array joins its elements
    with commas, writing nothing for [null]; an object without a [toString]
    of its own prints as [[object Object]]. *)
Fixpoint toStr (v : JSON) : string :=
  match v with
  | JNull => "null"
  | JBool true => "true"
  | JBool false => "false"
  | JNum z => NilEmpty.string_of_int (Z.to_int z)
  | JStr s => s
  | JArr items =>
      String.concat ","
        (map (fun x => match x with JNull => "" | _ => toStr x end) items)
  | JObj _ => "[object Object]"
  end.

Definition toString (v : option JSON) : string :=
  match v with
  | None => "undefined"
  | Some v' => toStr v'
  end.

(** [v === s] for a string literal [s]. *)
Definition isStr (s : string) (v : option JSON) : bool :=
  match v with
  | Some (JStr s') => String.eqb s' s
  | _ => false
  end.

End Json.
Export Json.

(** ** The outside world and the effects of a run *)

Inductive Method : Type := GET | POST | PUT.

(** What a request carries besides its URL. *)
Inductive Payload : Type :=
  | NoBody
  | Multipart (fields : list (string * string))
              (fileField filename contentType : string) (file : list Byte.byte)
  | RawBytes (contentType contentLength : string) (file : list Byte.byte)
  | JsonBody (j : JSON).

Record Request : Type := mkRequest {
  req_method : Method;
  req_url : string;
  req_authorization : option string;
  req_payload : Payload
}.

(** The body of a response: reading it may reject ([BodyError]); otherwise
    [text()] resolves to [text] and [json()] to [parsed], which is [inl msg]
    when the text is not JSON. *)
Inductive Body : Type :=
  | BodyError (msg : string)
  | BodyText (text : string) (parsed : string + JSON).

Record Response : Type := mkResponse {
  resp_status : nat;
  resp_body : Body
}.

(** [resp.ok]: the status is in the range 200-299. *)
Definition resp_ok (r : Response) : bool :=
  (200 <=? resp_status r) && (resp_status r <? 300).

(** A [fetch] either rejects (no connection, DNS failure, ...) or resolves
    to a response, whatever its status. *)
Inductive FetchOutcome : Type :=
  | NetworkError (msg : string)
  | Resp (r : Response).

(** The answers of the outside: [net n] to the n-th [fetch] of a run and
    [clock n] to its n-th [Date.now()], in milliseconds. *)
Record World : Type := mkWorld {
  net : nat -> FetchOutcome;
  clock : nat -> Z
}.

Inductive Level : Type := LogLevel | WarnLevel | ErrorLevel.

(** What a run does to the outside.  [EConsole] keeps the string arguments
    of a console call and leaves the objects out. *)
Inductive Event : Type :=
  | EFetch (r : Request)
  | ESleep (ms : Z)
  | EConsole (l : Level) (args : list string)
  | EOnLog (msg : string).

(** How many requests were issued and how often the clock was read, and
    what was done so far, oldest event first. *)
Record State : Type := mkState {
  fetched : nat;
  clockReads : nat;
  trace : list Event
}.

Definition init : State := mkState 0 0 [].

(** How a computation ends: with a value, with a thrown error, or cut off
    because its fuel is spent. *)
Inductive Outcome (A : Type) : Type :=
  | Ret (a : A)
  | Throw (msg : string)
  | OutOfFuel.
Arguments Ret {A} a.
Arguments Throw {A} msg.
Arguments OutOfFuel {A}.

Definition M (A : Type) : Type := World -> State -> Outcome A * State.

Definition ret {A} (a : A) : M A := fun _ s => (Ret a, s).

Definition throw {A} (msg : string) : M A := fun _ s => (Throw msg, s).

Definition bind {A B} (m : M A) (k : A -> M B) : M B :=
  fun w s =>
    match m w s with
    | (Ret a, s') => k a w s'
    | (Throw e, s') => (Throw e, s')
    | (OutOfFuel, s') => (OutOfFuel, s')
    end.

Notation "x <- m ;; k" := (bind m (fun x => k))
  (at level 61, m at next level, right associativity).
Notation "m ;;; k" := (bind m (fun _ => k))
  (at level 61, right associativity).

(** [try { m } catch (e) { h e }] *)
Definition tryCatch {A} (m : M A) (h : string -> M A) : M A :=
  fun w s =>
    match m w s with
    | (Throw e, s') => h e w s'
    | r => r
    end.

Definition emit (e : Event) : M unit :=
  fun _ s => (Ret tt, mkState (fetched s) (clockReads s) (trace s ++ [e])%list).

(** [await fetch(...)] *)
Definition fetch (r : Request) : M Response :=
  fun w s =>
    let s' := mkState (S (fetched s)) (clockReads s) (trace s ++ [EFetch r])%list in
    match net w (fetched s) with
    | NetworkError msg => (Throw msg, s')
    | Resp resp => (Ret resp, s')
    end.

(** [Date.now()] *)
Definition now : M Z :=
  fun w s => (Ret (clock w (clockReads s)),
              mkState (fetched s) (S (clockReads s)) (trace s)).

(** [await new Promise((r) => setTimeout(r, ms))] *)
Definition sleep (ms : Z) : M unit := emit (ESleep ms).

Definition console (l : Level) (args : list string) : M unit := emit (EConsole l args).

(** [console.error(label, e?.message || e)] for a caught error [e]. *)
Definition consoleError (label e : string) : M unit :=
  console ErrorLevel (match e with EmptyString => [label] | _ => [label; e] end).

(** [await resp.text()] *)
Definition respText (r : Response) : M string :=
  match resp_body r with
  | BodyError msg => throw msg
  | BodyText t _ => ret t
  end.

(** [await resp.json()] *)
Definition respJson (r : Response) : M JSON :=
  match resp_body r with
  | BodyError msg => throw msg
  | BodyText _ (inl msg) => throw msg
  | BodyText _ (inr j) => ret j
  end.

(** [await resp.text().catch(() => "")] *)
Definition textOrEmpty (r : Response) : M string :=
  tryCatch (respText r) (fun _ => ret "").

(** [await resp.json().catch(() => ({}))] *)
Definition jsonOrEmpty (r : Response) : M JSON :=
  tryCatch (respJson r) (fun _ => ret (JObj [])).

(** [v.k]: a [TypeError] when [v] is [null]. *)
Definition member (k : string) (v : JSON) : M (option JSON) :=
  match v with
  | JNull => throw ("Cannot read properties of null (reading '" ++ k ++ "')")
  | _ => ret (prop k v)
  end.

(** [v.replace(/^http:\/\//, "https://")]: a [TypeError] unless [v] is a
    string, no other JSON value having a [replace] method. *)
Definition replaceHttpOf (v : option JSON) : M string :=
  match v with
  | Some (JStr s) => ret (Js.replaceHttp s)
  | _ => throw "url.replace is not a function"
  end.

(** ** Observing a run *)

(** The requests of a trace, in the order they were issued. *)
Fixpoint fetches (t : list Event) : list Request :=
  match t with
  | [] => []
  | EFetch r :: rest => r :: fetches rest
  | _ :: rest => fetches rest
  end.

(** The URLs a trace reports as upload results: the lines
    [<backend> upload ok -> <url>]. *)
Fixpoint uploadResults (t : list Event) : list string :=
  match t with
  | [] => []
  | EConsole LogLevel [label; url] :: rest =>
      if Js.endsWith "upload ok ->" label then url :: uploadResults rest
      else uploadResults rest
  | _ :: rest => uploadResults rest
  end.

(** The failures a trace records: its warnings and errors. *)
Fixpoint failureRecords (t : list Event) : list (list string) :=
  match t with
  | [] => []
  | EConsole WarnLevel args :: rest => args :: failureRecords rest
  | EConsole ErrorLevel args :: rest => args :: failureRecords rest
  | _ :: rest => failureRecords rest
  end.

(** A world in which every request gets the answer [o]. *)
Definition answering (o : FetchOutcome) : World := mkWorld (fun _ => o) (fun _ => 0%Z).

(** ** The server *)

(** [process.env], read once at start-up. *)
Record Env : Type := mkEnv {
  env_REPLICATE_API_TOKEN : option string;
  env_REPLICATE_MODEL_VERSION : option string;
  env_CLOUDINARY_CLOUD_NAME : option string;
  env_CLOUDINARY_UPLOAD_PRESET : option string
}.

(** The upload backends of [uploadToReplicate]. *)
Inductive Backend : Type := Cloudinary | Catbox | Tmpfiles | TransferSh.

(** [{ model, version }] as [parseReplicateModelVersion] returns it;
    [None] is [null]. *)
Record ModelVersion : Type := mkModelVersion {
  model : option string;
  version : option string
}.

(** A non-empty string, or [null]: [s || null]. *)
Definition orNull (s : option string) : option string :=
  match s with
  | Some (String c r) => Some (String c r)
  | _ => None
  end.

Definition parseReplicateModelVersion (val : option string) : ModelVersion :=
  match val with
  | None | Some EmptyString => mkModelVersion None None
  | Some v =>
      let hasColon := Js.includes ":" v in
      if hasColon then
        let parts := Js.split ":" v in
        mkModelVersion (orNull (nth_error parts 0)) (orNull (nth_error parts 1))
      else mkModelVersion None (Some v)
  end.

(** The class [[^\/\?\#]]: every character but [/], [?] and [#]. *)
Definition isSegmentChar (c : ascii) : bool :=
  negb (Ascii.eqb c "/" || Ascii.eqb c "?" || Ascii.eqb c "#").

(** [url.match(/^https:\/\/tmpfiles\.org\/([^\/\?\#]+)/)]: the captured
    group when the expression matches. *)
Definition matchTmpfiles (url : string) : option string :=
  match Js.stripPrefix "https://tmpfiles.org/" url with
  | Some rest =>
      match Js.takeWhile isSegmentChar rest with
      | EmptyString => None
      | seg => Some seg
      end
  | None => None
  end.

Section Server.

Variable env : Env.

Definition REPLICATE_API_TOKEN : option string := env_REPLICATE_API_TOKEN env.
Definition REPLICATE_MODEL_VERSION : option string := env_REPLICATE_MODEL_VERSION env.
Definition CLOUDINARY_CLOUD_NAME : string := Js.orElse (env_CLOUDINARY_CLOUD_NAME env) "".
Definition CLOUDINARY_UPLOAD_PRESET : string := Js.orElse (env_CLOUDINARY_UPLOAD_PRESET env) "".

Definition REPLICATE_MODEL_SLUG : option string :=
  model (parseReplicateModelVersion REPLICATE_MODEL_VERSION).
Definition REPLICATE_VERSION_ID : option string :=
  version (parseReplicateModelVersion REPLICATE_MODEL_VERSION).

(** *** Upload strategy chain *)

Section Upload.

Variable fileBuffer : list Byte.byte.
Variable filename : option string.

Definition contentType : string :=
  let lower := Js.toLowerCase (Js.orElse filename "") in
  if Js.endsWith ".mov" lower then "video/quicktime"
  else if Js.endsWith ".mp4" lower then "video/mp4"
  else "video/mp4".

Definition cloudinaryConfigured : bool :=
  negb (String.eqb CLOUDINARY_CLOUD_NAME "") &&
  negb (String.eqb CLOUDINARY_UPLOAD_PRESET "").

Definition safeName : string :=
  let rawName :=
    Js.dashUnsafe (Js.collapseSpaces (Js.toLowerCase (Js.orElse filename "upload.mp4"))) in
  Js.encodeURIComponent rawName.

(** The one request each backend gets. *)
Definition uploadRequest (b : Backend) : Request :=
  match b with
  | Cloudinary =>
      mkRequest POST
        ("https://api.cloudinary.com/v1_1/" ++ CLOUDINARY_CLOUD_NAME ++ "/video/upload")
        None
        (Multipart [("upload_preset", CLOUDINARY_UPLOAD_PRESET)] "file"
           (Js.orElse filename "upload.mp4") contentType fileBuffer)
  | Catbox =>
      mkRequest POST "https://catbox.moe/user/api.php" None
        (Multipart [("reqtype", "fileupload")] "fileToUpload"
           (Js.orElse filename "upload.mp4") contentType fileBuffer)
  | Tmpfiles =>
      mkRequest POST "https://tmpfiles.org/api/v1/upload" None
        (Multipart [] "file" (Js.orElse filename "upload.mp4") contentType fileBuffer)
  | TransferSh =>
      mkRequest PUT ("https://transfer.sh/" ++ safeName) None
        (RawBytes contentType (Js.ofNat (List.length fileBuffer)) fileBuffer)
  end.

(** Each [try { ... } catch (e) { ... }] block of [uploadToReplicate] is a
    computation that yields [Some url] where the block executes
    [return url], and [None] where control leaves the block for the next
    one. *)

(** 0) Cloudinary unsigned upload, when configured. *)
Definition tryCloudinary : M (option string) :=
  tryCatch
    (if cloudinaryConfigured then
       resp <- fetch (uploadRequest Cloudinary) ;;
       if negb (resp_ok resp) then
         text <- textOrEmpty resp ;;
         throw ("cloudinary upload failed: " ++ Js.ofNat (resp_status resp) ++ " " ++ text)
       else
         j <- jsonOrEmpty resp ;;
         secure_url <- member "secure_url" j ;;
         url0 <- member "url" j ;;
         url <- replaceHttpOf (Json.or (Json.or secure_url url0) (Some (JStr ""))) ;;
         match url with
         | String _ _ =>
             console LogLevel ["cloudinary upload ok ->"; url] ;;;
             ret (Some url)
         | EmptyString =>
             console WarnLevel ["cloudinary upload returned no url"] ;;;
             ret None
         end
     else ret None)
    (fun e => consoleError "cloudinary upload error:" e ;;; ret None).

(** 1) catbox.moe *)
Definition tryCatbox : M (option string) :=
  tryCatch
    (respCat <- fetch (uploadRequest Catbox) ;;
     if negb (resp_ok respCat) then
       text <- textOrEmpty respCat ;;
       throw ("catbox upload failed: " ++ Js.ofNat (resp_status respCat) ++ " " ++ text)
     else
       body <- respText respCat ;;
       let catUrl := Js.replaceHttp (Js.trim body) in
       if negb (String.eqb catUrl "") && Js.startsWith "https://files.catbox.moe/" catUrl then
         console LogLevel ["catbox upload ok ->"; catUrl] ;;;
         ret (Some catUrl)
       else
         console WarnLevel ["catbox upload returned unexpected url:"; catUrl] ;;;
         ret None)
    (fun e => consoleError "catbox upload error:" e ;;; ret None).

(** 2) tmpfiles.org, its link rewritten to the direct-download form. *)
Definition tryTmpfiles : M (option string) :=
  tryCatch
    (r2 <- fetch (uploadRequest Tmpfiles) ;;
     if negb (resp_ok r2) then
       text <- textOrEmpty r2 ;;
       throw ("tmpfiles upload failed: " ++ Js.ofNat (resp_status r2) ++ " " ++ text)
     else
       j <- jsonOrEmpty r2 ;;
       let url := Json.or (optProp "url" (optProp "data" (Some j))) (optProp "url" (Some j)) in
       if Json.truthy url then
         url1 <- replaceHttpOf url ;;
         let m := matchTmpfiles url1 in
         let url2 := match m with
                     | Some m1 => "https://tmpfiles.org/dl/" ++ m1
                     | None => url1
                     end in
         console LogLevel ["tmpfiles upload ok ->"; url2] ;;;
         ret (Some url2)
       else
         console WarnLevel ["tmpfiles upload returned no url, falling back..."] ;;;
         ret None)
    (fun e => consoleError "tmpfiles upload error:" e ;;; ret None).

(** 3) transfer.sh, the last fallback. *)
Definition tryTransferSh : M (option string) :=
  tryCatch
    (tsResp <- fetch (uploadRequest TransferSh) ;;
     if negb (resp_ok tsResp) then
       text <- textOrEmpty tsResp ;;
       throw ("transfer.sh upload failed: " ++ Js.ofNat (resp_status tsResp) ++ " " ++ text)
     else
       body <- respText tsResp ;;
       let publicUrl := Js.replaceHttp (Js.trim body) in
       console LogLevel ["transfer.sh upload ok ->"; publicUrl] ;;;
       ret (Some publicUrl))
    (fun e => consoleError "transfer.sh upload error:" e ;;; ret None).

(** A block followed by the rest of the function: the rest runs only when
    the block did not return. *)
Definition orNext (block : M (option string)) (rest : M string) : M string :=
  r <- block ;;
  match r with
  | Some url => ret url
  | None => rest
  end.

Definition uploadToReplicate : M string :=
  orNext tryCloudinary
    (orNext tryCatbox
       (orNext tryTmpfiles
          (orNext tryTransferSh
             (throw "All upload strategies failed (catbox.moe, tmpfiles.org, transfer.sh)."))))%string.

(** The block of a backend, and the backends in the order the function
    reaches them: Cloudinary takes part only when it is configured. *)
Definition attemptBlock (b : Backend) : M (option string) :=
  match b with
  | Cloudinary => tryCloudinary
  | Catbox => tryCatbox
  | Tmpfiles => tryTmpfiles
  | TransferSh => tryTransferSh
  end.

Definition chain : list Backend :=
  if cloudinaryConfigured then [Cloudinary; Catbox; Tmpfiles; TransferSh]
  else [Catbox; Tmpfiles; TransferSh].

(** The success predicate of a backend: the URL its block returns when the
    backend answers [o], if it returns one. *)
Definition attemptResult (b : Backend) (o : FetchOutcome) : option string :=
  match fst (attemptBlock b (answering o) init) with
  | Ret r => r
  | _ => None
  end.

(** What the block of a backend writes to the console when the backend
    answers [o]. *)
Definition attemptLog (b : Backend) (o : FetchOutcome) : list Event :=
  skipn 1 (trace (snd (attemptBlock b (answering o) init))).

(** The chain as the specification describes it: an ordered list of
    strategies, each attempted once with the next answer of the network;
    the first success is the result, and exhaustion is the aggregate
    error. *)
Fixpoint firstSuccess (bs : list Backend) : M string :=
  match bs with
  | [] => throw "All upload strategies failed (catbox.moe, tmpfiles.org, transfer.sh)."
  | b :: rest =>
      fun w s =>
        let o := net w (fetched s) in
        let s' := mkState (S (fetched s)) (clockReads s)
                    (trace s ++ EFetch (uploadRequest b) :: attemptLog b o)%list in
        match attemptResult b o with
        | Some url => (Ret url, s')
        | None => firstSuccess rest w s'
        end
  end.

(** The label of the line a backend's block logs on success. *)
Definition okLabel (b : Backend) : string :=
  match b with
  | Cloudinary => "cloudinary upload ok ->"
  | Catbox => "catbox upload ok ->"
  | Tmpfiles => "tmpfiles upload ok ->"
  | TransferSh => "transfer.sh upload ok ->"
  end.

End Upload.

(** *** Prediction orchestrator *)

(** The submission endpoint: the model/version one when a model slug was
    parsed, the generic one otherwise. *)
Definition endpoint : string :=
  match REPLICATE_MODEL_SLUG, Js.or REPLICATE_VERSION_ID REPLICATE_MODEL_VERSION with
  | Some (String a slug), Some (String b ver) =>
      "https://api.replicate.com/v1/models/" ++ String a slug ++
      "/versions/" ++ String b ver ++ "/predictions"
  | _, _ => "https://api.replicate.com/v1/predictions"
  end.

Definition authorization : option string :=
  Some ("Token " ++ Js.template REPLICATE_API_TOKEN).

Definition startRequest (videoUrl : string) : Request :=
  mkRequest POST endpoint authorization
    (JsonBody (JObj [("input", JObj [("video", JStr videoUrl)])])).

Definition pollRequest (predictionId : option JSON) : Request :=
  mkRequest GET ("https://api.replicate.com/v1/predictions/" ++ Json.toString predictionId)
    authorization NoBody.

(** [10 * 60 * 1000]: ten minutes, in milliseconds. *)
Definition timeoutMs : Z := (10 * 60 * 1000)%Z.

(** [["queued", "starting", "processing"].includes(status)] *)
Definition nonTerminal (status : option JSON) : bool :=
  Json.isStr "queued" status || Json.isStr "starting" status ||
  Json.isStr "processing" status.

(** [onLog(msg)]: a call of the caller's log sink. *)
Definition onLog (msg : string) : M unit := emit (EOnLog msg).

(** What follows the polling loop. *)
Definition finish (status : option JSON) (lastData : JSON) : M JSON :=
  if negb (Json.isStr "succeeded" status) then
    error <- member "error" lastData ;;
    throw ("Prediction ended with status: " ++ Json.toString status ++ ", error: " ++
           Json.toString (Json.or error (Some (JStr "unknown"))))
  else ret lastData.

(** The [while] loop of [runPredictionWithUrl] and what follows it.  Each
    unit of [fuel] pays for one iteration; a loop that would go on when the
    fuel is spent is [OutOfFuel]. *)
Fixpoint pollLoop (fuel : nat) (predictionId : option JSON) (startedAt : Z)
    (status : option JSON) (lastData : JSON) : M JSON :=
  if nonTerminal status then
    match fuel with
    | 0 => fun _ s => (OutOfFuel, s)
    | S fuel' =>
        t <- now ;;
        if (t - startedAt >? timeoutMs)%Z then
          onLog "error: timed out" ;;;
          throw "Prediction timed out."
        else
          sleep 2000 ;;;
          onLog ("poll: GET /v1/predictions/" ++ Json.toString predictionId) ;;;
          pollResp <- fetch (pollRequest predictionId) ;;
          if negb (resp_ok pollResp) then
            text <- respText pollResp ;;
            onLog ("poll: response " ++ Js.ofNat (resp_status pollResp) ++ " " ++
                   Js.slice0 200 text) ;;;
            throw ("Replicate prediction poll failed: " ++
                   Js.ofNat (resp_status pollResp) ++ " " ++ text)
          else
            lastData' <- respJson pollResp ;;
            status' <- member "status" lastData' ;;
            onLog ("status: " ++ Json.toString status') ;;;
            pollLoop fuel' predictionId startedAt status' lastData'
    end
  else finish status lastData.

Definition runPredictionWithUrl (fuel : nat) (videoUrl : string) : M JSON :=
  onLog ("start: POST " ++ endpoint) ;;;
  onLog ("input: keys=video video=" ++ videoUrl) ;;;
  console LogLevel ["Starting Replicate prediction -> endpoint:"; endpoint; "input keys:"] ;;;
  startResp <- fetch (startRequest videoUrl) ;;
  onLog ("start: response " ++ Js.ofNat (resp_status startResp)) ;;;
  if negb (resp_ok startResp) then
    text <- respText startResp ;;
    throw ("Replicate prediction start failed: " ++
           Js.ofNat (resp_status startResp) ++ " " ++ text)
  else
    startData <- respJson startResp ;;
    predictionId <- member "id" startData ;;
    status <- member "status" startData ;;
    startedAt <- now ;;
    pollLoop fuel predictionId startedAt status startData.

(** *** Handlers *)

Inductive ResBody : Type :=
  | ErrorBody (error : string)
  | ResultBody (status output : option JSON) (logs : string)
  | HealthBody (ok : bool) (service : string) (replicateConfigured : bool).

Record HttpResponse : Type := mkHttpResponse {
  res_status : nat;
  res_body : ResBody
}.

(** [req.file] as multer leaves it. *)
Record UploadedFile : Type := mkUploadedFile {
  buffer : option (list Byte.byte);
  originalname : option string
}.

Record HttpRequest : Type := mkHttpRequest {
  isJson : bool;            (* req.is("application/json") *)
  body : option JSON;       (* req.body *)
  file : option UploadedFile (* req.file *)
}.

(** [GET /api/health] *)
Definition apiHealth : HttpResponse :=
  mkHttpResponse 200
    (HealthBody true "SoraWatermarkCleaner"
       (Js.truthy REPLICATE_API_TOKEN && Js.truthy REPLICATE_MODEL_VERSION)).

Fixpoint onLogMessages (t : list Event) : list string :=
  match t with
  | [] => []
  | EOnLog m :: r => m :: onLogMessages r
  | _ :: r => onLogMessages r
  end.

(** Run [m] with the sink [(m) => logs.push(m)]: the messages it was called
    with, in order, next to the result. *)
Definition collectingLogs {A} (m : M A) : M (A * list string) :=
  fun w s =>
    match m w s with
    | (Ret a, s') => (Ret (a, onLogMessages (skipn (List.length (trace s)) (trace s'))), s')
    | (Throw e, s') => (Throw e, s')
    | (OutOfFuel, s') => (OutOfFuel, s')
    end.

Definition predictionResponse (prediction : JSON) (logs : list string) : M HttpResponse :=
  status <- member "status" prediction ;;
  output <- member "output" prediction ;;
  plogs <- member "logs" prediction ;;
  ret (mkHttpResponse 200
         (ResultBody status output
            (Js.joinLines (logs ++ (if Json.truthy plogs then [Json.toString plogs] else []))%list))).

(** [POST /api/remove] *)
Definition apiRemove (fuel : nat) (req : HttpRequest) : M HttpResponse :=
  tryCatch
    (if negb (Js.truthy REPLICATE_API_TOKEN) || negb (Js.truthy REPLICATE_MODEL_VERSION) then
       ret (mkHttpResponse 500
              (ErrorBody "Server not configured. Set REPLICATE_API_TOKEN and REPLICATE_MODEL_VERSION."))
     else if isJson req && Json.truthy (body req) && Json.truthy (optProp "url" (body req)) then
       let videoUrl := Js.trim (Json.toString (optProp "url" (body req))) in
       match videoUrl with
       | EmptyString => ret (mkHttpResponse 400 (ErrorBody "Invalid URL."))
       | _ =>
           r <- collectingLogs (runPredictionWithUrl fuel videoUrl) ;;
           predictionResponse (fst r) (snd r)
       end
     else
       match file req with
       | Some f =>
           match buffer f, originalname f with
           | Some buf, Some (String c name) =>
               tempUrl <- uploadToReplicate buf (Some (String c name)) ;;
               r <- collectingLogs (runPredictionWithUrl fuel tempUrl) ;;
               predictionResponse (fst r) (("upload: ok -> " ++ tempUrl) :: snd r)
           | _, _ => ret (mkHttpResponse 400 (ErrorBody "Invalid file upload."))
           end
       | None =>
           ret (mkHttpResponse 400
                  (ErrorBody "Provide either JSON {url} or multipart with 'file'."))
       end)
    (fun err =>
       console ErrorLevel [] ;;;
       ret (mkHttpResponse 500 (ErrorBody (Js.orElse (Some err) "Server error")))).

End Server.

(** ** Vocabulary of the properties *)

(** The URL field a backend's response is expected to carry: [secure_url]
    or [url] for Cloudinary, [data.url] or [url] for tmpfiles.org, and the
    trimmed body itself for catbox.moe and transfer.sh. *)
Definition expectedUrl (b : Backend) (r : Response) : option JSON :=
  match b, resp_body r with
  | Cloudinary, BodyText _ (inr j) => Json.or (prop "secure_url" j) (prop "url" j)
  | Tmpfiles, BodyText _ (inr j) =>
      Json.or (optProp "url" (optProp "data" (Some j))) (optProp "url" (Some j))
  | (Catbox | TransferSh), BodyText t _ => Some (JStr (Js.trim t))
  | _, _ => None
  end.

(** The field is there and well formed: a non-empty string, which for
    catbox.moe is a link under [https://files.catbox.moe/] once its scheme
    is coerced. *)
Definition wellFormedUrl (b : Backend) (v : option JSON) : bool :=
  match v with
  | Some (JStr (String c u)) =>
      match b with
      | Catbox => Js.startsWith "https://files.catbox.moe/" (Js.replaceHttp (String c u))
      | _ => true
      end
  | _ => false
  end.

(** The form in which a backend's URL is returned: the scheme coerced, and
    a tmpfiles.org link rewritten to its direct-download form. *)
Definition canonicalUrl (b : Backend) (u : string) : string :=
  match b with
  | Tmpfiles =>
      match matchTmpfiles (Js.replaceHttp u) with
      | Some m1 => "https://tmpfiles.org/dl/" ++ m1
      | None => Js.replaceHttp u
      end
  | _ => Js.replaceHttp u
  end.

(** Every character of [s] satisfies [f]. *)
Fixpoint every (f : ascii -> bool) (s : string) : bool :=
  match s with
  | EmptyString => true
  | String c r => f c && every f r
  end.

(** [rest] is empty or starts with one of [/], [?], [#]. *)
Definition endsSegment (rest : string) : bool :=
  match rest with
  | EmptyString => true
  | String c _ => negb (isSegmentChar c)
  end.

(** What [runPredictionWithUrl] does up to the answer to its submission,
    when the answer has the status code [code]. *)
Definition startEvents (env : Env) (videoUrl : string) (code : nat) : list Event :=
  [EOnLog ("start: POST " ++ endpoint env);
   EOnLog ("input: keys=video video=" ++ videoUrl);
   EConsole LogLevel ["Starting Replicate prediction -> endpoint:"; endpoint env; "input keys:"];
   EFetch (startRequest env videoUrl);
   EOnLog ("start: response " ++ Js.ofNat code)].

(** What one iteration of the polling loop does when its poll is answered
    with the job [j]: the delay, the poll, and their log lines. *)
Definition pollEvent (env : Env) (predictionId : option JSON) (j : JSON) : list Event :=
  [ESleep 2000;
   EOnLog ("poll: GET /v1/predictions/" ++ Json.toString predictionId);
   EFetch (pollRequest env predictionId);
   EOnLog ("status: " ++ Json.toString (prop "status" j))].

Definition pollEvents (env : Env) (predictionId : option JSON) (jobs : list JSON) : list Event :=
  flat_map (pollEvent env predictionId) jobs.

(** The answer [o] is a 2xx response whose body parses to the job [j]. *)
Definition answersJob (o : FetchOutcome) (j : JSON) : Prop :=
  exists r t, o = Resp r /\ resp_ok r = true /\ resp_body r = BodyText t (inr j).

(** From the [f]-th request and the [c]-th clock reading on, each iteration
    finds the time budget counted from [startedAt] not exceeded, and its
    poll is answered with the next job of [jobs]. *)
Fixpoint pollsAnswer (w : World) (startedAt : Z) (f c : nat) (jobs : list JSON) : Prop :=
  match jobs with
  | [] => True
  | j :: rest =>
      (clock w c - startedAt <= timeoutMs)%Z /\
      answersJob (net w f) j /\ j <> JNull /\
      pollsAnswer w startedAt (S f) (S c) rest
  end.

(** The status is non-terminal before each poll: that of [lastData] before
    the first poll, and that of each job before the next. *)
Fixpoint stillPolling (lastData : JSON) (jobs : list JSON) : Prop :=
  match jobs with
  | [] => True
  | j :: rest => nonTerminal (prop "status" lastData) = true /\ stillPolling j rest
  end.

(** The last job received: the last of [jobs], or [lastData] when there
    was no poll. *)
Definition jobAfter (lastData : JSON) (jobs : list JSON) : JSON := List.last jobs lastData.

(** ** Scenarios

    Concrete environments and worlds, used to run the model. *)

Module Scenario.

(** A double quote, for writing JSON texts. *)
Definition dq : string := String (ascii_of_nat 34) EmptyString.

(** A 200 response whose body is the plain text [t]. *)
Definition okText (t : string) : FetchOutcome :=
  Resp (mkResponse 200 (BodyText t (inl "Unexpected token in JSON at position 0"))).

(** A 200 response whose body is the JSON text [t], which parses to [j]. *)
Definition okJson (t : string) (j : JSON) : FetchOutcome :=
  Resp (mkResponse 200 (BodyText t (inr j))).

Definition unavailable : FetchOutcome :=
  Resp (mkResponse 503 (BodyText "Service Unavailable" (inl "Unexpected token S in JSON at position 0"))).

(** Replicate configured, Cloudinary not. *)
Definition plainEnv : Env :=
  mkEnv (Some "r8_token") (Some "owner/name:abc123") None None.

(** Replicate and Cloudinary configured. *)
Definition cloudEnv : Env :=
  mkEnv (Some "r8_token") (Some "owner/name:abc123") (Some "demo") (Some "unsigned").

(** Nothing configured. *)
Definition emptyEnv : Env := mkEnv None None None None.

Definition clip : list Byte.byte := [Byte.x00; Byte.x00; Byte.x00; Byte.x18].

Definition steadyClock : nat -> Z := fun n => (1700000000000 + 2000 * Z.of_nat n)%Z.

(** Every upload backend is down. *)
Definition allDown : World := mkWorld (fun _ => unavailable) steadyClock.

(** The JSON text of a value whose strings need no escaping. *)
Fixpoint render (j : JSON) : string :=
  match j with
  | JNull => "null"
  | JBool true => "true"
  | JBool false => "false"
  | JNum z => NilEmpty.string_of_int (Z.to_int z)
  | JStr s => dq ++ s ++ dq
  | JArr items => "[" ++ String.concat "," (map render items) ++ "]"
  | JObj fields =>
      "{" ++ String.concat ","
               (map (fun kv => dq ++ fst kv ++ dq ++ ":" ++ render (snd kv)) fields) ++ "}"
  end.

(** A 200 response with the JSON value [j] as its body. *)
Definition okJsonOf (j : JSON) : FetchOutcome := okJson (render j) j.

(** The answer of tmpfiles.org that carries the link [url]. *)
Definition tmpfilesAnswer (url : string) : FetchOutcome :=
  okJsonOf (JObj [("status", JStr "success"); ("data", JObj [("url", JStr url)])]).

(** catbox.moe is down and tmpfiles.org answers with the link [url]. *)
Definition tmpfilesAnswers (url : string) : World :=
  mkWorld (fun n => match n with 1 => tmpfilesAnswer url | _ => unavailable end)
    steadyClock.

(** tmpfiles.org answers with a landing-page link, as it does. *)
Definition tmpfilesUp : World := tmpfilesAnswers "http://tmpfiles.org/123/clip.mp4".

(** catbox.moe answers 200 with an empty body; the others are down. *)
Definition catboxEmpty : World :=
  mkWorld (fun n => match n with 0 => okText "" | _ => unavailable end) steadyClock.

(** A prediction as Replicate reports it while it is not finished. *)
Definition job (status : string) : JSON :=
  JObj [("id", JStr "pred1"); ("status", JStr status)].

Definition doneJob : JSON :=
  JObj [("id", JStr "pred1"); ("status", JStr "succeeded");
        ("output", JStr "https://replicate.delivery/out.mp4")].

Definition failedJob : JSON :=
  JObj [("id", JStr "pred1"); ("status", JStr "failed");
        ("error", JStr "CUDA out of memory")].

(** The submission is answered [starting]; the polls are answered
    [processing], [processing], [succeeded]. *)
Definition threePolls : World :=
  mkWorld
    (fun n =>
       match n with
       | 0 => okJsonOf (job "starting")
       | 1 | 2 => okJsonOf (job "processing")
       | _ => okJsonOf doneJob
       end)
    steadyClock.

(** The submission is answered [processing]; the polls are answered
    [processing], [succeeded]. *)
Definition twoPolls : World :=
  mkWorld
    (fun n =>
       match n with
       | 0 | 1 => okJsonOf (job "processing")
       | _ => okJsonOf doneJob
       end)
    steadyClock.

(** The submission is answered [processing] and the first poll [failed]. *)
Definition failsAtFirstPoll : World :=
  mkWorld
    (fun n => match n with 0 => okJsonOf (job "processing") | _ => okJsonOf failedJob end)
    steadyClock.

(** The prediction never leaves [processing], and the third iteration
    begins eleven minutes after the submission. *)
Definition stalled : World :=
  mkWorld (fun _ => okJsonOf (job "processing"))
    (fun n => if n <? 3 then steadyClock n else (steadyClock 0 + 660000)%Z).

(** The prediction never leaves [processing]; the clock is steady. *)
Definition neverDone : World := mkWorld (fun _ => okJsonOf (job "processing")) steadyClock.

End Scenario.

(** ** The download proxy

    [GET /api/download]: the handler fetches the URL of the query and
    relays the answer as an attachment. *)

(** The class [[a-zA-Z0-9._-]]. *)
Definition isDownloadNameChar (c : ascii) : bool :=
  let n := nat_of_ascii c in
  ((97 <=? n) && (n <=? 122)) || ((65 <=? n) && (n <=? 90)) ||
  ((48 <=? n) && (n <=? 57)) ||
  (n =? 46) || (n =? 95) || (n =? 45).

(** [s.replace(/[^a-zA-Z0-9._-]/g, "_")] *)
Fixpoint underscoreUnsafe (s : string) : string :=
  match s with
  | EmptyString => EmptyString
  | String c r =>
      String (if isDownloadNameChar c then c else "_"%char) (underscoreUnsafe r)
  end.

(** [req.query]: the two parameters the handler reads. *)
Record DownloadQuery : Type := mkDownloadQuery {
  q_url : option JSON;
  q_filename : option JSON
}.

(** What the handler answers: a text with a status code, or the upstream
    body piped through under the two headers it sets. *)
Inductive DownloadResponse : Type :=
  | SendText (code : nat) (text : string)
  | Pipe (contentType contentDisposition : string) (upstreamBody : Body).

Definition doubleQuote : string := String (ascii_of_nat 34) EmptyString.

(** [String(req.query.filename || "cleaned.mp4").replace(...)] *)
Definition downloadFilename (q : DownloadQuery) : string :=
  underscoreUnsafe (Json.toString (Json.or (q_filename q) (Some (JStr "cleaned.mp4")))).

(** [String(req.query.url || "").trim()] *)
Definition downloadUrl (q : DownloadQuery) : string :=
  Js.trim (Json.toString (Json.or (q_url q) (Some (JStr "")))).

Section Download.

(** [upstream.headers.get("content-type")], which [Response] does not
    record. *)
Variable contentTypeOf : Response -> option string.

Definition apiDownload (q : DownloadQuery) : M DownloadResponse :=
  tryCatch
    (let url := downloadUrl q in
     let filename := downloadFilename q in
     match url with
     | EmptyString => ret (SendText 400 "Missing url")
     | _ =>
         upstream <- fetch (mkRequest GET url None NoBody) ;;
         if negb (resp_ok upstream) then
           text <- textOrEmpty upstream ;;
           ret (SendText 502
                  ("Upstream error " ++ Js.ofNat (resp_status upstream) ++ " " ++
                   Js.slice0 200 text))
         else
           ret (Pipe (Js.orElse (contentTypeOf upstream) "application/octet-stream")
                  ("attachment; filename=" ++ doubleQuote ++ filename ++ doubleQuote)
                  (resp_body upstream))
     end)
    (fun e => ret (SendText 500 (Js.orElse (Some e) "download proxy error"))).

End Download.

(** ** More vocabulary *)

(** The name a backend's block uses for it in its error lines. *)
Definition backendName (b : Backend) : string :=
  match b with
  | Cloudinary => "cloudinary"
  | Catbox => "catbox"
  | Tmpfiles => "tmpfiles"
  | TransferSh => "transfer.sh"
  end.

(** The message of the error a block catches when its backend cannot be
    reached (the message of the rejection) or answers outside 200-299 (the
    status and the body text, empty when the body cannot be read). *)
Definition failureLine (b : Backend) (o : FetchOutcome) : string :=
  match o with
  | NetworkError msg => msg
  | Resp r =>
      backendName b ++ " upload failed: " ++ Js.ofNat (resp_status r) ++ " " ++
      match resp_body r with
      | BodyText t _ => t
      | BodyError _ => ""
      end
  end.

(** The error line a block writes for the caught error of message [line]. *)
Definition errorRecord (b : Backend) (line : string) : Event :=
  EConsole ErrorLevel
    match line with
    | EmptyString => [backendName b ++ " upload error:"]
    | _ => [backendName b ++ " upload error:"; line]
    end.

(** Every poll (a GET) of the trace comes after a delay of 2000 ms that no
    other request has used: [slept] tells whether such a delay is
    pending. *)
Fixpoint pacedPolls (slept : bool) (t : list Event) : bool :=
  match t with
  | [] => true
  | ESleep ms :: rest => Z.eqb ms 2000 && pacedPolls true rest
  | EFetch r :: rest =>
      match req_method r with
      | GET => slept && pacedPolls false rest
      | _ => pacedPolls false rest
      end
  | _ :: rest => pacedPolls slept rest
  end.

(** A request that carries no [Authorization] header, or goes to the
    Replicate API. *)
Definition keepsToken (r : Request) : bool :=
  match req_authorization r with
  | None => true
  | Some _ => Js.startsWith "https://api.replicate.com/v1/" (req_url r)
  end.

(** A request to one of the five services the server talks to on behalf of
    [POST /api/remove]. *)
Definition knownEndpoint (r : Request) : bool :=
  Js.startsWith "https://api.cloudinary.com/v1_1/" (req_url r) ||
  String.eqb (req_url r) "https://catbox.moe/user/api.php" ||
  String.eqb (req_url r) "https://tmpfiles.org/api/v1/upload" ||
  Js.startsWith "https://transfer.sh/" (req_url r) ||
  Js.startsWith "https://api.replicate.com/v1/" (req_url r).

(** The computation [m] only appends to the trace, and every request it
    issues satisfies [P]. *)
Definition issuesOnly {A} (P : Request -> Prop) (m : M A) : Prop :=
  forall w s, exists evs,
    trace (snd (m w s)) = (trace s ++ evs)%list /\ Forall P (fetches evs).

(** Any character but the colon. *)
Definition notColon (c : ascii) : bool := negb (Ascii.eqb c ":").

(** The answer of [POST /api/remove] on a server that is not configured. *)
Definition notConfigured : HttpResponse :=
  mkHttpResponse 500
    (ErrorBody "Server not configured. Set REPLICATE_API_TOKEN and REPLICATE_MODEL_VERSION.").

Module Scenario2.

(** catbox.moe answers with a plain [http] link and a line feed. *)
Definition catboxUp : World :=
  mkWorld
    (fun n =>
       match n with
       | 0 => Scenario.okText ("http://files.catbox.moe/ab12cd.mp4" ++
                               String (ascii_of_nat 10) EmptyString)
       | 1 => Scenario.okJsonOf (Scenario.job "starting")
       | _ => Scenario.okJsonOf Scenario.doneJob
       end)
    Scenario.steadyClock.

(** tmpfiles.org answers with a link that already is a direct one. *)
Definition tmpfilesDirect : World :=
  Scenario.tmpfilesAnswers "https://tmpfiles.org/dl/123/clip.mp4".

(** Only transfer.sh is up, and it answers 200 with a blank body. *)
Definition transferShBlank : World :=
  mkWorld (fun n => match n with 2 => Scenario.okText "  " | _ => Scenario.unavailable end)
    Scenario.steadyClock.

(** Replicate refuses the submission. *)
Definition submissionRefused : World :=
  mkWorld
    (fun _ => Resp (mkResponse 401
                      (BodyText "Unauthenticated" (inl "Unexpected token U in JSON at position 0"))))
    Scenario.steadyClock.

(** The submission and the first poll are answered [processing]; the
    second poll is answered 500. *)
Definition pollBreaks : World :=
  mkWorld
    (fun n =>
       match n with
       | 0 | 1 => Scenario.okJsonOf (Scenario.job "processing")
       | _ => Resp (mkResponse 500
                      (BodyText "Internal Server Error"
                         (inl "Unexpected token I in JSON at position 0")))
       end)
    Scenario.steadyClock.

(** A page of 330 characters. *)
Definition longPage : string := String.concat "" (repeat "Not Found. " 30).

(** The upstream of a download answers 404 with a long page. *)
Definition upstreamMissing : World :=
  mkWorld
    (fun _ => Resp (mkResponse 404
                      (BodyText longPage (inl "Unexpected token N in JSON at position 0"))))
    Scenario.steadyClock.

(** The upstream of a download answers with the file. *)
Definition upstreamServes : World :=
  mkWorld (fun _ => Scenario.okText "video bytes") Scenario.steadyClock.

(** A download query whose file name tries to leave the header. *)
Definition slyQuery : DownloadQuery :=
  mkDownloadQuery (Some (JStr " https://replicate.delivery/out.mp4 "))
    (Some (JStr ("a" ++ doubleQuote ++ "; x=y.mp4"))).

End Scenario2.

(** * Properties *)

Ltac break_inner x :=
  lazymatch x with
  | context [match ?y with _ => _ end] => break_inner y
  | _ => destruct x eqn:?
  end.

Ltac break_match :=
  match goal with
  | |- context [match ?x with _ => _ end] => break_inner x
  end.

Ltac mstep :=
  cbv beta iota zeta delta
    [bind tryCatch fetch ret throw emit console consoleError sleep onLog now
     textOrEmpty jsonOrEmpty respText respJson member replaceHttpOf orNext
     init answering];
  cbn [net clock fetched clockReads trace fst snd].

Ltac mcrunch :=
  repeat (mstep; first [ progress (cbn [skipn app]) | break_match ]).

Lemma attemptBlock_run env buf name b w s :
  (b = Cloudinary -> cloudinaryConfigured env = true) ->
  attemptBlock env buf name b w s =
    (Ret (attemptResult env buf name b (net w (fetched s))),
     mkState (S (fetched s)) (clockReads s)
       (trace s ++ EFetch (uploadRequest env buf name b)
                :: attemptLog env buf name b (net w (fetched s)))%list).
Proof.
  intros Hc.
  unfold attemptResult, attemptLog.
  destruct b; cbn [attemptBlock];
    [ unfold tryCloudinary; rewrite (Hc eq_refl)
    | unfold tryCatbox | unfold tryTmpfiles | unfold tryTransferSh ].
  all: mstep.
  all: destruct (net w (fetched s)) as [msg | r].
  all: mcrunch.
  all: try discriminate.
  all: rewrite <- ?app_assoc; reflexivity.
Qed.

Lemma tryCloudinary_unconfigured env buf name w s :
  cloudinaryConfigured env = false ->
  tryCloudinary env buf name w s = (Ret None, s).
Proof.
  intros Hc. unfold tryCloudinary. rewrite Hc. reflexivity.
Qed.

Lemma orNext_attemptBlock env buf name b rest w s :
  (b = Cloudinary -> cloudinaryConfigured env = true) ->
  orNext (attemptBlock env buf name b) rest w s =
    let o := net w (fetched s) in
    let s' := mkState (S (fetched s)) (clockReads s)
                (trace s ++ EFetch (uploadRequest env buf name b)
                         :: attemptLog env buf name b o)%list in
    match attemptResult env buf name b o with
    | Some url => (Ret url, s')
    | None => rest w s'
    end.
Proof.
  intros Hc. unfold orNext, bind.
  rewrite attemptBlock_run by assumption.
  cbv zeta. destruct (attemptResult env buf name b (net w (fetched s))); reflexivity.
Qed.

(** The cascade of [try]/[catch] blocks is the generic chain over the
    configured backends. *)
Lemma uploadToReplicate_firstSuccess env buf name w s :
  uploadToReplicate env buf name w s = firstSuccess env buf name (chain env) w s.
Proof.
  unfold uploadToReplicate, chain.
  change (tryCatbox env buf name) with (attemptBlock env buf name Catbox).
  change (tryTmpfiles env buf name) with (attemptBlock env buf name Tmpfiles).
  change (tryTransferSh env buf name) with (attemptBlock env buf name TransferSh).
  assert (Hrest : forall w s,
    orNext (attemptBlock env buf name Catbox)
      (orNext (attemptBlock env buf name Tmpfiles)
         (orNext (attemptBlock env buf name TransferSh)
            (throw "All upload strategies failed (catbox.moe, tmpfiles.org, transfer.sh)."))) w s
    = firstSuccess env buf name [Catbox; Tmpfiles; TransferSh] w s).
  { intros w0 s0. cbn [firstSuccess].
    rewrite orNext_attemptBlock by discriminate. cbv zeta.
    destruct (attemptResult env buf name Catbox _); [reflexivity|].
    rewrite orNext_attemptBlock by discriminate. cbv zeta.
    destruct (attemptResult env buf name Tmpfiles _); [reflexivity|].
    rewrite orNext_attemptBlock by discriminate. cbv zeta.
    destruct (attemptResult env buf name TransferSh _); reflexivity. }
  destruct (cloudinaryConfigured env) eqn:Hc.
  - change (tryCloudinary env buf name) with (attemptBlock env buf name Cloudinary).
    rewrite orNext_attemptBlock by auto. cbn [firstSuccess]. cbv zeta.
    destruct (attemptResult env buf name Cloudinary _); [reflexivity|].
    apply Hrest.
  - unfold orNext at 1. unfold bind at 1.
    rewrite tryCloudinary_unconfigured by assumption.
    apply Hrest.
Qed.

(** *** Observations distribute over concatenated traces *)

Lemma fetches_app t1 t2 : fetches (t1 ++ t2) = (fetches t1 ++ fetches t2)%list.
Proof.
  induction t1 as [|e t1 IH]; [reflexivity|].
  destruct e; cbn; rewrite IH; reflexivity.
Qed.

Lemma uploadResults_app t1 t2 :
  uploadResults (t1 ++ t2) = (uploadResults t1 ++ uploadResults t2)%list.
Proof.
  induction t1 as [|e t1 IH]; [reflexivity|].
  cbn [app uploadResults].
  repeat break_match; subst; cbn [app]; rewrite ?IH; reflexivity.
Qed.

Lemma failureRecords_app t1 t2 :
  failureRecords (t1 ++ t2) = (failureRecords t1 ++ failureRecords t2)%list.
Proof.
  induction t1 as [|e t1 IH]; [reflexivity|].
  destruct e as [| |[] args|]; cbn; rewrite IH; reflexivity.
Qed.

Lemma onLogMessages_app t1 t2 :
  onLogMessages (t1 ++ t2) = (onLogMessages t1 ++ onLogMessages t2)%list.
Proof.
  induction t1 as [|e t1 IH]; [reflexivity|].
  destruct e; cbn; rewrite IH; reflexivity.
Qed.

(** *** One attempt *)

Lemma okLabel_ends b : Js.endsWith "upload ok ->" (okLabel b) = true.
Proof. destruct b; reflexivity. Qed.

(** An attempt writes one console line: the success line with the URL it
    returns, or a warning or error when it returns nothing. *)
Lemma attemptLog_shape env buf name b o :
  (b = Cloudinary -> cloudinaryConfigured env = true) ->
  match attemptResult env buf name b o with
  | Some url => attemptLog env buf name b o = [EConsole LogLevel [okLabel b; url]]
  | None => exists lvl args,
      attemptLog env buf name b o = [EConsole lvl args] /\ lvl <> LogLevel
  end.
Proof.
  intros Hc.
  unfold attemptResult, attemptLog.
  destruct b; cbn [attemptBlock okLabel];
    [ unfold tryCloudinary; rewrite (Hc eq_refl)
    | unfold tryCatbox | unfold tryTmpfiles | unfold tryTransferSh ].
  all: mstep.
  all: destruct o as [msg | r].
  all: mcrunch.
  all: try discriminate.
  all: try reflexivity.
  all: eexists _, _; split; [reflexivity | discriminate].
Qed.

(** *** The generic chain *)

Section FirstSuccess.

Variable env : Env.
Variable buf : list Byte.byte.
Variable name : option string.

(** When the attempt at position [i] is the first to succeed, the chain
    issues the requests of positions [0..i] in order and nothing else,
    records [i] failures and one upload result, and returns that result. *)
Lemma firstSuccess_hit bs : forall i b url w s,
  (In Cloudinary bs -> cloudinaryConfigured env = true) ->
  nth_error bs i = Some b ->
  (forall j c, j < i -> nth_error bs j = Some c ->
     attemptResult env buf name c (net w (fetched s + j)) = None) ->
  attemptResult env buf name b (net w (fetched s + i)) = Some url ->
  exists evs,
    firstSuccess env buf name bs w s =
      (Ret url, mkState (fetched s + S i) (clockReads s) (trace s ++ evs)%list) /\
    fetches evs = map (uploadRequest env buf name) (firstn (S i) bs) /\
    uploadResults evs = [url] /\
    List.length (failureRecords evs) = i.
Proof.
  induction bs as [|b0 rest IH]; intros i b url w s Hc Hnth Hbefore Hhit.
  - destruct i; discriminate.
  - cbn [firstSuccess]. cbv zeta.
    pose proof (attemptLog_shape env buf name b0 (net w (fetched s))) as Hlog.
    destruct i as [|i].
    + injection Hnth as ->. rewrite Nat.add_0_r in Hhit.
      rewrite Hhit in *.
      rewrite Hlog by (intros ->; apply Hc; left; reflexivity).
      eexists. split; [rewrite Nat.add_1_r; reflexivity|].
      cbn. rewrite okLabel_ends. auto.
    + assert (Hfail : attemptResult env buf name b0 (net w (fetched s)) = None).
      { rewrite <- (Nat.add_0_r (fetched s)). apply Hbefore; [lia | reflexivity]. }
      rewrite Hfail in *.
      destruct Hlog as (lvl & args & Hlog & Hlvl);
        [intros ->; apply Hc; left; reflexivity|].
      rewrite Hlog.
      edestruct (IH i b url w (mkState (S (fetched s)) (clockReads s) (trace s ++ [EFetch (uploadRequest env buf name b0); EConsole lvl args])%list)) as (evs & Hrun & Hf & Hu & Hr);
        [ intros Hin; apply Hc; right; exact Hin
        | exact Hnth
        | | | ].
      * intros j c Hj Hc'. cbn [fetched].
        replace (S (fetched s) + j) with (fetched s + S j) by lia.
        apply Hbefore; [lia | exact Hc'].
      * cbn [fetched]. replace (S (fetched s) + i) with (fetched s + S i) by lia.
        exact Hhit.
      * rewrite Hrun. cbn [fetched clockReads trace].
        exists (EFetch (uploadRequest env buf name b0) :: EConsole lvl args :: evs).
        split; [|split; [|split]].
        -- f_equal. f_equal; [lia|]. rewrite <- app_assoc. reflexivity.
        -- cbn [fetches firstn map]. rewrite Hf. reflexivity.
        -- destruct lvl; [congruence | |]; cbn [uploadResults]; exact Hu.
        -- destruct lvl; [congruence | |]; cbn [failureRecords List.length];
             rewrite Hr; reflexivity.
Qed.

(** When every attempt fails, every backend of the chain was tried, in
    order, and the chain fails with its aggregate error. *)
Lemma firstSuccess_exhausted bs : forall w s,
  (In Cloudinary bs -> cloudinaryConfigured env = true) ->
  (forall j c, nth_error bs j = Some c ->
     attemptResult env buf name c (net w (fetched s + j)) = None) ->
  exists evs,
    firstSuccess env buf name bs w s =
      (Throw "All upload strategies failed (catbox.moe, tmpfiles.org, transfer.sh).",
       mkState (fetched s + List.length bs) (clockReads s) (trace s ++ evs)%list) /\
    fetches evs = map (uploadRequest env buf name) bs /\
    uploadResults evs = [] /\
    List.length (failureRecords evs) = List.length bs.
Proof.
  induction bs as [|b0 rest IH]; intros w s Hc Hall.
  - exists []. cbn. rewrite Nat.add_0_r, app_nil_r. destruct s; auto.
  - cbn [firstSuccess]. cbv zeta.
    pose proof (attemptLog_shape env buf name b0 (net w (fetched s))) as Hlog.
    assert (Hfail : attemptResult env buf name b0 (net w (fetched s)) = None).
    { rewrite <- (Nat.add_0_r (fetched s)). apply (Hall 0). reflexivity. }
    rewrite Hfail in *.
    destruct Hlog as (lvl & args & Hlog & Hlvl);
      [intros ->; apply Hc; left; reflexivity|].
    rewrite Hlog.
    edestruct (IH w (mkState (S (fetched s)) (clockReads s) (trace s ++ [EFetch (uploadRequest env buf name b0); EConsole lvl args])%list)) as (evs & Hrun & Hf & Hu & Hr);
      [ intros Hin; apply Hc; right; exact Hin | | ].
    + intros j c Hc'. cbn [fetched].
      replace (S (fetched s) + j) with (fetched s + S j) by lia.
      apply Hall. exact Hc'.
    + rewrite Hrun. cbn [fetched clockReads trace].
      exists (EFetch (uploadRequest env buf name b0) :: EConsole lvl args :: evs).
      split; [|split; [|split]].
      * f_equal. f_equal; [cbn [List.length]; lia|]. rewrite <- app_assoc. reflexivity.
      * cbn [fetches map]. rewrite Hf. reflexivity.
      * destruct lvl; [congruence | |]; cbn [uploadResults]; exact Hu.
      * destruct lvl; [congruence | |]; cbn [failureRecords List.length];
          rewrite Hr; reflexivity.
Qed.

(** Whatever the backends answer, the chain ends, having issued the
    requests of a prefix of the chain and recorded at most one upload
    result: the URL it returns, when it returns one. *)
Lemma firstSuccess_run bs : forall w s,
  (In Cloudinary bs -> cloudinaryConfigured env = true) ->
  exists n evs r,
    firstSuccess env buf name bs w s =
      (r, mkState (fetched s + n) (clockReads s) (trace s ++ evs)%list) /\
    n <= List.length bs /\
    fetches evs = map (uploadRequest env buf name) (firstn n bs) /\
    match r with
    | Ret url => uploadResults evs = [url] /\ 0 < n
    | Throw _ => uploadResults evs = [] /\ n = List.length bs
    | OutOfFuel => False
    end.
Proof.
  induction bs as [|b0 rest IH]; intros w s Hc.
  - exists 0, [], (Throw "All upload strategies failed (catbox.moe, tmpfiles.org, transfer.sh).").
    cbn. rewrite Nat.add_0_r, app_nil_r. destruct s; auto.
  - cbn [firstSuccess]. cbv zeta.
    pose proof (attemptLog_shape env buf name b0 (net w (fetched s))) as Hlog.
    destruct (attemptResult env buf name b0 (net w (fetched s))) as [url|].
    + rewrite Hlog by (intros ->; apply Hc; left; reflexivity).
      exists 1. eexists. exists (Ret url). split; [rewrite Nat.add_1_r; reflexivity|].
      cbn. rewrite okLabel_ends. repeat split; lia.
    + destruct Hlog as (lvl & args & Hlog & Hlvl);
        [intros ->; apply Hc; left; reflexivity|].
      rewrite Hlog.
      edestruct (IH w (mkState (S (fetched s)) (clockReads s) (trace s ++ [EFetch (uploadRequest env buf name b0); EConsole lvl args])%list)) as (n & evs & r & Hrun & Hn & Hf & Hr);
        [ intros Hin; apply Hc; right; exact Hin | ].
      rewrite Hrun. cbn [fetched clockReads trace].
      exists (S n), (EFetch (uploadRequest env buf name b0) :: EConsole lvl args :: evs), r.
      split; [|split; [|split]].
      * f_equal. f_equal; [lia|]. rewrite <- app_assoc. reflexivity.
      * cbn [List.length]; lia.
      * cbn [fetches firstn map]. rewrite Hf. reflexivity.
      * destruct r; destruct lvl; try congruence; cbn [uploadResults List.length];
          intuition (auto; lia).
Qed.

End FirstSuccess.

(** *** The upload chain *)

Lemma chain_configured env : In Cloudinary (chain env) -> cloudinaryConfigured env = true.
Proof.
  unfold chain. destruct (cloudinaryConfigured env); [reflexivity|].
  cbn. intros [H | [H | [H | []]]]; discriminate.
Qed.

(** C1. Every call of [uploadToReplicate] issues the requests of a prefix
    of the chain (Cloudinary when configured, then catbox.moe,
    tmpfiles.org, transfer.sh), in that order, and reports at most one
    upload result.  When the attempt at position [i] is the first whose
    success predicate holds, the requests are those of positions [0..i]
    and no other, and the call returns the one URL of that attempt. *)
Theorem upload_chain_short_circuit env buf name w s :
  let r := uploadToReplicate env buf name w s in
  (exists n evs,
     snd r = mkState (fetched s + n) (clockReads s) (trace s ++ evs)%list /\
     n <= List.length (chain env) /\
     fetches evs = map (uploadRequest env buf name) (firstn n (chain env)) /\
     List.length (uploadResults evs) <= 1 /\
     fst r <> OutOfFuel) /\
  (forall i b url,
     nth_error (chain env) i = Some b ->
     (forall j c, j < i -> nth_error (chain env) j = Some c ->
        attemptResult env buf name c (net w (fetched s + j)) = None) ->
     attemptResult env buf name b (net w (fetched s + i)) = Some url ->
     exists evs,
       r = (Ret url, mkState (fetched s + S i) (clockReads s) (trace s ++ evs)%list) /\
       fetches evs = map (uploadRequest env buf name) (firstn (S i) (chain env)) /\
       uploadResults evs = [url]).
Proof.
  cbv zeta. rewrite uploadToReplicate_firstSuccess. split.
  - destruct (firstSuccess_run env buf name (chain env) w s (chain_configured env))
      as (n & evs & r & Hrun & Hn & Hf & Hr).
    exists n, evs. rewrite Hrun. cbn [fst snd].
    repeat split; auto.
    + destruct r as [url | msg |]; [destruct Hr as [-> _] | destruct Hr as [-> _] | contradiction];
        cbn; lia.
    + destruct r; [discriminate | discriminate | contradiction].
  - intros i b url Hnth Hbefore Hhit.
    destruct (firstSuccess_hit env buf name (chain env) i b url w s
                (chain_configured env) Hnth Hbefore Hhit)
      as (evs & Hrun & Hf & Hu & _).
    exists evs. auto.
Qed.

Lemma upload_chain_short_circuit_witness :
  let env := Scenario.plainEnv in
  let w := Scenario.tmpfilesUp in
  nth_error (chain env) 1 = Some Tmpfiles /\
  (forall j c, j < 1 -> nth_error (chain env) j = Some c ->
     attemptResult env Scenario.clip (Some "clip.mp4") c (net w (fetched init + j)) = None) /\
  attemptResult env Scenario.clip (Some "clip.mp4") Tmpfiles (net w (fetched init + 1))
    = Some "https://tmpfiles.org/dl/123" /\
  exists evs,
    uploadToReplicate env Scenario.clip (Some "clip.mp4") w init =
      (Ret "https://tmpfiles.org/dl/123",
       mkState (fetched init + 2) (clockReads init) (trace init ++ evs)%list) /\
    fetches evs = map (uploadRequest env Scenario.clip (Some "clip.mp4"))
                    (firstn 2 (chain env)) /\
    uploadResults evs = ["https://tmpfiles.org/dl/123"].
Proof.
  cbv zeta.
  assert (H1 : nth_error (chain Scenario.plainEnv) 1 = Some Tmpfiles) by reflexivity.
  assert (H2 : forall j c, j < 1 -> nth_error (chain Scenario.plainEnv) j = Some c ->
     attemptResult Scenario.plainEnv Scenario.clip (Some "clip.mp4") c
       (net Scenario.tmpfilesUp (fetched init + j)) = None).
  { intros j c Hj. destruct j; [|lia]. intros Hc. injection Hc as <-. reflexivity. }
  assert (H3 : attemptResult Scenario.plainEnv Scenario.clip (Some "clip.mp4") Tmpfiles
                 (net Scenario.tmpfilesUp (fetched init + 1))
               = Some "https://tmpfiles.org/dl/123") by reflexivity.
  repeat split; try assumption.
  exact (proj2 (upload_chain_short_circuit Scenario.plainEnv Scenario.clip (Some "clip.mp4")
                  Scenario.tmpfilesUp init) 1 Tmpfiles "https://tmpfiles.org/dl/123" H1 H2 H3).
Defined.

(** When every attempt fails, the call fails with the aggregate error,
    having tried every backend of the chain. *)
Lemma upload_chain_exhausted env buf name w s :
  (forall j c, nth_error (chain env) j = Some c ->
     attemptResult env buf name c (net w (fetched s + j)) = None) ->
  exists evs,
    uploadToReplicate env buf name w s =
      (Throw "All upload strategies failed (catbox.moe, tmpfiles.org, transfer.sh).",
       mkState (fetched s + List.length (chain env)) (clockReads s) (trace s ++ evs)%list) /\
    fetches evs = map (uploadRequest env buf name) (chain env) /\
    List.length (failureRecords evs) = List.length (chain env).
Proof.
  intros Hall. rewrite uploadToReplicate_firstSuccess.
  destruct (firstSuccess_exhausted env buf name (chain env) w s (chain_configured env) Hall)
    as (evs & Hrun & Hf & _ & Hr).
  exists evs. auto.
Qed.

(** The only error [uploadToReplicate] fails with is the aggregate one,
    whose text does not depend on the backends that were tried. *)
Lemma upload_chain_error env buf name w s msg s' :
  uploadToReplicate env buf name w s = (Throw msg, s') ->
  msg = "All upload strategies failed (catbox.moe, tmpfiles.org, transfer.sh).".
Proof.
  rewrite uploadToReplicate_firstSuccess.
  generalize (chain env) as bs. intros bs. revert s.
  induction bs as [|b rest IH]; intros s; cbn [firstSuccess]; cbv zeta.
  - unfold throw. intros H. injection H as <- _. reflexivity.
  - destruct (attemptResult env buf name b (net w (fetched s))); [discriminate|].
    apply IH.
Qed.

(** C4. With Cloudinary configured and every backend down, the call tries
    Cloudinary first and then the three anonymous hosts, and the aggregate
    error it fails with names catbox.moe, tmpfiles.org and transfer.sh but
    not Cloudinary. *)
Theorem aggregate_error_omits_cloudinary :
  let r := uploadToReplicate Scenario.cloudEnv Scenario.clip (Some "clip.mp4")
             Scenario.allDown init in
  exists msg,
    fst r = Throw msg /\
    map req_url (fetches (trace (snd r))) =
      ["https://api.cloudinary.com/v1_1/demo/video/upload";
       "https://catbox.moe/user/api.php";
       "https://tmpfiles.org/api/v1/upload";
       "https://transfer.sh/clip.mp4"] /\
    Js.includes "catbox.moe" msg = true /\
    Js.includes "tmpfiles.org" msg = true /\
    Js.includes "transfer.sh" msg = true /\
    Js.includes "cloudinary" (Js.toLowerCase msg) = false.
Proof.
  cbv zeta. eexists. split; [reflexivity|]. repeat split.
Qed.

(** *** What a backend's answer yields *)

Lemma replaceHttp_nonempty c u :
  exists c' u', Js.replaceHttp (String c u) = String c' u'.
Proof.
  unfold Js.replaceHttp.
  destruct (Js.stripPrefix "http://" (String c u)); cbn; eauto.
Qed.

(** A 2xx answer of Cloudinary, catbox.moe or tmpfiles.org succeeds exactly
    when the expected URL field is well formed, with the canonical form of
    that URL. *)
Lemma attemptResult_ok env buf name b r :
  b <> TransferSh ->
  (b = Cloudinary -> cloudinaryConfigured env = true) ->
  resp_ok r = true ->
  attemptResult env buf name b (Resp r) =
    match expectedUrl b r with
    | Some (JStr u) =>
        if wellFormedUrl b (Some (JStr u)) then Some (canonicalUrl b u) else None
    | _ => None
    end.
Proof.
  intros Hb Hc Hok.
  unfold attemptResult, expectedUrl.
  destruct b; [| | |congruence]; cbn [attemptBlock wellFormedUrl canonicalUrl];
    [ unfold tryCloudinary; rewrite (Hc eq_refl) | unfold tryCatbox | unfold tryTmpfiles ].
  all: mstep; rewrite Hok; cbn [negb]; mstep.
  - (* Cloudinary *)
    destruct (resp_body r) as [msg | t [msg | j]]; mstep; try reflexivity.
    destruct j; mstep; try reflexivity.
    cbn [prop].
    generalize (Json.or (lookup "secure_url" fields) (lookup "url" fields)).
    intros v. destruct v as [[| [] | z | [|c u] | |]|]; try reflexivity.
    + unfold Json.or, Json.truthy. destruct (negb (z =? 0)%Z); reflexivity.
    + destruct (replaceHttp_nonempty c u) as (c' & u' & E).
      unfold Json.or, Json.truthy. cbn [String.eqb negb]. rewrite E. reflexivity.
  - (* catbox.moe *)
    destruct (resp_body r) as [msg | t p]; mstep; try reflexivity.
    destruct (Js.trim t) as [|c u] eqn:Et; [reflexivity|].
    destruct (replaceHttp_nonempty c u) as (c' & u' & E). rewrite E.
    cbn [String.eqb negb andb].
    destruct (Js.startsWith "https://files.catbox.moe/" (String c' u')); reflexivity.
  - (* tmpfiles.org *)
    destruct (resp_body r) as [msg | t [msg | j]]; mstep; try reflexivity.
    generalize (Json.or (optProp "url" (optProp "data" (Some j))) (optProp "url" (Some j))).
    intros v. destruct v as [[| [] | z | [|c u] | |]|]; try reflexivity.
    unfold Json.truthy. destruct (negb (z =? 0)%Z); reflexivity.
Qed.

(** A 2xx answer of transfer.sh succeeds whenever its body can be read,
    whatever the body is. *)
Lemma attemptResult_transferSh env buf name r t p :
  resp_ok r = true ->
  resp_body r = BodyText t p ->
  attemptResult env buf name TransferSh (Resp r) = Some (Js.replaceHttp (Js.trim t)).
Proof.
  intros Hok Hbody.
  unfold attemptResult. cbn [attemptBlock]. unfold tryTransferSh.
  mstep. rewrite Hok. cbn [negb]. mstep. rewrite Hbody. reflexivity.
Qed.

(** Without a 2xx answer no attempt succeeds. *)
Lemma attemptResult_not_ok env buf name b o :
  match o with NetworkError _ => True | Resp r => resp_ok r = false end ->
  attemptResult env buf name b o = None.
Proof.
  intros Ho. unfold attemptResult.
  destruct b; cbn [attemptBlock];
    [ unfold tryCloudinary; destruct (cloudinaryConfigured env); [|reflexivity]
    | unfold tryCatbox | unfold tryTmpfiles | unfold tryTransferSh ].
  all: mstep; destruct o as [msg | r]; mstep; [destruct msg; reflexivity|].
  all: rewrite Ho; cbn [negb]; mstep.
  all: destruct (resp_body r); mstep; reflexivity.
Qed.

(** *** Scheme coercion *)

Lemma stripPrefix_None p : forall s,
  Js.stripPrefix p s = None <-> Js.startsWith p s = false.
Proof.
  induction p as [|a p IH]; intros s; cbn.
  - split; discriminate.
  - destruct s as [|b s]; [tauto|].
    destruct (Ascii.eqb a b); cbn; [apply IH | tauto].
Qed.

Lemma stripPrefix_Some p : forall s r,
  Js.stripPrefix p s = Some r -> s = p ++ r.
Proof.
  induction p as [|a p IH]; intros s r; cbn.
  - intros H. injection H as ->. reflexivity.
  - destruct s as [|b s]; [discriminate|].
    destruct (Ascii.eqb_spec a b) as [->|]; [|discriminate].
    intros H. rewrite (IH _ _ H). reflexivity.
Qed.

Lemma stripPrefix_app p : forall r, Js.stripPrefix p (p ++ r) = Some r.
Proof.
  induction p as [|a p IH]; intros r; cbn; [reflexivity|].
  rewrite Ascii.eqb_refl. apply IH.
Qed.

Lemma replaceHttp_coerces rest : Js.replaceHttp ("http://" ++ rest) = "https://" ++ rest.
Proof. reflexivity. Qed.

Lemma replaceHttp_no_http s : Js.startsWith "http://" (Js.replaceHttp s) = false.
Proof.
  unfold Js.replaceHttp.
  destruct (Js.stripPrefix "http://" s) eqn:E; [reflexivity|].
  apply stripPrefix_None. exact E.
Qed.

Lemma replaceHttp_fixed s : Js.startsWith "http://" s = false -> Js.replaceHttp s = s.
Proof.
  intros H. apply stripPrefix_None in H. unfold Js.replaceHttp. rewrite H. reflexivity.
Qed.

Lemma replaceHttp_idempotent s : Js.replaceHttp (Js.replaceHttp s) = Js.replaceHttp s.
Proof. apply replaceHttp_fixed, replaceHttp_no_http. Qed.

Lemma canonicalUrl_no_http b u : Js.startsWith "http://" (canonicalUrl b u) = false.
Proof.
  destruct b; cbn [canonicalUrl]; try apply replaceHttp_no_http.
  destruct (matchTmpfiles (Js.replaceHttp u)); [reflexivity | apply replaceHttp_no_http].
Qed.

(** A raw URL with the scheme [http://] comes back with [https://]. *)
Lemma canonicalUrl_https b u :
  Js.startsWith "http://" u = true -> Js.startsWith "https://" (canonicalUrl b u) = true.
Proof.
  intros H.
  assert (E : exists rest, Js.replaceHttp u = "https://" ++ rest).
  { unfold Js.replaceHttp. destruct (Js.stripPrefix "http://" u) eqn:E; [eauto|].
    apply stripPrefix_None in E. congruence. }
  destruct E as (rest & E).
  destruct b; cbn [canonicalUrl]; rewrite E; try reflexivity.
  destruct (matchTmpfiles ("https://" ++ rest)); reflexivity.
Qed.

(** Whatever a backend answers, the URL its block returns does not start
    with [http://]. *)
Lemma attemptResult_no_http env buf name b o url :
  attemptResult env buf name b o = Some url ->
  Js.startsWith "http://" url = false.
Proof.
  destruct o as [msg | r].
  { rewrite attemptResult_not_ok by exact I. discriminate. }
  destruct (resp_ok r) eqn:Hok.
  2: { rewrite attemptResult_not_ok by exact Hok. discriminate. }
  destruct b.
  2: rewrite attemptResult_ok by (auto; discriminate);
     destruct (expectedUrl _ r) as [[]|]; try discriminate;
     destruct (wellFormedUrl _ _); [|discriminate];
     intros H; injection H as <-; apply (canonicalUrl_no_http Catbox).
  2: rewrite attemptResult_ok by (auto; discriminate);
     destruct (expectedUrl _ r) as [[]|]; try discriminate;
     destruct (wellFormedUrl _ _); [|discriminate];
     intros H; injection H as <-; apply (canonicalUrl_no_http Tmpfiles).
  - destruct (cloudinaryConfigured env) eqn:Hc.
    + rewrite attemptResult_ok by (auto; discriminate).
      destruct (expectedUrl _ r) as [[]|]; try discriminate.
      destruct (wellFormedUrl _ _); [|discriminate].
      intros H; injection H as <-; apply (canonicalUrl_no_http Cloudinary).
    + unfold attemptResult. cbn [attemptBlock].
      rewrite tryCloudinary_unconfigured by assumption. discriminate.
  - destruct (resp_body r) as [msg | t p] eqn:Hbody.
    + unfold attemptResult. cbn [attemptBlock]. unfold tryTransferSh.
      mstep. rewrite Hok. cbn [negb]. mstep. rewrite Hbody. mstep.
      destruct msg; discriminate.
    + rewrite (attemptResult_transferSh env buf name r t p Hok Hbody).
      intros H; injection H as <-. apply replaceHttp_no_http.
Qed.

Lemma firstSuccess_ret env buf name bs : forall w s url s',
  firstSuccess env buf name bs w s = (Ret url, s') ->
  exists b o, attemptResult env buf name b o = Some url.
Proof.
  induction bs as [|b rest IH]; intros w s url s'; cbn [firstSuccess]; cbv zeta.
  - discriminate.
  - destruct (attemptResult env buf name b (net w (fetched s))) as [u|] eqn:E.
    + intros H. injection H as <- _. eauto.
    + apply IH.
Qed.

(** C5 as stated fails: tmpfiles.org answers 200 with a link that is not a
    tmpfiles.org link, and the chain returns it as its result. *)
Lemma foreign_link_is_returned :
  let w := Scenario.tmpfilesAnswers "https://example.com/landing" in
  (exists r, net w 1 = Resp r /\ resp_ok r = true /\
             expectedUrl Tmpfiles r = Some (JStr "https://example.com/landing")) /\
  matchTmpfiles "https://example.com/landing" = None /\
  fst (uploadToReplicate Scenario.plainEnv Scenario.clip (Some "clip.mp4") w init)
    = Ret "https://example.com/landing".
Proof.
  cbv zeta. split; [|split]; [eexists; repeat split | reflexivity | reflexivity].
Qed.

(** C5, amended. For Cloudinary, catbox.moe and tmpfiles.org, a 2xx answer
    whose expected URL field is missing or is not a non-empty string (and,
    for catbox.moe, is not a link under https://files.catbox.moe/) is a
    failed attempt: the block writes a warning or an error, returns no
    URL, and the function goes on with what follows the block. *)
Theorem malformed_response_is_failure env buf name b r w s :
  b <> TransferSh ->
  (b = Cloudinary -> cloudinaryConfigured env = true) ->
  net w (fetched s) = Resp r ->
  resp_ok r = true ->
  wellFormedUrl b (expectedUrl b r) = false ->
  exists lvl args,
    lvl <> LogLevel /\
    let s' := mkState (S (fetched s)) (clockReads s)
                (trace s ++ [EFetch (uploadRequest env buf name b); EConsole lvl args])%list in
    attemptBlock env buf name b w s = (Ret None, s') /\
    forall rest, orNext (attemptBlock env buf name b) rest w s = rest w s'.
Proof.
  intros Hb Hc Hnet Hok Hbad.
  assert (Hres : attemptResult env buf name b (Resp r) = None).
  { rewrite attemptResult_ok by assumption.
    destruct (expectedUrl b r) as [[]|]; try reflexivity.
    rewrite Hbad. reflexivity. }
  pose proof (attemptLog_shape env buf name b (Resp r) Hc) as Hlog.
  rewrite Hres in Hlog. destruct Hlog as (lvl & args & Hlog & Hlvl).
  exists lvl, args. split; [exact Hlvl|]. cbv zeta. split.
  - rewrite attemptBlock_run by assumption. rewrite Hnet, Hres, Hlog. reflexivity.
  - intros rest. rewrite orNext_attemptBlock by assumption. cbv zeta.
    rewrite Hnet, Hres, Hlog. reflexivity.
Qed.

Lemma malformed_response_is_failure_witness :
  let env := Scenario.plainEnv in
  let w := Scenario.catboxEmpty in
  let r := mkResponse 200 (BodyText "" (inl "Unexpected token in JSON at position 0")) in
  Catbox <> TransferSh /\
  (Catbox = Cloudinary -> cloudinaryConfigured env = true) /\
  net w (fetched init) = Resp r /\
  resp_ok r = true /\
  wellFormedUrl Catbox (expectedUrl Catbox r) = false /\
  exists lvl args,
    lvl <> LogLevel /\
    let s' := mkState 1 0
                (trace init ++ [EFetch (uploadRequest env Scenario.clip (Some "clip.mp4") Catbox);
                                EConsole lvl args])%list in
    attemptBlock env Scenario.clip (Some "clip.mp4") Catbox w init = (Ret None, s') /\
    forall rest,
      orNext (attemptBlock env Scenario.clip (Some "clip.mp4") Catbox) rest w init = rest w s'.
Proof.
  cbv zeta.
  assert (H1 : Catbox <> TransferSh) by discriminate.
  assert (H2 : Catbox = Cloudinary -> cloudinaryConfigured Scenario.plainEnv = true)
    by discriminate.
  repeat split; try assumption.
  exact (malformed_response_is_failure Scenario.plainEnv Scenario.clip (Some "clip.mp4")
           Catbox (mkResponse 200 (BodyText "" (inl "Unexpected token in JSON at position 0")))
           Scenario.catboxEmpty init H1 H2 eq_refl eq_refl eq_refl).
Defined.

(** transfer.sh is the exception: its block has no check, and a 2xx answer
    with an empty body makes the function return the empty string. *)
Lemma transferSh_returns_any_body :
  let w := mkWorld (fun n => match n with
                             | 2 => Scenario.okText "  "
                             | _ => Scenario.unavailable
                             end) Scenario.steadyClock in
  fst (uploadToReplicate Scenario.plainEnv Scenario.clip (Some "clip.mp4") w init) = Ret "".
Proof. reflexivity. Qed.

(** C8 as stated fails: the coercion is case sensitive and touches no
    other scheme, so tmpfiles.org answering with [HTTP://...] makes the
    chain return a URL that is not an [https://] one. *)
Lemma returned_url_not_https :
  let w := Scenario.tmpfilesAnswers "HTTP://tmpfiles.org/123/clip.mp4" in
  exists url,
    fst (uploadToReplicate Scenario.plainEnv Scenario.clip (Some "clip.mp4") w init) = Ret url /\
    Js.startsWith "https://" url = false.
Proof.
  cbv zeta. exists "HTTP://tmpfiles.org/123/clip.mp4". split; reflexivity.
Qed.

(** C8, amended. No URL the chain returns starts with [http://]: the
    coercion replaces a leading [http://] by [https://] (and so a raw URL
    with that prefix comes back with [https://]), leaves every other
    string as it is, and is idempotent; the returned URL is a fixed point
    of it. *)
Theorem returned_url_normalized env buf name w s url s' :
  uploadToReplicate env buf name w s = (Ret url, s') ->
  Js.startsWith "http://" url = false /\
  Js.replaceHttp url = url /\
  (forall rest, Js.replaceHttp ("http://" ++ rest) = "https://" ++ rest) /\
  (forall raw, Js.startsWith "http://" raw = false -> Js.replaceHttp raw = raw) /\
  (forall raw, Js.replaceHttp (Js.replaceHttp raw) = Js.replaceHttp raw) /\
  (forall b raw, Js.startsWith "http://" raw = true ->
                 Js.startsWith "https://" (canonicalUrl b raw) = true).
Proof.
  rewrite uploadToReplicate_firstSuccess. intros Hrun.
  destruct (firstSuccess_ret _ _ _ _ _ _ _ _ Hrun) as (b & o & Hres).
  pose proof (attemptResult_no_http _ _ _ _ _ _ Hres) as Hno.
  split; [exact Hno|].
  split; [apply replaceHttp_fixed; exact Hno|].
  split; [exact replaceHttp_coerces|].
  split; [exact replaceHttp_fixed|].
  split; [exact replaceHttp_idempotent | exact canonicalUrl_https].
Qed.

Lemma returned_url_normalized_witness :
  let r := uploadToReplicate Scenario.plainEnv Scenario.clip (Some "clip.mp4")
             Scenario.tmpfilesUp init in
  r = (Ret "https://tmpfiles.org/dl/123", snd r) /\
  Js.startsWith "http://" "https://tmpfiles.org/dl/123" = false /\
  Js.replaceHttp "https://tmpfiles.org/dl/123" = "https://tmpfiles.org/dl/123".
Proof.
  cbv zeta.
  assert (H : uploadToReplicate Scenario.plainEnv Scenario.clip (Some "clip.mp4")
                Scenario.tmpfilesUp init
              = (Ret "https://tmpfiles.org/dl/123",
                 snd (uploadToReplicate Scenario.plainEnv Scenario.clip (Some "clip.mp4")
                        Scenario.tmpfilesUp init))) by reflexivity.
  split; [exact H|].
  pose proof (returned_url_normalized _ _ _ _ _ _ _ H) as (H1 & H2 & _).
  split; assumption.
Defined.

(** *** The tmpfiles.org link *)

Lemma takeWhile_segment f seg : forall rest,
  every f seg = true ->
  match rest with EmptyString => true | String c _ => negb (f c) end = true ->
  Js.takeWhile f (seg ++ rest) = seg.
Proof.
  induction seg as [|c seg IH]; intros rest Hseg Hrest; cbn.
  - destruct rest as [|d rest]; [reflexivity|].
    cbn. destruct (f d); [discriminate | reflexivity].
  - cbn in Hseg. apply andb_prop in Hseg as [Hc Hseg].
    rewrite Hc, IH by assumption. reflexivity.
Qed.

Lemma takeWhile_split f : forall s,
  exists rest, s = Js.takeWhile f s ++ rest /\ every f (Js.takeWhile f s) = true.
Proof.
  induction s as [|c s (rest & Hs & Hev)]; cbn.
  - exists "". auto.
  - destruct (f c) eqn:Hc.
    + exists rest. cbn. rewrite Hc, Hev, <- Hs. auto.
    + exists (String c s). auto.
Qed.

(** The expression matches exactly the URLs that continue the prefix
    [https://tmpfiles.org/] with a non-empty first segment, and captures
    that segment. *)
Lemma matchTmpfiles_segment seg rest :
  seg <> "" -> every isSegmentChar seg = true -> endsSegment rest = true ->
  matchTmpfiles ("https://tmpfiles.org/" ++ seg ++ rest) = Some seg.
Proof.
  intros Hne Hseg Hrest. unfold matchTmpfiles.
  rewrite stripPrefix_app.
  rewrite takeWhile_segment by (auto; destruct rest; auto).
  destruct seg; [congruence | reflexivity].
Qed.

Lemma matchTmpfiles_Some url m1 :
  matchTmpfiles url = Some m1 ->
  exists rest, url = "https://tmpfiles.org/" ++ m1 ++ rest /\
               m1 <> "" /\ every isSegmentChar m1 = true.
Proof.
  unfold matchTmpfiles.
  destruct (Js.stripPrefix "https://tmpfiles.org/" url) as [tail|] eqn:Hp; [|discriminate].
  apply stripPrefix_Some in Hp.
  destruct (takeWhile_split isSegmentChar tail) as (rest & Htail & Hev).
  destruct (Js.takeWhile isSegmentChar tail) as [|c seg]; [discriminate|].
  intros H. injection H as <-.
  exists rest. split; [|split]; [ | discriminate | exact Hev].
  rewrite Hp, Htail. reflexivity.
Qed.

(** C10. In the tmpfiles.org block, with the scheme of the response URL
    coerced: a URL that continues [https://tmpfiles.org/] with a
    non-empty first segment, ended by [/], [?], [#] or the end of the
    URL, is returned as [https://tmpfiles.org/dl/<first segment>] and
    whatever follows the segment is dropped; any other non-empty URL is
    returned as it is.  In both cases the URL is the result of the
    function. *)
Theorem tmpfiles_direct_link env buf name w s r u :
  net w (fetched s) = Resp r ->
  resp_ok r = true ->
  expectedUrl Tmpfiles r = Some (JStr u) ->
  u <> "" ->
  let returned url :=
    let s' := mkState (S (fetched s)) (clockReads s)
                (trace s ++ [EFetch (uploadRequest env buf name Tmpfiles);
                             EConsole LogLevel ["tmpfiles upload ok ->"; url]])%list in
    tryTmpfiles env buf name w s = (Ret (Some url), s') /\
    forall rest, orNext (tryTmpfiles env buf name) rest w s = (Ret url, s') in
  (forall seg rest,
     Js.replaceHttp u = "https://tmpfiles.org/" ++ seg ++ rest ->
     seg <> "" -> every isSegmentChar seg = true -> endsSegment rest = true ->
     returned ("https://tmpfiles.org/dl/" ++ seg)) /\
  ((forall seg rest,
      seg <> "" -> every isSegmentChar seg = true ->
      Js.replaceHttp u <> "https://tmpfiles.org/" ++ seg ++ rest) ->
   returned (Js.replaceHttp u)).
Proof.
  intros Hnet Hok Hurl Hne. cbv zeta.
  assert (Hres : attemptResult env buf name Tmpfiles (Resp r)
                 = Some (canonicalUrl Tmpfiles u)).
  { rewrite attemptResult_ok by (auto; discriminate).
    rewrite Hurl. destruct u; [congruence | reflexivity]. }
  pose proof (attemptLog_shape env buf name Tmpfiles (Resp r)) as Hlog.
  rewrite Hres in Hlog. specialize (Hlog ltac:(discriminate)).
  assert (Hrun : forall url, canonicalUrl Tmpfiles u = url ->
    let s' := mkState (S (fetched s)) (clockReads s)
                (trace s ++ [EFetch (uploadRequest env buf name Tmpfiles);
                             EConsole LogLevel ["tmpfiles upload ok ->"; url]])%list in
    tryTmpfiles env buf name w s = (Ret (Some url), s') /\
    forall rest, orNext (tryTmpfiles env buf name) rest w s = (Ret url, s')).
  { intros url <-. cbv zeta.
    change (tryTmpfiles env buf name) with (attemptBlock env buf name Tmpfiles).
    split.
    - rewrite attemptBlock_run by discriminate. rewrite Hnet, Hres, Hlog. reflexivity.
    - intros rest. rewrite orNext_attemptBlock by discriminate. cbv zeta.
      rewrite Hnet, Hres, Hlog. reflexivity. }
  split.
  - intros seg rest Hu Hseg Hev Hend. apply Hrun.
    cbn [canonicalUrl]. rewrite Hu, matchTmpfiles_segment by assumption. reflexivity.
  - intros Hno. apply Hrun. cbn [canonicalUrl].
    destruct (matchTmpfiles (Js.replaceHttp u)) as [m1|] eqn:Hm; [|reflexivity].
    apply matchTmpfiles_Some in Hm as (rest & Hu & Hm1 & Hev).
    exfalso. exact (Hno m1 rest Hm1 Hev Hu).
Qed.

Lemma tmpfiles_direct_link_witness :
  let env := Scenario.plainEnv in
  let w := Scenario.tmpfilesUp in
  let s := mkState 1 0 [] in
  exists r,
    net w (fetched s) = Resp r /\
    resp_ok r = true /\
    expectedUrl Tmpfiles r = Some (JStr "http://tmpfiles.org/123/clip.mp4") /\
    "http://tmpfiles.org/123/clip.mp4" <> "" /\
    Js.replaceHttp "http://tmpfiles.org/123/clip.mp4"
      = "https://tmpfiles.org/" ++ "123" ++ "/clip.mp4" /\
    "123" <> "" /\ every isSegmentChar "123" = true /\ endsSegment "/clip.mp4" = true /\
    fst (tryTmpfiles env Scenario.clip (Some "clip.mp4") w s)
      = Ret (Some "https://tmpfiles.org/dl/123").
Proof.
  cbv zeta. eexists.
  assert (H4 : "http://tmpfiles.org/123/clip.mp4" <> "") by discriminate.
  assert (H6 : "123" <> "") by discriminate.
  split; [reflexivity|].
  split; [reflexivity|].
  split; [reflexivity|].
  split; [exact H4|].
  split; [reflexivity|].
  split; [exact H6|].
  split; [reflexivity|].
  split; [reflexivity|].
  pose proof (proj1 (tmpfiles_direct_link Scenario.plainEnv Scenario.clip (Some "clip.mp4")
                       Scenario.tmpfilesUp (mkState 1 0 []) _
                       "http://tmpfiles.org/123/clip.mp4"
                       eq_refl eq_refl eq_refl H4)
                "123" "/clip.mp4" eq_refl H6 eq_refl eq_refl) as [Hrun _].
  rewrite Hrun. reflexivity.
Defined.

(** *** The polling loop *)

Lemma pollLoop_terminal env fuel id startedAt status lastData w s :
  nonTerminal status = false ->
  pollLoop env fuel id startedAt status lastData w s = finish status lastData w s.
Proof.
  intros H. destruct fuel; cbn [pollLoop]; rewrite H; reflexivity.
Qed.

Lemma pollLoop_timeout env fuel id startedAt status lastData w s :
  nonTerminal status = true ->
  (clock w (clockReads s) - startedAt > timeoutMs)%Z ->
  pollLoop env (S fuel) id startedAt status lastData w s =
    (Throw "Prediction timed out.",
     mkState (fetched s) (S (clockReads s)) (trace s ++ [EOnLog "error: timed out"])%list).
Proof.
  intros Hs Ht. cbn [pollLoop]. rewrite Hs. mstep.
  replace (clock w (clockReads s) - startedAt >? timeoutMs)%Z with true
    by (symmetry; apply Z.gtb_lt; lia).
  reflexivity.
Qed.

(** One iteration whose poll is answered with a job. *)
Lemma pollLoop_step env fuel id startedAt status lastData w s j :
  nonTerminal status = true ->
  (clock w (clockReads s) - startedAt <= timeoutMs)%Z ->
  answersJob (net w (fetched s)) j ->
  j <> JNull ->
  pollLoop env (S fuel) id startedAt status lastData w s =
    pollLoop env fuel id startedAt (prop "status" j) j w
      (mkState (S (fetched s)) (S (clockReads s)) (trace s ++ pollEvent env id j)%list).
Proof.
  intros Hs Ht (r & t & Hnet & Hok & Hbody) Hj.
  cbn [pollLoop]. rewrite Hs. mstep.
  replace (clock w (clockReads s) - startedAt >? timeoutMs)%Z with false
    by (symmetry; rewrite Z.gtb_ltb; apply Z.ltb_ge; lia).
  mstep. rewrite Hnet. mstep. rewrite Hok. cbn [negb]. mstep. rewrite Hbody. mstep.
  destruct j; try congruence; mstep; unfold pollEvent; rewrite <- !app_assoc; reflexivity.
Qed.

Lemma jobAfter_cons lastData j rest : jobAfter lastData (j :: rest) = jobAfter j rest.
Proof.
  unfold jobAfter. revert j lastData.
  induction rest as [|k rest IH]; intros j lastData; [reflexivity|].
  change (List.last (j :: k :: rest) lastData) with (List.last (k :: rest) lastData).
  rewrite (IH k lastData), (IH k j). reflexivity.
Qed.

(** The iterations whose polls are answered with the jobs of [jobs]. *)
Lemma pollLoop_steps env id startedAt w jobs : forall fuel lastData s,
  stillPolling lastData jobs ->
  pollsAnswer w startedAt (fetched s) (clockReads s) jobs ->
  pollLoop env (List.length jobs + fuel) id startedAt (prop "status" lastData) lastData w s =
    pollLoop env fuel id startedAt
      (prop "status" (jobAfter lastData jobs)) (jobAfter lastData jobs) w
      (mkState (fetched s + List.length jobs) (clockReads s + List.length jobs)
         (trace s ++ pollEvents env id jobs)%list).
Proof.
  induction jobs as [|j rest IH]; intros fuel lastData s Hstill Hans.
  - cbn. rewrite !Nat.add_0_r, app_nil_r. destruct s; reflexivity.
  - destruct Hstill as [Hs Hstill]. destruct Hans as (Ht & Hj & Hnn & Hans).
    cbn [List.length Nat.add].
    rewrite (pollLoop_step env _ id startedAt _ lastData w s j Hs Ht Hj Hnn).
    rewrite IH by assumption.
    rewrite jobAfter_cons. cbn [fetched clockReads trace pollEvents flat_map].
    rewrite <- app_assoc, <- !Nat.add_succ_comm. reflexivity.
Qed.

(** The submission, when it is answered with a job. *)
Lemma runPrediction_start env fuel videoUrl w s r t j0 :
  net w (fetched s) = Resp r ->
  resp_ok r = true ->
  resp_body r = BodyText t (inr j0) ->
  j0 <> JNull ->
  runPredictionWithUrl env fuel videoUrl w s =
    pollLoop env fuel (prop "id" j0) (clock w (clockReads s)) (prop "status" j0) j0 w
      (mkState (S (fetched s)) (S (clockReads s))
         (trace s ++ startEvents env videoUrl (resp_status r))%list).
Proof.
  intros Hnet Hok Hbody Hj.
  unfold runPredictionWithUrl. mstep. rewrite Hnet. mstep. rewrite Hok. cbn [negb].
  mstep. rewrite Hbody. mstep.
  destruct j0; try congruence; mstep; unfold startEvents; rewrite <- !app_assoc; reflexivity.
Qed.

Lemma finish_run status lastData w s :
  lastData <> JNull ->
  finish status lastData w s =
    (if Json.isStr "succeeded" status then Ret lastData
     else Throw ("Prediction ended with status: " ++ Json.toString status ++ ", error: " ++
                 Json.toString (Json.or (prop "error" lastData) (Some (JStr "unknown")))),
     s).
Proof.
  intros Hj. unfold finish.
  destruct (Json.isStr "succeeded" status); cbn [negb]; [reflexivity|].
  destruct lastData; try congruence; reflexivity.
Qed.

Lemma fetches_pollEvents env id jobs :
  fetches (pollEvents env id jobs) = repeat (pollRequest env id) (List.length jobs).
Proof.
  induction jobs as [|j rest IH]; [reflexivity|].
  cbn [pollEvents flat_map]. rewrite fetches_app. cbn. f_equal. exact IH.
Qed.

(** *** The prediction orchestrator *)

(** A run in which the submission and [n] polls are answered with jobs,
    every status but the last being non-terminal, within the time
    budget. *)
Lemma runPrediction_polls env fuel videoUrl w s r t j0 jobs :
  net w (fetched s) = Resp r ->
  resp_ok r = true ->
  resp_body r = BodyText t (inr j0) ->
  j0 <> JNull ->
  pollsAnswer w (clock w (clockReads s)) (S (fetched s)) (S (clockReads s)) jobs ->
  stillPolling j0 jobs ->
  runPredictionWithUrl env (List.length jobs + fuel) videoUrl w s =
    pollLoop env fuel (prop "id" j0) (clock w (clockReads s))
      (prop "status" (jobAfter j0 jobs)) (jobAfter j0 jobs) w
      (mkState (S (fetched s) + List.length jobs) (S (clockReads s) + List.length jobs)
         (trace s ++ startEvents env videoUrl (resp_status r)
                  ++ pollEvents env (prop "id" j0) jobs)%list).
Proof.
  intros Hnet Hok Hbody Hj Hans Hstill.
  rewrite (runPrediction_start env _ videoUrl w s r t j0 Hnet Hok Hbody Hj).
  rewrite pollLoop_steps by assumption.
  cbn [fetched clockReads trace]. rewrite <- app_assoc. reflexivity.
Qed.

Lemma jobAfter_not_null j0 jobs w startedAt f c :
  j0 <> JNull -> pollsAnswer w startedAt f c jobs -> jobAfter j0 jobs <> JNull.
Proof.
  revert j0 f c. induction jobs as [|j rest IH]; intros j0 f c Hj Hans; [exact Hj|].
  rewrite jobAfter_cons. destruct Hans as (_ & _ & Hnn & Hans). eapply IH; eassumption.
Qed.

(** C2. As long as the polls are answered and the time budget is not
    exceeded, the loop polls once for each non-terminal status it sees and
    stops at the first status outside queued, starting, processing.  It
    then returns the last job when that status is succeeded, and fails
    otherwise with an error that carries the status and the error detail of
    the last job (or [unknown]).  With no poll in the script, this is the
    submission that already carries a terminal status: no poll is issued. *)
Theorem polling_until_terminal env fuel videoUrl w s r t j0 jobs :
  net w (fetched s) = Resp r ->
  resp_ok r = true ->
  resp_body r = BodyText t (inr j0) ->
  j0 <> JNull ->
  pollsAnswer w (clock w (clockReads s)) (S (fetched s)) (S (clockReads s)) jobs ->
  stillPolling j0 jobs ->
  nonTerminal (prop "status" (jobAfter j0 jobs)) = false ->
  List.length jobs <= fuel ->
  let lastData := jobAfter j0 jobs in
  let status := prop "status" lastData in
  let evs := (startEvents env videoUrl (resp_status r)
              ++ pollEvents env (prop "id" j0) jobs)%list in
  runPredictionWithUrl env fuel videoUrl w s =
    (if Json.isStr "succeeded" status then Ret lastData
     else Throw ("Prediction ended with status: " ++ Json.toString status ++ ", error: " ++
                 Json.toString (Json.or (prop "error" lastData) (Some (JStr "unknown")))),
     mkState (S (fetched s) + List.length jobs) (S (clockReads s) + List.length jobs)
       (trace s ++ evs)%list) /\
  fetches evs = startRequest env videoUrl
                  :: repeat (pollRequest env (prop "id" j0)) (List.length jobs).
Proof.
  intros Hnet Hok Hbody Hj Hans Hstill Hterm Hfuel. cbv zeta. split.
  - replace fuel with (List.length jobs + (fuel - List.length jobs)) by lia.
    rewrite (runPrediction_polls env _ videoUrl w s r t j0 jobs) by assumption.
    rewrite pollLoop_terminal by assumption.
    apply finish_run. eapply jobAfter_not_null; eassumption.
  - rewrite fetches_app, fetches_pollEvents. reflexivity.
Qed.

Ltac answers_job := eexists _, _; repeat split; reflexivity.

Lemma polling_until_terminal_witness :
  let env := Scenario.plainEnv in
  let w := Scenario.failsAtFirstPoll in
  let j0 := Scenario.job "processing" in
  let jobs := [Scenario.failedJob] in
  exists r t,
    net w (fetched init) = Resp r /\
    resp_ok r = true /\
    resp_body r = BodyText t (inr j0) /\
    j0 <> JNull /\
    pollsAnswer w (clock w (clockReads init)) 1 1 jobs /\
    stillPolling j0 jobs /\
    nonTerminal (prop "status" (jobAfter j0 jobs)) = false /\
    List.length jobs <= 5 /\
    fst (runPredictionWithUrl env 5 "https://example.com/in.mp4" w init)
      = Throw "Prediction ended with status: failed, error: CUDA out of memory".
Proof.
  cbv zeta. eexists _, _.
  assert (H4 : Scenario.job "processing" <> JNull) by discriminate.
  assert (H5 : pollsAnswer Scenario.failsAtFirstPoll
                 (clock Scenario.failsAtFirstPoll (clockReads init)) 1 1
                 [Scenario.failedJob]).
  { cbn. repeat split; [unfold timeoutMs, Scenario.steadyClock; lia
                       | answers_job | discriminate]. }
  assert (H6 : stillPolling (Scenario.job "processing") [Scenario.failedJob])
    by (cbn; auto).
  assert (H8 : List.length [Scenario.failedJob] <= 5) by (cbn; lia).
  split; [reflexivity|].
  split; [reflexivity|].
  split; [reflexivity|].
  split; [exact H4|].
  split; [exact H5|].
  split; [exact H6|].
  split; [reflexivity|].
  split; [exact H8|].
  rewrite (proj1 (polling_until_terminal Scenario.plainEnv 5 "https://example.com/in.mp4"
                    Scenario.failsAtFirstPoll init _ _ (Scenario.job "processing")
                    [Scenario.failedJob] eq_refl eq_refl eq_refl H4 H5 H6 eq_refl H8)).
  reflexivity.
Defined.

(** A submission answered with a terminal status ends the run at once:
    the only request is the submission. *)
Lemma runPrediction_no_poll env fuel videoUrl w s r t j0 :
  net w (fetched s) = Resp r ->
  resp_ok r = true ->
  resp_body r = BodyText t (inr j0) ->
  Json.isStr "succeeded" (prop "status" j0) = true ->
  runPredictionWithUrl env fuel videoUrl w s =
    (Ret j0, mkState (S (fetched s)) (S (clockReads s))
               (trace s ++ startEvents env videoUrl (resp_status r))%list).
Proof.
  intros Hnet Hok Hbody Hdone.
  assert (Hj : j0 <> JNull) by (intros ->; discriminate).
  rewrite (runPrediction_start env _ videoUrl w s r t j0 Hnet Hok Hbody Hj).
  assert (Hterm : nonTerminal (prop "status" j0) = false).
  { unfold nonTerminal, Json.isStr in *.
    destruct (prop "status" j0) as [[]|]; try discriminate.
    apply String.eqb_eq in Hdone. subst. reflexivity. }
  rewrite pollLoop_terminal by assumption.
  rewrite finish_run by assumption. rewrite Hdone. reflexivity.
Qed.

(** C3. The budget is ten minutes from the clock reading that follows the
    submission.  When the first [n] polls are answered within the budget
    with non-terminal statuses and the next iteration finds the budget
    exceeded, the run fails with [Prediction timed out.]; its requests are
    the submission and those [n] polls, none of them a cancellation, and
    the timeout is the last thing it does. *)
Theorem polling_times_out env fuel videoUrl w s r t j0 jobs :
  net w (fetched s) = Resp r ->
  resp_ok r = true ->
  resp_body r = BodyText t (inr j0) ->
  j0 <> JNull ->
  pollsAnswer w (clock w (clockReads s)) (S (fetched s)) (S (clockReads s)) jobs ->
  stillPolling j0 jobs ->
  nonTerminal (prop "status" (jobAfter j0 jobs)) = true ->
  (clock w (S (clockReads s) + List.length jobs) - clock w (clockReads s) > timeoutMs)%Z ->
  List.length jobs < fuel ->
  let evs := (startEvents env videoUrl (resp_status r)
              ++ pollEvents env (prop "id" j0) jobs
              ++ [EOnLog "error: timed out"])%list in
  runPredictionWithUrl env fuel videoUrl w s =
    (Throw "Prediction timed out.",
     mkState (S (fetched s) + List.length jobs) (S (S (clockReads s) + List.length jobs))
       (trace s ++ evs)%list) /\
  fetches evs = startRequest env videoUrl
                  :: repeat (pollRequest env (prop "id" j0)) (List.length jobs) /\
  timeoutMs = 600000%Z /\
  req_method (startRequest env videoUrl) = POST /\
  req_url (startRequest env videoUrl) = endpoint env /\
  req_method (pollRequest env (prop "id" j0)) = GET.
Proof.
  intros Hnet Hok Hbody Hj Hans Hstill Hnon Hlate Hfuel. cbv zeta. split; [|split].
  - replace fuel with (List.length jobs + S (fuel - S (List.length jobs))) by lia.
    rewrite (runPrediction_polls env _ videoUrl w s r t j0 jobs) by assumption.
    rewrite pollLoop_timeout by assumption.
    cbn [fetched clockReads trace]. rewrite <- !app_assoc. reflexivity.
  - rewrite !fetches_app, fetches_pollEvents. cbn. rewrite app_nil_r. reflexivity.
  - repeat split.
Qed.

Lemma polling_times_out_witness :
  let env := Scenario.plainEnv in
  let w := Scenario.stalled in
  let j0 := Scenario.job "processing" in
  let jobs := [Scenario.job "processing"; Scenario.job "processing"] in
  exists r t,
    net w (fetched init) = Resp r /\
    resp_ok r = true /\
    resp_body r = BodyText t (inr j0) /\
    j0 <> JNull /\
    pollsAnswer w (clock w (clockReads init)) 1 1 jobs /\
    stillPolling j0 jobs /\
    nonTerminal (prop "status" (jobAfter j0 jobs)) = true /\
    (clock w (1 + List.length jobs) - clock w (clockReads init) > timeoutMs)%Z /\
    List.length jobs < 5 /\
    fst (runPredictionWithUrl env 5 "https://example.com/in.mp4" w init)
      = Throw "Prediction timed out." /\
    fetched (snd (runPredictionWithUrl env 5 "https://example.com/in.mp4" w init)) = 3.
Proof.
  cbv zeta. eexists _, _.
  assert (H4 : Scenario.job "processing" <> JNull) by discriminate.
  assert (H5 : pollsAnswer Scenario.stalled (clock Scenario.stalled (clockReads init)) 1 1
                 [Scenario.job "processing"; Scenario.job "processing"]).
  { cbn. repeat split;
      try (unfold timeoutMs, Scenario.steadyClock; lia); try answers_job; discriminate. }
  assert (H6 : stillPolling (Scenario.job "processing")
                 [Scenario.job "processing"; Scenario.job "processing"])
    by (cbn; auto).
  assert (H8 : (clock Scenario.stalled
                  (1 + List.length [Scenario.job "processing"; Scenario.job "processing"])
                - clock Scenario.stalled (clockReads init) > timeoutMs)%Z)
    by (cbn; unfold timeoutMs, Scenario.steadyClock; lia).
  assert (H9 : List.length [Scenario.job "processing"; Scenario.job "processing"] < 5)
    by (cbn; lia).
  split; [reflexivity|].
  split; [reflexivity|].
  split; [reflexivity|].
  split; [exact H4|].
  split; [exact H5|].
  split; [exact H6|].
  split; [reflexivity|].
  split; [exact H8|].
  split; [exact H9|].
  rewrite (proj1 (polling_times_out Scenario.plainEnv 5 "https://example.com/in.mp4"
                    Scenario.stalled init _ _ (Scenario.job "processing")
                    [Scenario.job "processing"; Scenario.job "processing"]
                    eq_refl eq_refl eq_refl H4 H5 H6 eq_refl H8 H9)).
  split; reflexivity.
Defined.

(** *** Termination *)

Lemma finish_ends status lastData w s : fst (finish status lastData w s) <> OutOfFuel.
Proof.
  unfold finish. destruct (Json.isStr "succeeded" status); cbn [negb]; [discriminate|].
  destruct lastData; discriminate.
Qed.

(** When every delay of the loop takes its two seconds, the loop ends
    before its fuel does, whatever the network answers: the budget is
    exceeded at the latest when the fuel is down to one iteration. *)
Lemma pollLoop_ends env id startedAt w : forall fuel status lastData s,
  (forall k, clockReads s <= k -> (clock w k + 2000 <= clock w (S k))%Z) ->
  (timeoutMs < clock w (clockReads s) - startedAt + 2000 * Z.of_nat (fuel - 1))%Z ->
  1 <= fuel ->
  fst (pollLoop env fuel id startedAt status lastData w s) <> OutOfFuel.
Proof.
  induction fuel as [|fuel IH]; intros status lastData s Hclock Hbudget Hfuel; [lia|].
  cbn [pollLoop].
  destruct (nonTerminal status); [|apply finish_ends].
  mstep.
  destruct (clock w (clockReads s) - startedAt >? timeoutMs)%Z eqn:Hlate; [discriminate|].
  mstep.
  destruct (net w (fetched s)) as [msg | r]; [discriminate|].
  mstep.
  destruct (resp_ok r); cbn [negb]; mstep.
  2: { destruct (resp_body r); discriminate. }
  destruct (resp_body r) as [msg | t [msg | j]]; try discriminate.
  mstep.
  destruct j; try discriminate; mstep.
  all: rewrite Z.gtb_ltb in Hlate; apply Z.ltb_ge in Hlate.
  all: apply IH; cbn [clockReads];
    [ intros k Hk; apply Hclock; lia
    | specialize (Hclock (clockReads s) (le_n _)); lia
    | lia ].
Qed.

(** With 302 units of fuel or more, a run of [runPredictionWithUrl] ends
    (with a job or an error) on every network, provided the clock does not
    go back between the submission and the first iteration and every delay
    takes its two seconds: at most 301 polls fit in the budget. *)
Lemma runPrediction_ends env fuel videoUrl w s :
  (clock w (clockReads s) <= clock w (S (clockReads s)))%Z ->
  (forall k, clockReads s < k -> (clock w k + 2000 <= clock w (S k))%Z) ->
  302 <= fuel ->
  fst (runPredictionWithUrl env fuel videoUrl w s) <> OutOfFuel.
Proof.
  intros Hmono Hclock Hfuel.
  unfold runPredictionWithUrl. mstep.
  destruct (net w (fetched s)) as [msg | r]; [discriminate|].
  mstep.
  destruct (resp_ok r); cbn [negb]; mstep.
  2: { destruct (resp_body r); discriminate. }
  destruct (resp_body r) as [msg | t [msg | j]]; try discriminate.
  mstep.
  destruct j; try discriminate; mstep.
  all: apply pollLoop_ends; cbn [clockReads];
    [ intros k Hk; apply Hclock; lia
    | unfold timeoutMs; lia
    | lia ].
Qed.

(** C7 as stated fails: when the polls are answered processing,
    processing, succeeded, the run issues three polls, one for each
    answer, not two. *)
Lemma three_answers_three_polls :
  let w := Scenario.threePolls in
  let r := runPredictionWithUrl Scenario.plainEnv 10 "https://example.com/in.mp4" w init in
  let polls := tl (fetches (trace (snd r))) in
  map (net w) [1; 2; 3] =
    [Scenario.okJsonOf (Scenario.job "processing");
     Scenario.okJsonOf (Scenario.job "processing");
     Scenario.okJsonOf Scenario.doneJob] /\
  fst r = Ret Scenario.doneJob /\
  polls = repeat (pollRequest Scenario.plainEnv (Some (JStr "pred1"))) 3 /\
  List.length polls <> 2.
Proof.
  cbv zeta. repeat split. cbn. discriminate.
Qed.

(** C7, amended. When the submission is answered with a non-terminal
    status and the polls are answered processing, processing, succeeded
    within the time budget, the run issues exactly three polls, each of
    them right after a delay of 2000 ms, and returns the job of the third
    answer. *)
Theorem three_polls_then_result env fuel videoUrl w s r t j0 j1 j2 j3 :
  net w (fetched s) = Resp r ->
  resp_ok r = true ->
  resp_body r = BodyText t (inr j0) ->
  nonTerminal (prop "status" j0) = true ->
  pollsAnswer w (clock w (clockReads s)) (S (fetched s)) (S (clockReads s)) [j1; j2; j3] ->
  prop "status" j1 = Some (JStr "processing") ->
  prop "status" j2 = Some (JStr "processing") ->
  prop "status" j3 = Some (JStr "succeeded") ->
  3 <= fuel ->
  let id := prop "id" j0 in
  let poll := EFetch (pollRequest env id) in
  let announce := EOnLog ("poll: GET /v1/predictions/" ++ Json.toString id) in
  runPredictionWithUrl env fuel videoUrl w s =
    (Ret j3,
     mkState (fetched s + 4) (clockReads s + 4)
       (trace s ++ startEvents env videoUrl (resp_status r) ++
        [ESleep 2000; announce; poll; EOnLog "status: processing";
         ESleep 2000; announce; poll; EOnLog "status: processing";
         ESleep 2000; announce; poll; EOnLog "status: succeeded"])%list).
Proof.
  intros Hnet Hok Hbody Hnon Hans H1 H2 H3 Hfuel. cbv zeta.
  assert (Hj : j0 <> JNull) by (intros ->; discriminate).
  assert (Hstill : stillPolling j0 [j1; j2; j3]).
  { cbn. rewrite H1, H2. auto. }
  replace fuel with (List.length [j1; j2; j3] + (fuel - 3)) by (cbn; lia).
  rewrite (runPrediction_polls env _ videoUrl w s r t j0 [j1; j2; j3]) by assumption.
  change (jobAfter j0 [j1; j2; j3]) with j3.
  rewrite pollLoop_terminal by (rewrite H3; reflexivity).
  rewrite finish_run by (intros ->; discriminate).
  rewrite H3. cbn [Json.isStr String.eqb Ascii.eqb Bool.eqb].
  cbn [pollEvents flat_map pollEvent app List.length].
  rewrite H1, H2, H3. cbn [Json.toString toStr].
  replace (S (fetched s) + 3) with (fetched s + 4) by lia.
  replace (S (clockReads s) + 3) with (clockReads s + 4) by lia.
  reflexivity.
Qed.

Lemma three_polls_then_result_witness :
  let env := Scenario.plainEnv in
  let w := Scenario.threePolls in
  exists r t,
    net w (fetched init) = Resp r /\
    resp_ok r = true /\
    resp_body r = BodyText t (inr (Scenario.job "starting")) /\
    nonTerminal (prop "status" (Scenario.job "starting")) = true /\
    pollsAnswer w (clock w (clockReads init)) 1 1
      [Scenario.job "processing"; Scenario.job "processing"; Scenario.doneJob] /\
    prop "status" (Scenario.job "processing") = Some (JStr "processing") /\
    prop "status" Scenario.doneJob = Some (JStr "succeeded") /\
    3 <= 10 /\
    fst (runPredictionWithUrl env 10 "https://example.com/in.mp4" w init)
      = Ret Scenario.doneJob.
Proof.
  cbv zeta. eexists _, _.
  assert (H5 : pollsAnswer Scenario.threePolls
                 (clock Scenario.threePolls (clockReads init)) 1 1
                 [Scenario.job "processing"; Scenario.job "processing"; Scenario.doneJob]).
  { cbn. repeat split;
      try (unfold timeoutMs, Scenario.steadyClock; lia); try answers_job; discriminate. }
  assert (H9 : 3 <= 10) by lia.
  split; [reflexivity|].
  split; [reflexivity|].
  split; [reflexivity|].
  split; [reflexivity|].
  split; [exact H5|].
  split; [reflexivity|].
  split; [reflexivity|].
  split; [exact H9|].
  rewrite (three_polls_then_result Scenario.plainEnv 10 "https://example.com/in.mp4"
             Scenario.threePolls init _ _ (Scenario.job "starting")
             (Scenario.job "processing") (Scenario.job "processing") Scenario.doneJob
             eq_refl eq_refl eq_refl eq_refl H5 eq_refl eq_refl eq_refl H9).
  reflexivity.
Defined.

(** The other reading of the scenario: the statuses seen are processing
    (the submission's), processing, succeeded (the polls'), and the run
    issues two polls, with a delay before each. *)
Lemma three_statuses_two_polls :
  let r := runPredictionWithUrl Scenario.plainEnv 10 "https://example.com/in.mp4"
             Scenario.twoPolls init in
  let poll := EFetch (pollRequest Scenario.plainEnv (Some (JStr "pred1"))) in
  fst r = Ret Scenario.doneJob /\
  trace (snd r) =
    (startEvents Scenario.plainEnv "https://example.com/in.mp4" 200 ++
     [ESleep 2000; EOnLog "poll: GET /v1/predictions/pred1"; poll;
      EOnLog "status: processing";
      ESleep 2000; EOnLog "poll: GET /v1/predictions/pred1"; poll;
      EOnLog "status: succeeded"])%list.
Proof. cbv zeta. split; reflexivity. Qed.

(** *** The requests of a run *)

Lemma finish_state status lastData w s : snd (finish status lastData w s) = s.
Proof.
  unfold finish. destruct (Json.isStr "succeeded" status); cbn [negb]; [reflexivity|].
  destruct lastData; reflexivity.
Qed.

Ltac trace_with n :=
  eexists _, n; split;
  [ cbn [snd trace]; rewrite <- ?app_assoc; cbn [app]; reflexivity | reflexivity ].

(** Whatever the network answers, the loop issues polls of the one
    prediction and nothing else. *)
Lemma pollLoop_requests env id startedAt w : forall fuel status lastData s,
  exists evs n,
    trace (snd (pollLoop env fuel id startedAt status lastData w s)) = (trace s ++ evs)%list /\
    fetches evs = repeat (pollRequest env id) n.
Proof.
  induction fuel as [|fuel IH]; intros status lastData s; cbn [pollLoop];
    (destruct (nonTerminal status);
     [|rewrite finish_state; exists [], 0; rewrite app_nil_r; auto]).
  - exists [], 0. rewrite app_nil_r. auto.
  - mstep.
    destruct (clock w (clockReads s) - startedAt >? timeoutMs)%Z; [trace_with 0|].
    mstep.
    destruct (net w (fetched s)) as [msg | r]; [trace_with 1|].
    mstep.
    destruct (resp_ok r); cbn [negb]; mstep.
    2: { destruct (resp_body r); mstep; trace_with 1. }
    destruct (resp_body r) as [msg | t [msg | j]]; mstep; try trace_with 1.
    destruct j; mstep; try trace_with 1.
    all: match goal with
         | |- context [pollLoop _ _ _ _ ?st ?j _ ?s1] =>
             destruct (IH st j s1) as (evs & n & Ht & Hf); rewrite Ht
         end.
    all: cbn [trace]; eexists _, (S n); split;
         [ rewrite <- ?app_assoc; cbn [app]; reflexivity
         | cbn [fetches repeat]; rewrite Hf; reflexivity ].
Qed.

(** Whatever the network answers, the requests of a run are the submission
    to the endpoint and then polls of the one prediction: nothing else is
    ever sent, and no cancellation in particular. *)
Lemma runPrediction_requests env fuel videoUrl w s :
  exists evs id n,
    trace (snd (runPredictionWithUrl env fuel videoUrl w s)) = (trace s ++ evs)%list /\
    fetches evs = startRequest env videoUrl :: repeat (pollRequest env id) n.
Proof.
  unfold runPredictionWithUrl. mstep.
  destruct (net w (fetched s)) as [msg | r].
  { exists (firstn 4 (startEvents env videoUrl 0)), None, 0.
    split; [cbn; rewrite <- !app_assoc; reflexivity | reflexivity]. }
  mstep.
  assert (Hstop : forall t',
    t' = (trace s ++ startEvents env videoUrl (resp_status r))%list ->
    exists evs id n,
      t' = (trace s ++ evs)%list /\
      fetches evs = startRequest env videoUrl :: repeat (pollRequest env id) n).
  { intros t' ->. exists (startEvents env videoUrl (resp_status r)), None, 0. auto. }
  destruct (resp_ok r); cbn [negb]; mstep.
  2: { destruct (resp_body r); mstep; cbn [snd trace]; apply Hstop;
       unfold startEvents; rewrite <- !app_assoc; reflexivity. }
  destruct (resp_body r) as [msg | t [msg | j]]; mstep;
    try solve [cbn [snd trace]; apply Hstop;
               unfold startEvents; rewrite <- !app_assoc; reflexivity].
  destruct j; mstep;
    try solve [cbn [snd trace]; apply Hstop;
               unfold startEvents; rewrite <- !app_assoc; reflexivity].
  all: match goal with
       | |- context [pollLoop _ _ ?id ?t0 ?st ?j _ ?s1] =>
           destruct (pollLoop_requests env id t0 w fuel st j s1) as (evs & n & Ht & Hf);
           exists (startEvents env videoUrl (resp_status r) ++ evs)%list, id, n;
           rewrite Ht
       end.
  all: cbn [trace]; split;
       [ unfold startEvents; rewrite <- ?app_assoc; cbn [app]; reflexivity
       | rewrite fetches_app; rewrite Hf; reflexivity ].
Qed.

(** *** The model identifier and the endpoint *)

Lemma includes_colon_cons c s :
  Js.includes ":" (String c s) = Ascii.eqb ":" c || Js.includes ":" s.
Proof. cbn. rewrite andb_true_r. reflexivity. Qed.

Lemma split_no_colon : forall s, Js.includes ":" s = false -> Js.split ":" s = [s].
Proof.
  induction s as [|c s IH]; intros H; [reflexivity|].
  rewrite includes_colon_cons in H. apply orb_false_elim in H as [Hc Hs].
  cbn [Js.split]. rewrite Ascii.eqb_sym, Hc, (IH Hs). reflexivity.
Qed.

Lemma split_at_colon : forall m rest,
  Js.includes ":" m = false ->
  Js.split ":" (m ++ ":" ++ rest) = m :: Js.split ":" rest.
Proof.
  induction m as [|c m IH]; intros rest H; [reflexivity|].
  rewrite includes_colon_cons in H. apply orb_false_elim in H as [Hc Hm].
  cbn [append Js.split]. rewrite Ascii.eqb_sym, Hc.
  change (String ":" rest) with (":" ++ rest). rewrite (IH rest Hm). reflexivity.
Qed.

Lemma includes_colon_app : forall m rest, Js.includes ":" (m ++ ":" ++ rest) = true.
Proof.
  induction m as [|c m IH]; intros rest; [reflexivity|].
  cbn [append]. rewrite includes_colon_cons.
  change (String ":" rest) with (":" ++ rest). rewrite IH. apply orb_true_r.
Qed.

(** The identifier [<model>:<version>] with non-empty parts. *)
Lemma parse_model_version m v :
  m <> "" -> v <> "" -> Js.includes ":" m = false -> Js.includes ":" v = false ->
  parseReplicateModelVersion (Some (m ++ ":" ++ v)) = mkModelVersion (Some m) (Some v).
Proof.
  intros Hm Hv Hcm Hcv. unfold parseReplicateModelVersion.
  destruct (m ++ ":" ++ v) as [|c rest] eqn:E.
  { destruct m; discriminate. }
  rewrite <- E. rewrite includes_colon_app, split_at_colon, split_no_colon by assumption.
  cbn [nth_error]. destruct m; [congruence|]. destruct v; [congruence|]. reflexivity.
Qed.

(** An identifier without a colon is a bare version. *)
Lemma parse_bare_version id :
  Js.includes ":" id = false ->
  model (parseReplicateModelVersion (Some id)) = None.
Proof.
  intros H. unfold parseReplicateModelVersion. destruct id; [reflexivity|].
  rewrite H. reflexivity.
Qed.

(** C6 as stated fails: the identifier [:abc123] contains a colon, yet its
    model part is empty, the parsed model is [null] and the submission goes
    to the generic endpoint. *)
Lemma colon_without_model :
  let env := mkEnv (Some "r8_token") (Some ":abc123") None None in
  Js.includes ":" ":abc123" = true /\
  parseReplicateModelVersion (REPLICATE_MODEL_VERSION env)
    = mkModelVersion None (Some "abc123") /\
  endpoint env = "https://api.replicate.com/v1/predictions" /\
  map req_url (fetches (trace (snd (runPredictionWithUrl env 5 "https://example.com/in.mp4"
                                      Scenario.twoPolls init))))
    = ["https://api.replicate.com/v1/predictions";
       "https://api.replicate.com/v1/predictions/pred1";
       "https://api.replicate.com/v1/predictions/pred1"].
Proof. cbv zeta. repeat split. Qed.

(** An empty version part puts the whole identifier in the version slot
    of the endpoint; what follows a second colon is dropped. *)
Lemma endpoint_corner_cases :
  endpoint (mkEnv None (Some "owner/name:") None None)
    = "https://api.replicate.com/v1/models/owner/name/versions/owner/name:/predictions" /\
  endpoint (mkEnv None (Some "owner/name:abc:def") None None)
    = "https://api.replicate.com/v1/models/owner/name/versions/abc/predictions".
Proof. split; reflexivity. Qed.

(** C6, amended. An identifier [<model>:<version>] whose two parts are
    non-empty (and hold no further colon) is parsed into that model and
    that version, and the endpoint is the one of that model and version;
    an identifier without a colon leaves the model [null], and the
    endpoint is the generic one.  Every run of [runPredictionWithUrl]
    starts with a POST to the endpoint. *)
Theorem model_version_endpoint env :
  (forall m v,
     REPLICATE_MODEL_VERSION env = Some (m ++ ":" ++ v) ->
     m <> "" -> v <> "" -> Js.includes ":" m = false -> Js.includes ":" v = false ->
     parseReplicateModelVersion (REPLICATE_MODEL_VERSION env)
       = mkModelVersion (Some m) (Some v) /\
     endpoint env = "https://api.replicate.com/v1/models/" ++ m ++
                    "/versions/" ++ v ++ "/predictions") /\
  (forall id,
     REPLICATE_MODEL_VERSION env = Some id -> Js.includes ":" id = false ->
     model (parseReplicateModelVersion (REPLICATE_MODEL_VERSION env)) = None /\
     endpoint env = "https://api.replicate.com/v1/predictions") /\
  (forall fuel videoUrl w s,
     exists evs more,
       trace (snd (runPredictionWithUrl env fuel videoUrl w s)) = (trace s ++ evs)%list /\
       fetches evs = startRequest env videoUrl :: more /\
       req_method (startRequest env videoUrl) = POST /\
       req_url (startRequest env videoUrl) = endpoint env).
Proof.
  split; [|split].
  - intros m v Hid Hm Hv Hcm Hcv.
    pose proof (parse_model_version m v Hm Hv Hcm Hcv) as Hp.
    split; [rewrite Hid; exact Hp|].
    unfold endpoint, REPLICATE_MODEL_SLUG, REPLICATE_VERSION_ID.
    rewrite Hid, Hp. cbn [model version Js.or Js.truthy].
    destruct m; [congruence|]. destruct v; [congruence|]. reflexivity.
  - intros id Hid Hc.
    pose proof (parse_bare_version id Hc) as Hp.
    split; [rewrite Hid; exact Hp|].
    unfold endpoint, REPLICATE_MODEL_SLUG. rewrite Hid, Hp. reflexivity.
  - intros fuel videoUrl w s.
    destruct (runPrediction_requests env fuel videoUrl w s) as (evs & id & n & Ht & Hf).
    exists evs, (repeat (pollRequest env id) n). auto.
Qed.

Lemma model_version_endpoint_witness :
  let env := Scenario.plainEnv in
  REPLICATE_MODEL_VERSION env = Some ("owner/name" ++ ":" ++ "abc123") /\
  "owner/name" <> "" /\ "abc123" <> "" /\
  Js.includes ":" "owner/name" = false /\ Js.includes ":" "abc123" = false /\
  parseReplicateModelVersion (REPLICATE_MODEL_VERSION env)
    = mkModelVersion (Some "owner/name") (Some "abc123") /\
  endpoint env = "https://api.replicate.com/v1/models/owner/name/versions/abc123/predictions".
Proof.
  cbv zeta.
  assert (H2 : "owner/name" <> "") by discriminate.
  assert (H3 : "abc123" <> "") by discriminate.
  split; [reflexivity|].
  split; [exact H2|]. split; [exact H3|].
  split; [reflexivity|]. split; [reflexivity|].
  exact (proj1 (model_version_endpoint Scenario.plainEnv) "owner/name" "abc123"
           eq_refl H2 H3 eq_refl eq_refl).
Defined.

(** *** Missing configuration *)

(** Without the token or without the model identifier, the handler answers
    500 and does nothing else. *)
Lemma apiRemove_unconfigured env fuel req w s :
  Js.truthy (REPLICATE_API_TOKEN env) = false \/
  Js.truthy (REPLICATE_MODEL_VERSION env) = false ->
  apiRemove env fuel req w s =
    (Ret (mkHttpResponse 500
            (ErrorBody "Server not configured. Set REPLICATE_API_TOKEN and REPLICATE_MODEL_VERSION.")),
     s).
Proof.
  intros H. unfold apiRemove, tryCatch.
  destruct H as [H | H]; rewrite H; cbn [negb orb]; [reflexivity|].
  rewrite orb_true_r. reflexivity.
Qed.

(** C9. With neither REPLICATE_API_TOKEN nor REPLICATE_MODEL_VERSION set,
    the health check reports [replicateConfigured: false], and every
    request to POST /api/remove is answered 500 with the message [Server
    not configured. ...]; the run issues no request, reads no clock and
    leaves the trace as it was. *)
Theorem unconfigured_server_refuses env fuel req w s :
  env_REPLICATE_API_TOKEN env = None ->
  env_REPLICATE_MODEL_VERSION env = None ->
  apiHealth env = mkHttpResponse 200 (HealthBody true "SoraWatermarkCleaner" false) /\
  apiRemove env fuel req w s =
    (Ret (mkHttpResponse 500
            (ErrorBody "Server not configured. Set REPLICATE_API_TOKEN and REPLICATE_MODEL_VERSION.")),
     s).
Proof.
  intros Htok Hver. split.
  - unfold apiHealth, REPLICATE_API_TOKEN, REPLICATE_MODEL_VERSION.
    rewrite Htok, Hver. reflexivity.
  - apply apiRemove_unconfigured. left. unfold REPLICATE_API_TOKEN. rewrite Htok. reflexivity.
Qed.

Lemma unconfigured_server_refuses_witness :
  let req := mkHttpRequest true
               (Some (JObj [("url", JStr "https://example.com/in.mp4")])) None in
  env_REPLICATE_API_TOKEN Scenario.emptyEnv = None /\
  env_REPLICATE_MODEL_VERSION Scenario.emptyEnv = None /\
  apiHealth Scenario.emptyEnv
    = mkHttpResponse 200 (HealthBody true "SoraWatermarkCleaner" false) /\
  apiRemove Scenario.emptyEnv 10 req Scenario.twoPolls init =
    (Ret (mkHttpResponse 500
            (ErrorBody "Server not configured. Set REPLICATE_API_TOKEN and REPLICATE_MODEL_VERSION.")),
     init).
Proof.
  cbv zeta. split; [reflexivity|]. split; [reflexivity|].
  exact (unconfigured_server_refuses Scenario.emptyEnv 10 _ Scenario.twoPolls init
           eq_refl eq_refl).
Defined.

(** *** End to end *)

(** A pasted URL, a configured server, and a prediction that succeeds at
    the second poll: the handler answers 200 with the status, the output
    and the log lines of the run. *)
Lemma remove_by_url_end_to_end :
  let req := mkHttpRequest true
               (Some (JObj [("url", JStr "https://example.com/in.mp4")])) None in
  fst (apiRemove Scenario.plainEnv 10 req Scenario.twoPolls init) =
    Ret (mkHttpResponse 200
           (ResultBody (Some (JStr "succeeded"))
              (Some (JStr "https://replicate.delivery/out.mp4"))
              (Js.joinLines
                 ["start: POST https://api.replicate.com/v1/models/owner/name/versions/abc123/predictions";
                  "input: keys=video video=https://example.com/in.mp4";
                  "start: response 200";
                  "poll: GET /v1/predictions/pred1";
                  "status: processing";
                  "poll: GET /v1/predictions/pred1";
                  "status: succeeded"]))).
Proof. reflexivity. Qed.

(** An uploaded file while every upload backend is down: the handler
    answers 500 with the aggregate error, and no prediction is started. *)
Lemma remove_by_file_all_down :
  let req := mkHttpRequest false None
               (Some (mkUploadedFile (Some Scenario.clip) (Some "clip.mp4"))) in
  let r := apiRemove Scenario.plainEnv 10 req Scenario.allDown init in
  fst r = Ret (mkHttpResponse 500
                 (ErrorBody "All upload strategies failed (catbox.moe, tmpfiles.org, transfer.sh).")) /\
  map req_url (fetches (trace (snd r))) =
    ["https://catbox.moe/user/api.php";
     "https://tmpfiles.org/api/v1/upload";
     "https://transfer.sh/clip.mp4"].
Proof. cbv zeta. split; reflexivity. Qed.

(** A prediction that never leaves [processing], on a clock that advances
    by two seconds with each reading: the run polls 300 times and then
    times out. *)
Lemma steady_clock_times_out :
  let r := runPredictionWithUrl Scenario.plainEnv 302 "https://example.com/in.mp4"
             Scenario.neverDone init in
  fst r = Throw "Prediction timed out." /\ fetched (snd r) = 301.
Proof. cbv zeta. split; vm_compute; reflexivity. Qed.

(** * Further properties *)

(** *** The name sent to transfer.sh *)








(** *** How the upload chain fails *)

Lemma firstSuccess_clock env buf name bs : forall w s,
  clockReads (snd (firstSuccess env buf name bs w s)) = clockReads s.
Proof.
  induction bs as [|b rest IH]; intros w s; cbn [firstSuccess]; cbv zeta; [reflexivity|].
  destruct (attemptResult env buf name b (net w (fetched s))); [reflexivity|].
  rewrite IH. reflexivity.
Qed.

(** X2. [uploadToReplicate] never lets the error of a backend out: when
    it fails, it has tried every backend of the chain, in order, and the
    error is the aggregate one.  It never reads the clock. *)
Theorem upload_fails_only_when_exhausted env buf name w s :
  let r := uploadToReplicate env buf name w s in
  clockReads (snd r) = clockReads s /\
  forall msg, fst r = Throw msg ->
    msg = "All upload strategies failed (catbox.moe, tmpfiles.org, transfer.sh)." /\
    fetched (snd r) = fetched s + List.length (chain env) /\
    exists evs,
      trace (snd r) = (trace s ++ evs)%list /\
      fetches evs = map (uploadRequest env buf name) (chain env) /\
      uploadResults evs = [].
Proof.
  cbv zeta. split.
  - rewrite uploadToReplicate_firstSuccess. apply firstSuccess_clock.
  - intros msg Hr.
    destruct (uploadToReplicate env buf name w s) as [o s'] eqn:Hrun. cbn [fst snd] in *.
    subst o. split; [eapply upload_chain_error; exact Hrun|].
    rewrite uploadToReplicate_firstSuccess in Hrun.
    destruct (firstSuccess_run env buf name (chain env) w s (chain_configured env))
      as (n & evs & r & Hrun' & Hn & Hf & Hr).
    rewrite Hrun in Hrun'. injection Hrun' as <- ->.
    destruct Hr as [Hu ->]. cbn [fetched trace]. split; [reflexivity|].
    exists evs. rewrite firstn_all in Hf. auto.
Qed.

Lemma upload_fails_only_when_exhausted_witness :
  let r := uploadToReplicate Scenario.plainEnv Scenario.clip (Some "clip.mp4")
             Scenario.allDown init in
  fst r = Throw "All upload strategies failed (catbox.moe, tmpfiles.org, transfer.sh)." /\
  fetched (snd r) = fetched init + List.length (chain Scenario.plainEnv).
Proof.
  cbv zeta.
  assert (H : fst (uploadToReplicate Scenario.plainEnv Scenario.clip (Some "clip.mp4")
                     Scenario.allDown init)
              = Throw "All upload strategies failed (catbox.moe, tmpfiles.org, transfer.sh).")
    by reflexivity.
  split; [exact H|].
  exact (proj1 (proj2 (proj2 (upload_fails_only_when_exhausted Scenario.plainEnv Scenario.clip
                                (Some "clip.mp4") Scenario.allDown init) _ H))).
Defined.

(** *** An attempt that gets no 2xx answer *)

(** X3. A backend that cannot be reached, or answers outside 200-299,
    makes its block fail without a result: the block issues its one
    request, writes one error line (for a response, the status and the
    body text, or nothing for the text when the body cannot be read), and
    hands over to what follows. *)
Theorem backend_error_is_failure env buf name b w s :
  (b = Cloudinary -> cloudinaryConfigured env = true) ->
  match net w (fetched s) with
  | NetworkError _ => True
  | Resp r => resp_ok r = false
  end ->
  let s' := mkState (S (fetched s)) (clockReads s)
              (trace s ++ [EFetch (uploadRequest env buf name b);
                           errorRecord b (failureLine b (net w (fetched s)))])%list in
  attemptBlock env buf name b w s = (Ret None, s') /\
  forall rest, orNext (attemptBlock env buf name b) rest w s = rest w s'.
Proof.
  intros Hc Ho. cbv zeta.
  assert (Hrun : attemptBlock env buf name b w s =
    (Ret None,
     mkState (S (fetched s)) (clockReads s)
       (trace s ++ [EFetch (uploadRequest env buf name b);
                    errorRecord b (failureLine b (net w (fetched s)))])%list)).
  { unfold errorRecord, failureLine.
    destruct b; cbn [attemptBlock backendName];
      [ unfold tryCloudinary; rewrite (Hc eq_refl)
      | unfold tryCatbox | unfold tryTmpfiles | unfold tryTransferSh ].
    all: mstep; destruct (net w (fetched s)) as [msg | r]; mstep.
    all: try (destruct msg; rewrite <- ?app_assoc; reflexivity).
    all: rewrite Ho; cbn [negb]; mstep.
    all: destruct (resp_body r); mstep; rewrite <- ?app_assoc; reflexivity. }
  split; [exact Hrun|].
  intros rest. unfold orNext, bind. rewrite Hrun. reflexivity.
Qed.

Lemma backend_error_is_failure_witness :
  let s' := mkState 1 0
              [EFetch (uploadRequest Scenario.plainEnv Scenario.clip (Some "clip.mp4") Catbox);
               EConsole ErrorLevel
                 ["catbox upload error:";
                  "catbox upload failed: 503 Service Unavailable"]] in
  (Catbox = Cloudinary -> cloudinaryConfigured Scenario.plainEnv = true) /\
  resp_ok (mkResponse 503 (BodyText "Service Unavailable"
                             (inl "Unexpected token S in JSON at position 0"))) = false /\
  attemptBlock Scenario.plainEnv Scenario.clip (Some "clip.mp4") Catbox Scenario.allDown init
    = (Ret None, s').
Proof.
  cbv zeta.
  assert (H1 : Catbox = Cloudinary -> cloudinaryConfigured Scenario.plainEnv = true)
    by discriminate.
  split; [exact H1|]. split; [reflexivity|].
  exact (proj1 (backend_error_is_failure Scenario.plainEnv Scenario.clip (Some "clip.mp4")
                  Catbox Scenario.allDown init H1 eq_refl)).
Defined.

(** *** What the blocks return *)

Lemma attemptBlock_result env buf name b w s r s' :
  (b = Cloudinary -> cloudinaryConfigured env = true) ->
  attemptBlock env buf name b w s = (Ret r, s') ->
  r = attemptResult env buf name b (net w (fetched s)).
Proof.
  intros Hc Hrun. rewrite attemptBlock_run in Hrun by assumption.
  injection Hrun as <- _. reflexivity.
Qed.

(** X4. Whatever catbox.moe answers, a URL returned by its block is the
    trimmed body of a 2xx answer with its scheme coerced, and it is a link
    under [https://files.catbox.moe/]. *)
Theorem catbox_result_is_catbox_link env buf name w s url s' :
  tryCatbox env buf name w s = (Ret (Some url), s') ->
  exists r t p,
    net w (fetched s) = Resp r /\ resp_ok r = true /\ resp_body r = BodyText t p /\
    url = Js.replaceHttp (Js.trim t) /\
    Js.startsWith "https://files.catbox.moe/" url = true.
Proof.
  intros Hrun.
  apply (attemptBlock_result env buf name Catbox) in Hrun; [|discriminate].
  destruct (net w (fetched s)) as [msg | r].
  { rewrite attemptResult_not_ok in Hrun by exact I. discriminate. }
  destruct (resp_ok r) eqn:Hok.
  2: { rewrite attemptResult_not_ok in Hrun by exact Hok. discriminate. }
  rewrite attemptResult_ok in Hrun by (auto; discriminate).
  unfold expectedUrl in Hrun.
  destruct (resp_body r) as [msg | t p] eqn:Hbody; [discriminate|].
  destruct (wellFormedUrl Catbox (Some (JStr (Js.trim t)))) eqn:Hwf; [|discriminate].
  injection Hrun as ->. exists r, t, p.
  split; [reflexivity|]. split; [exact Hok|]. split; [exact Hbody|].
  split; [reflexivity|].
  cbn [canonicalUrl]. unfold wellFormedUrl in Hwf.
  destruct (Js.trim t); [discriminate | exact Hwf].
Qed.

Lemma catbox_result_is_catbox_link_witness :
  exists s',
    tryCatbox Scenario.plainEnv Scenario.clip (Some "clip.mp4") Scenario2.catboxUp init
      = (Ret (Some "https://files.catbox.moe/ab12cd.mp4"), s') /\
    Js.startsWith "https://files.catbox.moe/" "https://files.catbox.moe/ab12cd.mp4" = true.
Proof.
  eexists.
  assert (H : tryCatbox Scenario.plainEnv Scenario.clip (Some "clip.mp4")
                Scenario2.catboxUp init
              = (Ret (Some "https://files.catbox.moe/ab12cd.mp4"),
                 snd (tryCatbox Scenario.plainEnv Scenario.clip (Some "clip.mp4")
                        Scenario2.catboxUp init))) by reflexivity.
  split; [exact H|].
  destruct (catbox_result_is_catbox_link _ _ _ _ _ _ _ H) as (r & t & p & _ & _ & _ & _ & Hs).
  exact Hs.
Defined.

(** X5. The rewriting of tmpfiles.org links is not meant for direct
    links: a link that already starts with [https://tmpfiles.org/dl/]
    (after coercion of its scheme) has [dl] as its first segment, and the
    block returns [https://tmpfiles.org/dl/dl] for it, whatever
    follows. *)
Theorem tmpfiles_direct_link_is_mangled env buf name w s r u rest :
  net w (fetched s) = Resp r ->
  resp_ok r = true ->
  expectedUrl Tmpfiles r = Some (JStr u) ->
  Js.replaceHttp u = "https://tmpfiles.org/dl/" ++ rest ->
  fst (tryTmpfiles env buf name w s) = Ret (Some "https://tmpfiles.org/dl/dl") /\
  forall k, fst (orNext (tryTmpfiles env buf name) k w s) = Ret "https://tmpfiles.org/dl/dl".
Proof.
  intros Hnet Hok Hurl Hu.
  assert (Hres : attemptResult env buf name Tmpfiles (Resp r)
                 = Some "https://tmpfiles.org/dl/dl").
  { rewrite attemptResult_ok by (auto; discriminate). rewrite Hurl.
    destruct u as [|c u]; [discriminate Hu|].
    cbn [wellFormedUrl canonicalUrl]. rewrite Hu.
    change ("https://tmpfiles.org/dl/" ++ rest)
      with ("https://tmpfiles.org/" ++ "dl" ++ ("/" ++ rest)).
    rewrite matchTmpfiles_segment by (try reflexivity; discriminate). reflexivity. }
  change (tryTmpfiles env buf name) with (attemptBlock env buf name Tmpfiles).
  split.
  - rewrite attemptBlock_run by discriminate. rewrite Hnet, Hres. reflexivity.
  - intros k. rewrite orNext_attemptBlock by discriminate. cbv zeta.
    rewrite Hnet, Hres. reflexivity.
Qed.

Lemma tmpfiles_direct_link_is_mangled_witness :
  exists r,
    net Scenario2.tmpfilesDirect 1 = Resp r /\
    resp_ok r = true /\
    expectedUrl Tmpfiles r = Some (JStr "https://tmpfiles.org/dl/123/clip.mp4") /\
    Js.replaceHttp "https://tmpfiles.org/dl/123/clip.mp4"
      = "https://tmpfiles.org/dl/" ++ "123/clip.mp4" /\
    fst (tryTmpfiles Scenario.plainEnv Scenario.clip (Some "clip.mp4")
           Scenario2.tmpfilesDirect (mkState 1 0 []))
      = Ret (Some "https://tmpfiles.org/dl/dl").
Proof.
  eexists.
  split; [reflexivity|]. split; [reflexivity|]. split; [reflexivity|]. split; [reflexivity|].
  exact (proj1 (tmpfiles_direct_link_is_mangled Scenario.plainEnv Scenario.clip
                  (Some "clip.mp4") Scenario2.tmpfilesDirect (mkState 1 0 []) _
                  "https://tmpfiles.org/dl/123/clip.mp4" "123/clip.mp4"
                  eq_refl eq_refl eq_refl eq_refl)).
Defined.

(** X6. The transfer.sh block checks nothing but the status: the trimmed,
    scheme-coerced body of any 2xx answer is returned as the result of the
    function, also when it is empty or no URL at all. *)
Theorem transferSh_accepts_any_body env buf name w s r t p :
  net w (fetched s) = Resp r ->
  resp_ok r = true ->
  resp_body r = BodyText t p ->
  let url := Js.replaceHttp (Js.trim t) in
  let s' := mkState (S (fetched s)) (clockReads s)
              (trace s ++ [EFetch (uploadRequest env buf name TransferSh);
                           EConsole LogLevel ["transfer.sh upload ok ->"; url]])%list in
  tryTransferSh env buf name w s = (Ret (Some url), s') /\
  forall k, orNext (tryTransferSh env buf name) k w s = (Ret url, s').
Proof.
  intros Hnet Hok Hbody. cbv zeta.
  assert (Hrun : tryTransferSh env buf name w s =
    (Ret (Some (Js.replaceHttp (Js.trim t))),
     mkState (S (fetched s)) (clockReads s)
       (trace s ++ [EFetch (uploadRequest env buf name TransferSh);
                    EConsole LogLevel ["transfer.sh upload ok ->";
                                       Js.replaceHttp (Js.trim t)]])%list)).
  { unfold tryTransferSh. mstep. rewrite Hnet. mstep. rewrite Hok. cbn [negb]. mstep.
    rewrite Hbody. mstep. rewrite <- app_assoc. reflexivity. }
  split; [exact Hrun|].
  intros k. unfold orNext, bind. rewrite Hrun. reflexivity.
Qed.

Lemma transferSh_accepts_any_body_witness :
  exists r,
    net Scenario2.transferShBlank 2 = Resp r /\
    resp_ok r = true /\
    resp_body r = BodyText "  " (inl "Unexpected token in JSON at position 0") /\
    fst (tryTransferSh Scenario.plainEnv Scenario.clip (Some "clip.mp4")
           Scenario2.transferShBlank (mkState 2 0 [])) = Ret (Some "").
Proof.
  eexists.
  split; [reflexivity|]. split; [reflexivity|]. split; [reflexivity|].
  rewrite (proj1 (transferSh_accepts_any_body Scenario.plainEnv Scenario.clip (Some "clip.mp4")
                    Scenario2.transferShBlank (mkState 2 0 []) _ _ _
                    eq_refl eq_refl eq_refl)).
  reflexivity.
Defined.

(** X7. Which field a JSON answer is read from.  Cloudinary: [secure_url]
    when it is a non-empty string, whatever [url] holds; [url] when
    [secure_url] is missing or falsy.  tmpfiles.org: [data.url] when it is
    a non-empty string; the top-level [url] when [data.url] is missing or
    falsy. *)
Theorem url_field_priority env buf name w s r t j c u :
  net w (fetched s) = Resp r ->
  resp_ok r = true ->
  resp_body r = BodyText t (inr j) ->
  let url := String c u in
  (cloudinaryConfigured env = true ->
   (prop "secure_url" j = Some (JStr url) \/
    (Json.truthy (prop "secure_url" j) = false /\ prop "url" j = Some (JStr url))) ->
   fst (tryCloudinary env buf name w s) = Ret (Some (Js.replaceHttp url))) /\
  ((optProp "url" (prop "data" j) = Some (JStr url) \/
    (Json.truthy (optProp "url" (prop "data" j)) = false /\ prop "url" j = Some (JStr url))) ->
   fst (tryTmpfiles env buf name w s) = Ret (Some (canonicalUrl Tmpfiles url))).
Proof.
  intros Hnet Hok Hbody. cbv zeta. split.
  - intros Hc Hfield.
    change (tryCloudinary env buf name) with (attemptBlock env buf name Cloudinary).
    rewrite attemptBlock_run by auto. rewrite Hnet. cbn [fst]. f_equal.
    rewrite attemptResult_ok by (auto; discriminate).
    unfold expectedUrl. rewrite Hbody.
    assert (E : Json.or (prop "secure_url" j) (prop "url" j) = Some (JStr (String c u))).
    { unfold Json.or. destruct Hfield as [-> | [-> ->]]; reflexivity. }
    rewrite E. reflexivity.
  - intros Hfield.
    change (tryTmpfiles env buf name) with (attemptBlock env buf name Tmpfiles).
    rewrite attemptBlock_run by discriminate. rewrite Hnet. cbn [fst]. f_equal.
    rewrite attemptResult_ok by (auto; discriminate).
    unfold expectedUrl. rewrite Hbody.
    assert (Ed : optProp "data" (Some j) = prop "data" j) by (destruct j; reflexivity).
    assert (Eu : optProp "url" (Some j) = prop "url" j) by (destruct j; reflexivity).
    rewrite Ed, Eu.
    assert (E : Json.or (optProp "url" (prop "data" j)) (prop "url" j)
                = Some (JStr (String c u))).
    { unfold Json.or. destruct Hfield as [-> | [-> ->]]; reflexivity. }
    rewrite E. reflexivity.
Qed.

Lemma url_field_priority_witness :
  let j := JObj [("url", JStr "http://res.cloudinary.com/demo/a.mp4");
                 ("secure_url", JStr "https://res.cloudinary.com/demo/a.mp4")] in
  let w := mkWorld (fun _ => Scenario.okJsonOf j) Scenario.steadyClock in
  cloudinaryConfigured Scenario.cloudEnv = true /\
  prop "secure_url" j = Some (JStr "https://res.cloudinary.com/demo/a.mp4") /\
  fst (tryCloudinary Scenario.cloudEnv Scenario.clip (Some "clip.mp4") w init)
    = Ret (Some "https://res.cloudinary.com/demo/a.mp4").
Proof.
  cbv zeta.
  split; [reflexivity|]. split; [reflexivity|].
  exact (proj1 (url_field_priority Scenario.cloudEnv Scenario.clip (Some "clip.mp4")
                  (mkWorld (fun _ => Scenario.okJsonOf
                              (JObj [("url", JStr "http://res.cloudinary.com/demo/a.mp4");
                                     ("secure_url",
                                      JStr "https://res.cloudinary.com/demo/a.mp4")]))
                     Scenario.steadyClock)
                  init _ _ _ "h" "ttps://res.cloudinary.com/demo/a.mp4"
                  eq_refl eq_refl eq_refl)
           eq_refl (or_introl eq_refl)).
Defined.

(** *** When Replicate does not answer with a job *)

(** X8. A submission that is refused ends the run at once: when the
    request is rejected the run fails with the message of the rejection,
    and when the answer is outside 200-299 it fails with [Replicate
    prediction start failed:], the status and the body.  Either way the
    submission is the only request, the clock is not read, and nothing is
    retried. *)
Theorem submission_failure_ends_run env fuel videoUrl w s :
  (forall msg,
     net w (fetched s) = NetworkError msg ->
     runPredictionWithUrl env fuel videoUrl w s =
       (Throw msg,
        mkState (S (fetched s)) (clockReads s)
          (trace s ++ firstn 4 (startEvents env videoUrl 0))%list)) /\
  (forall r t p,
     net w (fetched s) = Resp r -> resp_ok r = false -> resp_body r = BodyText t p ->
     runPredictionWithUrl env fuel videoUrl w s =
       (Throw ("Replicate prediction start failed: " ++ Js.ofNat (resp_status r) ++ " " ++ t),
        mkState (S (fetched s)) (clockReads s)
          (trace s ++ startEvents env videoUrl (resp_status r))%list)).
Proof.
  split.
  - intros msg Hnet. unfold runPredictionWithUrl. mstep. rewrite Hnet.
    cbn [firstn startEvents]. rewrite <- !app_assoc. reflexivity.
  - intros r t p Hnet Hok Hbody. unfold runPredictionWithUrl. mstep. rewrite Hnet.
    mstep. rewrite Hok. cbn [negb]. mstep. rewrite Hbody.
    unfold startEvents. rewrite <- !app_assoc. reflexivity.
Qed.

Lemma submission_failure_ends_run_witness :
  exists r,
    net Scenario2.submissionRefused (fetched init) = Resp r /\
    resp_ok r = false /\
    resp_body r = BodyText "Unauthenticated" (inl "Unexpected token U in JSON at position 0") /\
    runPredictionWithUrl Scenario.plainEnv 5 "https://example.com/in.mp4"
      Scenario2.submissionRefused init =
      (Throw "Replicate prediction start failed: 401 Unauthenticated",
       mkState 1 0 (startEvents Scenario.plainEnv "https://example.com/in.mp4" 401)).
Proof.
  eexists.
  split; [reflexivity|]. split; [reflexivity|]. split; [reflexivity|].
  exact (proj2 (submission_failure_ends_run Scenario.plainEnv 5 "https://example.com/in.mp4"
                  Scenario2.submissionRefused init) _ _ _ eq_refl eq_refl eq_refl).
Defined.

(** X9. A poll that is answered outside 200-299 is not retried: after
    [n] polls answered with non-terminal jobs, such an answer makes the run
    fail with [Replicate prediction poll failed:], the status and the
    body, having issued [n + 1] polls; the sink gets the status and the
    first 200 characters of the body. *)
Theorem poll_failure_ends_run env fuel videoUrl w s r t j0 jobs rp tp pp :
  net w (fetched s) = Resp r ->
  resp_ok r = true ->
  resp_body r = BodyText t (inr j0) ->
  j0 <> JNull ->
  pollsAnswer w (clock w (clockReads s)) (S (fetched s)) (S (clockReads s)) jobs ->
  stillPolling j0 jobs ->
  nonTerminal (prop "status" (jobAfter j0 jobs)) = true ->
  (clock w (S (clockReads s) + List.length jobs) - clock w (clockReads s) <= timeoutMs)%Z ->
  net w (S (fetched s) + List.length jobs) = Resp rp ->
  resp_ok rp = false ->
  resp_body rp = BodyText tp pp ->
  List.length jobs < fuel ->
  let id := prop "id" j0 in
  runPredictionWithUrl env fuel videoUrl w s =
    (Throw ("Replicate prediction poll failed: " ++ Js.ofNat (resp_status rp) ++ " " ++ tp),
     mkState (S (S (fetched s) + List.length jobs)) (S (S (clockReads s) + List.length jobs))
       (trace s ++ startEvents env videoUrl (resp_status r) ++ pollEvents env id jobs ++
        [ESleep 2000;
         EOnLog ("poll: GET /v1/predictions/" ++ Json.toString id);
         EFetch (pollRequest env id);
         EOnLog ("poll: response " ++ Js.ofNat (resp_status rp) ++ " " ++ Js.slice0 200 tp)])%list).
Proof.
  intros Hnet Hok Hbody Hj Hans Hstill Hnon Hin Hnetp Hokp Hbodyp Hfuel. cbv zeta.
  replace fuel with (List.length jobs + S (fuel - S (List.length jobs))) by lia.
  rewrite (runPrediction_polls env _ videoUrl w s r t j0 jobs) by assumption.
  cbn [pollLoop]. rewrite Hnon. mstep.
  replace (clock w (S (clockReads s) + List.length jobs) - clock w (clockReads s)
           >? timeoutMs)%Z with false
    by (symmetry; rewrite Z.gtb_ltb; apply Z.ltb_ge; lia).
  mstep. rewrite Hnetp. mstep. rewrite Hokp. cbn [negb]. mstep. rewrite Hbodyp.
  mstep. rewrite <- !app_assoc. reflexivity.
Qed.

Lemma poll_failure_ends_run_witness :
  let w := Scenario2.pollBreaks in
  let j0 := Scenario.job "processing" in
  let jobs := [Scenario.job "processing"] in
  exists r t rp,
    net w (fetched init) = Resp r /\ resp_ok r = true /\
    resp_body r = BodyText t (inr j0) /\ j0 <> JNull /\
    pollsAnswer w (clock w (clockReads init)) 1 1 jobs /\
    stillPolling j0 jobs /\
    nonTerminal (prop "status" (jobAfter j0 jobs)) = true /\
    (clock w (1 + List.length jobs) - clock w (clockReads init) <= timeoutMs)%Z /\
    net w (1 + List.length jobs) = Resp rp /\ resp_ok rp = false /\
    resp_body rp = BodyText "Internal Server Error"
                     (inl "Unexpected token I in JSON at position 0") /\
    List.length jobs < 5 /\
    fst (runPredictionWithUrl Scenario.plainEnv 5 "https://example.com/in.mp4" w init)
      = Throw "Replicate prediction poll failed: 500 Internal Server Error" /\
    fetched (snd (runPredictionWithUrl Scenario.plainEnv 5 "https://example.com/in.mp4" w init))
      = 3.
Proof.
  cbv zeta. eexists _, _, _.
  assert (H4 : Scenario.job "processing" <> JNull) by discriminate.
  assert (H5 : pollsAnswer Scenario2.pollBreaks
                 (clock Scenario2.pollBreaks (clockReads init)) 1 1
                 [Scenario.job "processing"]).
  { cbn. repeat split;
      try (unfold timeoutMs, Scenario.steadyClock; lia); try answers_job; discriminate. }
  assert (H6 : stillPolling (Scenario.job "processing") [Scenario.job "processing"])
    by (cbn; auto).
  assert (H8 : (clock Scenario2.pollBreaks (1 + List.length [Scenario.job "processing"])
                - clock Scenario2.pollBreaks (clockReads init) <= timeoutMs)%Z)
    by (cbn; unfold timeoutMs, Scenario.steadyClock; lia).
  assert (H12 : List.length [Scenario.job "processing"] < 5) by (cbn; lia).
  split; [reflexivity|]. split; [reflexivity|]. split; [reflexivity|].
  split; [exact H4|]. split; [exact H5|]. split; [exact H6|].
  split; [reflexivity|]. split; [exact H8|].
  split; [reflexivity|]. split; [reflexivity|]. split; [reflexivity|].
  split; [exact H12|].
  rewrite (poll_failure_ends_run Scenario.plainEnv 5 "https://example.com/in.mp4"
             Scenario2.pollBreaks init _ _ (Scenario.job "processing")
             [Scenario.job "processing"] _ _ _
             eq_refl eq_refl eq_refl H4 H5 H6 eq_refl H8 eq_refl eq_refl eq_refl H12).
  split; reflexivity.
Defined.

(** *** What a run returns *)

Lemma isStr_true s v : Json.isStr s v = true -> v = Some (JStr s).
Proof.
  unfold Json.isStr. destruct v as [[]|]; try discriminate.
  intros H. apply String.eqb_eq in H. subst. reflexivity.
Qed.

Lemma pollLoop_ret_succeeded env id startedAt w : forall fuel lastData s j s',
  pollLoop env fuel id startedAt (prop "status" lastData) lastData w s = (Ret j, s') ->
  prop "status" j = Some (JStr "succeeded").
Proof.
  induction fuel as [|fuel IH]; intros lastData s j s'; cbn [pollLoop];
    (destruct (nonTerminal (prop "status" lastData));
     [| unfold finish;
        destruct (Json.isStr "succeeded" (prop "status" lastData)) eqn:E; cbn [negb];
        [ intros H; injection H as <- _; apply isStr_true; exact E
        | destruct lastData; discriminate ] ]).
  - discriminate.
  - mstep.
    destruct (clock w (clockReads s) - startedAt >? timeoutMs)%Z; [discriminate|].
    mstep.
    destruct (net w (fetched s)) as [msg | r]; [discriminate|].
    mstep.
    destruct (resp_ok r); cbn [negb]; mstep.
    2: { destruct (resp_body r); discriminate. }
    destruct (resp_body r) as [msg | t [msg | j']]; try discriminate.
    mstep.
    destruct j'; try discriminate; mstep; apply IH.
Qed.

Lemma runPrediction_ret_status env fuel videoUrl w s j s' :
  runPredictionWithUrl env fuel videoUrl w s = (Ret j, s') ->
  prop "status" j = Some (JStr "succeeded").
Proof.
  unfold runPredictionWithUrl. mstep.
  destruct (net w (fetched s)) as [msg | r]; [discriminate|].
  mstep.
  destruct (resp_ok r); cbn [negb]; mstep.
  2: { destruct (resp_body r); discriminate. }
  destruct (resp_body r) as [msg | t [msg | j']]; try discriminate.
  mstep.
  destruct j'; try discriminate; mstep; apply pollLoop_ret_succeeded.
Qed.

(** X10. [runPredictionWithUrl] returns nothing but a succeeded job:
    whatever the network answers, a job it returns is a JSON object whose
    [status] is the string [succeeded]. *)
Theorem returns_only_succeeded_jobs env fuel videoUrl w s j s' :
  runPredictionWithUrl env fuel videoUrl w s = (Ret j, s') ->
  prop "status" j = Some (JStr "succeeded") /\ exists fields, j = JObj fields.
Proof.
  intros Hrun.
  pose proof (runPrediction_ret_status _ _ _ _ _ _ _ Hrun) as Hst.
  split; [exact Hst|].
  destruct j; try discriminate Hst. eauto.
Qed.

Lemma returns_only_succeeded_jobs_witness :
  exists s',
    runPredictionWithUrl Scenario.plainEnv 10 "https://example.com/in.mp4"
      Scenario.twoPolls init = (Ret Scenario.doneJob, s') /\
    prop "status" Scenario.doneJob = Some (JStr "succeeded").
Proof.
  eexists.
  assert (H : runPredictionWithUrl Scenario.plainEnv 10 "https://example.com/in.mp4"
                Scenario.twoPolls init
              = (Ret Scenario.doneJob,
                 snd (runPredictionWithUrl Scenario.plainEnv 10 "https://example.com/in.mp4"
                        Scenario.twoPolls init))) by reflexivity.
  split; [exact H|].
  exact (proj1 (returns_only_succeeded_jobs _ _ _ _ _ _ _ H)).
Defined.

(** *** The pace of the polls *)

Ltac paced_stop :=
  eexists; split;
  [ cbn [snd trace]; rewrite <- ?app_assoc; cbn [app]; reflexivity | reflexivity ].

Lemma pollLoop_paced env id startedAt w : forall fuel status lastData s,
  exists evs,
    trace (snd (pollLoop env fuel id startedAt status lastData w s)) = (trace s ++ evs)%list /\
    pacedPolls false evs = true.
Proof.
  induction fuel as [|fuel IH]; intros status lastData s; cbn [pollLoop];
    (destruct (nonTerminal status);
     [|rewrite finish_state; exists []; rewrite app_nil_r; auto]).
  - exists []. rewrite app_nil_r. auto.
  - mstep.
    destruct (clock w (clockReads s) - startedAt >? timeoutMs)%Z; [paced_stop|].
    mstep.
    destruct (net w (fetched s)) as [msg | r]; [paced_stop|].
    mstep.
    destruct (resp_ok r); cbn [negb]; mstep.
    2: { destruct (resp_body r); mstep; paced_stop. }
    destruct (resp_body r) as [msg | t [msg | j]]; mstep; try paced_stop.
    destruct j; mstep; try paced_stop.
    all: match goal with
         | |- context [pollLoop _ _ _ _ ?st ?j _ ?s1] =>
             destruct (IH st j s1) as (evs & Ht & Hp); rewrite Ht
         end.
    all: cbn [trace]; eexists; split;
         [ rewrite <- ?app_assoc; cbn [app]; reflexivity
         | cbn [pacedPolls pollRequest req_method Z.eqb Pos.eqb andb]; exact Hp ].
Qed.

(** X11. In every run, whatever the network answers, each poll comes
    after a delay of 2000 ms of its own: the run never issues two requests
    to Replicate without waiting two seconds between them. *)
Theorem polls_are_paced env fuel videoUrl w s :
  exists evs,
    trace (snd (runPredictionWithUrl env fuel videoUrl w s)) = (trace s ++ evs)%list /\
    pacedPolls false evs = true.
Proof.
  unfold runPredictionWithUrl. mstep.
  destruct (net w (fetched s)) as [msg | r]; [paced_stop|].
  mstep.
  destruct (resp_ok r); cbn [negb]; mstep.
  2: { destruct (resp_body r); mstep; paced_stop. }
  destruct (resp_body r) as [msg | t [msg | j]]; mstep; try paced_stop.
  destruct j; mstep; try paced_stop.
  all: match goal with
       | |- context [pollLoop _ _ ?id ?t0 ?st ?j _ ?s1] =>
           destruct (pollLoop_paced env id t0 w fuel st j s1) as (evs & Ht & Hp);
           rewrite Ht
       end.
  all: cbn [trace]; eexists; split;
       [ rewrite <- ?app_assoc; cbn [app]; reflexivity
       | cbn [pacedPolls startRequest req_method]; exact Hp ].
Qed.

(** *** The number of polls *)

(** Fuel that is not used up does not matter. *)
Lemma pollLoop_more_fuel env id startedAt w k : forall fuel status lastData s,
  fst (pollLoop env fuel id startedAt status lastData w s) <> OutOfFuel ->
  pollLoop env (fuel + k) id startedAt status lastData w s =
    pollLoop env fuel id startedAt status lastData w s.
Proof.
  induction fuel as [|fuel IH]; intros status lastData s;
    (destruct (nonTerminal status) eqn:E;
     [| intros _; rewrite !pollLoop_terminal by assumption; reflexivity]).
  - cbn [pollLoop]. rewrite E. cbn. congruence.
  - cbn [Nat.add pollLoop]. rewrite E. mstep.
    destruct (clock w (clockReads s) - startedAt >? timeoutMs)%Z; [reflexivity|].
    mstep.
    destruct (net w (fetched s)) as [msg | r]; [reflexivity|].
    mstep.
    destruct (resp_ok r); cbn [negb]; mstep; [|reflexivity].
    destruct (resp_body r) as [msg | t [msg | j]]; try reflexivity.
    mstep.
    destruct j; try reflexivity; mstep; apply IH.
Qed.

(** Under the hypotheses of [pollLoop_ends], the loop issues fewer polls
    than it has fuel. *)
Lemma pollLoop_poll_bound env id startedAt w : forall fuel status lastData s,
  (forall k, clockReads s <= k -> (clock w k + 2000 <= clock w (S k))%Z) ->
  (timeoutMs < clock w (clockReads s) - startedAt + 2000 * Z.of_nat (fuel - 1))%Z ->
  1 <= fuel ->
  fetched (snd (pollLoop env fuel id startedAt status lastData w s)) <= fetched s + (fuel - 1).
Proof.
  induction fuel as [|fuel IH]; intros status lastData s Hclock Hbudget Hfuel; [lia|].
  cbn [pollLoop].
  destruct (nonTerminal status); [|rewrite finish_state; lia].
  mstep.
  destruct (clock w (clockReads s) - startedAt >? timeoutMs)%Z eqn:Hlate; [cbn; lia|].
  rewrite Z.gtb_ltb in Hlate; apply Z.ltb_ge in Hlate.
  assert (Hf : 1 <= fuel) by lia.
  mstep.
  destruct (net w (fetched s)) as [msg | r]; [cbn; lia|].
  mstep.
  destruct (resp_ok r); cbn [negb]; mstep.
  2: { destruct (resp_body r); cbn; lia. }
  destruct (resp_body r) as [msg | t [msg | j]]; try (cbn; lia).
  mstep.
  destruct j; try (cbn; lia); mstep.
  all: etransitivity;
    [ apply IH; cbn [clockReads];
      [ intros k Hk; apply Hclock; lia
      | specialize (Hclock (clockReads s) (le_n _)); lia
      | lia ]
    | cbn [fetched]; lia ].
Qed.

(** X12. Provided the clock does not go back between the submission and
    the first iteration and every delay takes its two seconds, a run ends
    whatever the network answers: 302 iterations are enough, more fuel
    changes nothing, and the run issues at most 302 requests (the
    submission and 301 polls). *)
Theorem run_ends_within_budget env fuel videoUrl w s :
  (clock w (clockReads s) <= clock w (S (clockReads s)))%Z ->
  (forall k, clockReads s < k -> (clock w k + 2000 <= clock w (S k))%Z) ->
  302 <= fuel ->
  let r := runPredictionWithUrl env fuel videoUrl w s in
  fst r <> OutOfFuel /\
  r = runPredictionWithUrl env 302 videoUrl w s /\
  fetched (snd r) <= fetched s + 302.
Proof.
  intros Hmono Hclock Hfuel. cbv zeta.
  assert (Hends : fst (runPredictionWithUrl env 302 videoUrl w s) <> OutOfFuel)
    by (apply runPrediction_ends; auto).
  remember 302 as n eqn:Hn.
  assert (Hsame : runPredictionWithUrl env fuel videoUrl w s
                  = runPredictionWithUrl env n videoUrl w s).
  { replace fuel with (n + (fuel - n)) by lia.
    revert Hends. unfold runPredictionWithUrl. mstep.
    destruct (net w (fetched s)) as [msg | r]; [reflexivity|].
    mstep.
    destruct (resp_ok r); cbn [negb]; mstep; [|reflexivity].
    destruct (resp_body r) as [msg | t [msg | j]]; try reflexivity.
    mstep.
    destruct j; try reflexivity; mstep; apply pollLoop_more_fuel. }
  rewrite Hsame. split; [exact Hends|]. split; [reflexivity|].
  unfold runPredictionWithUrl. mstep.
  destruct (net w (fetched s)) as [msg | r]; [cbn [fetched snd]; lia|].
  mstep.
  destruct (resp_ok r); cbn [negb]; mstep.
  2: { destruct (resp_body r); cbn [fetched snd]; lia. }
  destruct (resp_body r) as [msg | t [msg | j]]; try (cbn [fetched snd]; lia).
  mstep.
  destruct j; try (cbn [fetched snd]; lia); mstep.
  all: etransitivity;
    [ apply pollLoop_poll_bound; cbn [clockReads];
      [ intros k Hk; apply Hclock; lia
      | unfold timeoutMs; lia
      | lia ]
    | cbn [fetched]; lia ].
Qed.

Lemma run_ends_within_budget_witness :
  let w := Scenario.neverDone in
  (clock w (clockReads init) <= clock w (S (clockReads init)))%Z /\
  (forall k, clockReads init < k -> (clock w k + 2000 <= clock w (S k))%Z) /\
  302 <= 400 /\
  fst (runPredictionWithUrl Scenario.plainEnv 400 "https://example.com/in.mp4" w init)
    <> OutOfFuel /\
  fetched (snd (runPredictionWithUrl Scenario.plainEnv 400 "https://example.com/in.mp4" w init))
    <= fetched init + 302.
Proof.
  cbv zeta.
  assert (H1 : (clock Scenario.neverDone (clockReads init)
                <= clock Scenario.neverDone (S (clockReads init)))%Z)
    by (unfold Scenario.neverDone, Scenario.steadyClock; cbn [clock clockReads init]; lia).
  assert (H2 : forall k, clockReads init < k ->
                 (clock Scenario.neverDone k + 2000 <= clock Scenario.neverDone (S k))%Z)
    by (intros k _; unfold Scenario.neverDone, Scenario.steadyClock; cbn [clock]; lia).
  assert (H3 : 302 <= 400) by lia.
  split; [exact H1|]. split; [exact H2|]. split; [exact H3|].
  destruct (run_ends_within_budget Scenario.plainEnv 400 "https://example.com/in.mp4"
              Scenario.neverDone init H1 H2 H3) as (Ha & _ & Hb).
  split; [exact Ha | exact Hb].
Defined.

(** *** Where the requests go *)

Section IssuesOnly.

Variable P : Request -> Prop.

Lemma issuesOnly_ret {A} (a : A) : issuesOnly P (ret a).
Proof. intros w s. exists []. cbn. rewrite app_nil_r. auto. Qed.

Lemma issuesOnly_throw {A} msg : issuesOnly P (@throw A msg).
Proof. intros w s. exists []. cbn. rewrite app_nil_r. auto. Qed.

Lemma issuesOnly_emit e :
  match e with EFetch _ => False | _ => True end -> issuesOnly P (emit e).
Proof.
  intros He w s. exists [e]. split; [reflexivity|].
  destruct e; [contradiction | | |]; constructor.
Qed.

Lemma issuesOnly_now : issuesOnly P now.
Proof. intros w s. exists []. cbn. rewrite app_nil_r. auto. Qed.

Lemma issuesOnly_fetch r : P r -> issuesOnly P (fetch r).
Proof.
  intros Hr w s. exists [EFetch r]. unfold fetch.
  destruct (net w (fetched s)); cbn; auto.
Qed.

Lemma issuesOnly_bind {A B} (m : M A) (k : A -> M B) :
  issuesOnly P m -> (forall a, issuesOnly P (k a)) -> issuesOnly P (bind m k).
Proof.
  intros Hm Hk w s. unfold bind.
  destruct (Hm w s) as (evs1 & Ht1 & Hf1).
  destruct (m w s) as [[a | e |] s1]; cbn [snd] in *; try solve [exists evs1; auto].
  destruct (Hk a w s1) as (evs2 & Ht2 & Hf2).
  exists (evs1 ++ evs2)%list. rewrite Ht2, Ht1, app_assoc. split; [reflexivity|].
  rewrite fetches_app. apply Forall_app. auto.
Qed.

Lemma issuesOnly_tryCatch {A} (m : M A) (h : string -> M A) :
  issuesOnly P m -> (forall e, issuesOnly P (h e)) -> issuesOnly P (tryCatch m h).
Proof.
  intros Hm Hh w s. unfold tryCatch.
  destruct (Hm w s) as (evs1 & Ht1 & Hf1).
  destruct (m w s) as [[a | e |] s1]; cbn [snd] in *; try solve [exists evs1; auto].
  destruct (Hh e w s1) as (evs2 & Ht2 & Hf2).
  exists (evs1 ++ evs2)%list. rewrite Ht2, Ht1, app_assoc. split; [reflexivity|].
  rewrite fetches_app. apply Forall_app. auto.
Qed.

Lemma issuesOnly_collectingLogs {A} (m : M A) :
  issuesOnly P m -> issuesOnly P (collectingLogs m).
Proof.
  intros Hm w s. unfold collectingLogs.
  destruct (Hm w s) as (evs & Ht & Hf).
  destruct (m w s) as [[a | e |] s1]; cbn [snd] in *; exists evs; auto.
Qed.

Lemma issuesOnly_outOfFuel {A} : issuesOnly P (fun _ s => (@OutOfFuel A, s)).
Proof. intros w s. exists []. cbn. rewrite app_nil_r. auto. Qed.

End IssuesOnly.

Ltac issues_step :=
  first
    [ apply issuesOnly_ret
    | apply issuesOnly_throw
    | apply issuesOnly_now
    | apply issuesOnly_outOfFuel
    | apply issuesOnly_emit; exact I
    | apply issuesOnly_bind; [|intros ?]
    | apply issuesOnly_tryCatch; [|intros ?]
    | apply issuesOnly_collectingLogs
    | match goal with
      | |- issuesOnly _ (match ?x with _ => _ end) => destruct x
      end ].

Ltac issues := repeat issues_step.

Lemma issuesOnly_upload P env buf name :
  (forall b, P (uploadRequest env buf name b)) ->
  issuesOnly P (uploadToReplicate env buf name).
Proof.
  intros HP.
  unfold uploadToReplicate, orNext, tryCloudinary, tryCatbox, tryTmpfiles, tryTransferSh,
    textOrEmpty, jsonOrEmpty, respText, respJson, member, replaceHttpOf, consoleError,
    console.
  issues; try (apply issuesOnly_fetch; apply HP); issues.
Qed.

Lemma issuesOnly_pollLoop P env id startedAt :
  P (pollRequest env id) ->
  forall fuel status lastData, issuesOnly P (pollLoop env fuel id startedAt status lastData).
Proof.
  intros HP. induction fuel as [|fuel IH]; intros status lastData; cbn [pollLoop];
    (destruct (nonTerminal status);
     [| unfold finish, member; issues ]).
  - apply issuesOnly_outOfFuel.
  - unfold sleep, onLog, respText, respJson, member.
    issues; try (apply issuesOnly_fetch; exact HP); issues; apply IH.
Qed.

Lemma issuesOnly_runPrediction P env fuel videoUrl :
  P (startRequest env videoUrl) ->
  (forall id, P (pollRequest env id)) ->
  issuesOnly P (runPredictionWithUrl env fuel videoUrl).
Proof.
  intros Hstart Hpoll.
  unfold runPredictionWithUrl, onLog, console, respText, respJson, member.
  issues; try (apply issuesOnly_fetch; exact Hstart); issues;
    apply issuesOnly_pollLoop; apply Hpoll.
Qed.

Lemma issuesOnly_apiRemove P env fuel req :
  (forall buf name b, P (uploadRequest env buf name b)) ->
  (forall videoUrl, P (startRequest env videoUrl)) ->
  (forall id, P (pollRequest env id)) ->
  issuesOnly P (apiRemove env fuel req).
Proof.
  intros Hup Hstart Hpoll.
  unfold apiRemove, predictionResponse, member, console.
  repeat first [ apply issuesOnly_runPrediction; [apply Hstart | exact Hpoll]
               | apply issuesOnly_upload; intros ?; apply Hup
               | issues_step ].
Qed.

Lemma endpoint_is_replicate env :
  Js.startsWith "https://api.replicate.com/v1/" (endpoint env) = true.
Proof.
  unfold endpoint.
  destruct (REPLICATE_MODEL_SLUG env) as [[|a m]|];
    destruct (Js.or (REPLICATE_VERSION_ID env) (REPLICATE_MODEL_VERSION env)) as [[|b v]|];
    reflexivity.
Qed.

(** X13. Whatever a request to [POST /api/remove] holds and whatever the
    network answers, every request the handler issues goes over https to
    Cloudinary, catbox.moe, tmpfiles.org, transfer.sh or the Replicate
    API, and the [Authorization] header with the API token goes to the
    Replicate API only: the upload hosts never see the token. *)
Theorem remove_requests_stay_home env fuel req w s :
  exists evs,
    trace (snd (apiRemove env fuel req w s)) = (trace s ++ evs)%list /\
    Forall (fun r => knownEndpoint r = true /\ keepsToken r = true) (fetches evs).
Proof.
  apply issuesOnly_apiRemove.
  - intros buf name b. destruct b; split; reflexivity.
  - intros videoUrl. unfold knownEndpoint, keepsToken. cbn [startRequest req_url req_authorization authorization].
    rewrite endpoint_is_replicate, !orb_true_r. auto.
  - intros id. split; reflexivity.
Qed.

(** *** What the handler answers *)

Lemma orElse_nonempty e d : d <> "" -> Js.orElse (Some e) d <> "".
Proof. intros Hd. destruct e; cbn; [exact Hd | discriminate]. Qed.

Lemma predictionResponse_succeeded env fuel videoUrl w s j s1 logs w' s2 :
  runPredictionWithUrl env fuel videoUrl w s = (Ret j, s1) ->
  predictionResponse j logs w' s2 =
    (Ret (mkHttpResponse 200
            (ResultBody (Some (JStr "succeeded")) (prop "output" j)
               (Js.joinLines (logs ++ (if Json.truthy (prop "logs" j)
                                       then [Json.toString (prop "logs" j)]
                                       else []))%list))),
     s2).
Proof.
  intros Hrun. pose proof (runPrediction_ret_status _ _ _ _ _ _ _ Hrun) as Hst.
  unfold predictionResponse.
  destruct j; try discriminate Hst. mstep. rewrite Hst. reflexivity.
Qed.

(** X14. [POST /api/remove] never lets an error out: whatever the request
    holds and whatever the network answers, a run that ends answers 200,
    400 or 500.  A 200 answer carries the status [succeeded]; a 400 answer
    is given before anything is done (no request, no clock reading, no
    event); a 500 answer carries a non-empty error message. *)
Theorem remove_always_answers env fuel req w s :
  match apiRemove env fuel req w s with
  | (Ret resp, s') =>
      (res_status resp = 200 /\
       exists output logs, res_body resp = ResultBody (Some (JStr "succeeded")) output logs) \/
      (res_status resp = 400 /\ s' = s /\ exists msg, res_body resp = ErrorBody msg) \/
      (res_status resp = 500 /\ exists msg, res_body resp = ErrorBody msg /\ msg <> "")
  | (Throw _, _) => False
  | (OutOfFuel, _) => True
  end.
Proof.
  unfold apiRemove, tryCatch.
  destruct (negb (Js.truthy (REPLICATE_API_TOKEN env))
            || negb (Js.truthy (REPLICATE_MODEL_VERSION env))).
  { cbn. right. right. split; [reflexivity|]. eexists. split; [reflexivity|]. discriminate. }
  destruct (isJson req && Json.truthy (body req) && Json.truthy (optProp "url" (body req))).
  - destruct (Js.trim (Json.toString (optProp "url" (body req)))) as [|a u].
    { cbn. right. left. eauto. }
    unfold bind, collectingLogs.
    destruct (runPredictionWithUrl env fuel (String a u) w s) as [[j | e |] s1] eqn:Hrun.
    + cbn [fst snd]. erewrite predictionResponse_succeeded by exact Hrun.
      left. cbn. eauto.
    + mstep.
      right. right. cbn. split; [reflexivity|]. eexists. split; [reflexivity|].
      apply orElse_nonempty. discriminate.
    + exact I.
  - destruct (file req) as [f|]; [|cbn; right; left; eauto].
    destruct (buffer f) as [buf|]; [|cbn; right; left; eauto].
    destruct (originalname f) as [[|c name]|]; try (cbn; right; left; eauto).
    unfold bind, collectingLogs.
    destruct (uploadToReplicate env buf (Some (String c name)) w s) as [[url | e |] s0].
    + destruct (runPredictionWithUrl env fuel url w s0) as [[j | e |] s1] eqn:Hrun.
      * cbn [fst snd]. erewrite predictionResponse_succeeded by exact Hrun.
        left. cbn. eauto.
      * mstep. right. right. cbn. split; [reflexivity|]. eexists. split; [reflexivity|].
        apply orElse_nonempty. discriminate.
      * exact I.
    + mstep. right. right. cbn. split; [reflexivity|]. eexists. split; [reflexivity|].
      apply orElse_nonempty. discriminate.
    + exact I.
Qed.

(** *** The two ways into the handler *)

Lemma remove_tail env fuel videoUrl first w s :
  exists tail,
    trace (snd (tryCatch
                  (r <- collectingLogs (runPredictionWithUrl env fuel videoUrl) ;;
                   predictionResponse (fst r) (first ++ snd r)%list)
                  (fun err =>
                     console ErrorLevel [] ;;;
                     ret (mkHttpResponse 500 (ErrorBody (Js.orElse (Some err) "Server error"))))
                  w s))
    = (trace (snd (runPredictionWithUrl env fuel videoUrl w s)) ++ tail)%list /\
    fetches tail = [].
Proof.
  unfold tryCatch, bind, collectingLogs.
  destruct (runPredictionWithUrl env fuel videoUrl w s) as [[j | e |] s1] eqn:Hrun.
  - cbn [fst snd]. erewrite predictionResponse_succeeded by exact Hrun.
    exists []. rewrite app_nil_r. auto.
  - mstep. exists [EConsole ErrorLevel []]. auto.
  - exists []. rewrite app_nil_r. auto.
Qed.

(** X15. A JSON request with a [url] is served without any upload, even
    when a file is attached: on a configured server, the requests of the
    run are the submission of the trimmed URL to Replicate, followed by
    polls of one job only. *)
Theorem json_url_skips_upload env fuel req w s :
  Js.truthy (REPLICATE_API_TOKEN env) = true ->
  Js.truthy (REPLICATE_MODEL_VERSION env) = true ->
  isJson req = true ->
  Json.truthy (optProp "url" (body req)) = true ->
  Js.trim (Json.toString (optProp "url" (body req))) <> "" ->
  exists evs id n,
    trace (snd (apiRemove env fuel req w s)) = (trace s ++ evs)%list /\
    fetches evs =
      startRequest env (Js.trim (Json.toString (optProp "url" (body req))))
        :: repeat (pollRequest env id) n.
Proof.
  intros Htok Hver Hjson Hurl Hne.
  assert (Hbody : Json.truthy (body req) = true).
  { destruct (body req) as [[]|]; try reflexivity; discriminate Hurl. }
  unfold apiRemove. rewrite Htok, Hver, Hjson, Hbody, Hurl. cbn [negb orb andb].
  destruct (Js.trim (Json.toString (optProp "url" (body req)))) as [|a u]; [congruence|].
  destruct (remove_tail env fuel (String a u) [] w s) as (tail & Ht & Hf).
  destruct (runPrediction_requests env fuel (String a u) w s) as (evs & id & n & Hr & Hfe).
  exists (evs ++ tail)%list, id, n. split.
  - cbn [app] in Ht. rewrite Ht, Hr, app_assoc. reflexivity.
  - rewrite fetches_app, Hf, app_nil_r. exact Hfe.
Qed.

Lemma json_url_skips_upload_witness :
  exists evs id n,
    trace (snd (apiRemove Scenario.plainEnv 302
                  (mkHttpRequest true
                     (Some (JObj [("url", JStr "  https://example.com/v.mp4 ")]))
                     (Some (mkUploadedFile (Some Scenario.clip) (Some "clip.mp4"))))
                  Scenario.allDown init))
    = (trace init ++ evs)%list /\
    fetches evs =
      startRequest Scenario.plainEnv "https://example.com/v.mp4"
        :: repeat (pollRequest Scenario.plainEnv id) n.
Proof.
  apply (json_url_skips_upload Scenario.plainEnv 302
           (mkHttpRequest true
              (Some (JObj [("url", JStr "  https://example.com/v.mp4 ")]))
              (Some (mkUploadedFile (Some Scenario.clip) (Some "clip.mp4"))))
           Scenario.allDown init);
    try reflexivity.
  vm_compute. discriminate.
Defined.

(** X16. A file that no backend takes is never submitted: on a configured
    server, when the upload of the request's file fails, the answer is 500
    with the aggregate upload error, and the requests of the run are those
    to the backends of the chain only, none to Replicate. *)
Theorem failed_upload_answers_500 env fuel req f buf name w s e s0 :
  Js.truthy (REPLICATE_API_TOKEN env) = true ->
  Js.truthy (REPLICATE_MODEL_VERSION env) = true ->
  isJson req && Json.truthy (body req) && Json.truthy (optProp "url" (body req)) = false ->
  file req = Some f -> buffer f = Some buf -> originalname f = Some name -> name <> "" ->
  uploadToReplicate env buf (Some name) w s = (Throw e, s0) ->
  fst (apiRemove env fuel req w s) =
    Ret (mkHttpResponse 500
           (ErrorBody "All upload strategies failed (catbox.moe, tmpfiles.org, transfer.sh).")) /\
  exists evs,
    trace (snd (apiRemove env fuel req w s)) = (trace s ++ evs)%list /\
    fetches evs = map (uploadRequest env buf (Some name)) (chain env).
Proof.
  intros Htok Hver Hurl Hfile Hbuf Hname Hne Hup.
  pose proof (upload_chain_error _ _ _ _ _ _ _ Hup) as ->.
  unfold apiRemove. rewrite Htok, Hver, Hurl, Hfile, Hbuf, Hname. cbn [negb orb].
  destruct name as [|c name]; [congruence|].
  unfold tryCatch, bind. rewrite Hup. mstep. split; [reflexivity|].
  rewrite uploadToReplicate_firstSuccess in Hup.
  destruct (firstSuccess_run env buf (Some (String c name)) (chain env) w s
              (chain_configured env)) as (n & evs & r & Hrun & Hn & Hf & Hr).
  rewrite Hup in Hrun. injection Hrun as <- ->. destruct Hr as [_ ->].
  rewrite firstn_all in Hf. cbn [trace].
  exists (evs ++ [EConsole ErrorLevel []])%list. split.
  - rewrite app_assoc. reflexivity.
  - rewrite fetches_app, app_nil_r. exact Hf.
Qed.

Lemma failed_upload_answers_500_witness :
  fst (apiRemove Scenario.plainEnv 302
         (mkHttpRequest false None
            (Some (mkUploadedFile (Some Scenario.clip) (Some "clip.mp4"))))
         Scenario.allDown init) =
    Ret (mkHttpResponse 500
           (ErrorBody "All upload strategies failed (catbox.moe, tmpfiles.org, transfer.sh).")).
Proof.
  refine (proj1 (failed_upload_answers_500 Scenario.plainEnv 302
                   (mkHttpRequest false None
                      (Some (mkUploadedFile (Some Scenario.clip) (Some "clip.mp4"))))
                   (mkUploadedFile (Some Scenario.clip) (Some "clip.mp4"))
                   Scenario.clip "clip.mp4" Scenario.allDown init
                   "All upload strategies failed (catbox.moe, tmpfiles.org, transfer.sh)."
                   (snd (uploadToReplicate Scenario.plainEnv Scenario.clip (Some "clip.mp4")
                           Scenario.allDown init))
                   _ _ _ _ _ _ _ _));
    try reflexivity.
  discriminate.
Defined.

(** X17. What is submitted for an uploaded file is the URL the upload
    returned: on a configured server, when the upload of the request's file
    returns a URL, the requests that follow are the submission of that URL
    to Replicate and polls of one job only, and a 200 answer starts its
    logs with the line [upload: ok -> <url>]. *)
Theorem uploaded_url_is_submitted env fuel req f buf name w s url s0 :
  Js.truthy (REPLICATE_API_TOKEN env) = true ->
  Js.truthy (REPLICATE_MODEL_VERSION env) = true ->
  isJson req && Json.truthy (body req) && Json.truthy (optProp "url" (body req)) = false ->
  file req = Some f -> buffer f = Some buf -> originalname f = Some name -> name <> "" ->
  uploadToReplicate env buf (Some name) w s = (Ret url, s0) ->
  (exists evs id n,
     trace (snd (apiRemove env fuel req w s)) = (trace s0 ++ evs)%list /\
     fetches evs = startRequest env url :: repeat (pollRequest env id) n) /\
  (forall resp, fst (apiRemove env fuel req w s) = Ret resp -> res_status resp = 200 ->
     exists status output rest,
       res_body resp = ResultBody status output (Js.joinLines (("upload: ok -> " ++ url) :: rest))).
Proof.
  intros Htok Hver Hurl Hfile Hbuf Hname Hne Hup.
  unfold apiRemove. rewrite Htok, Hver, Hurl, Hfile, Hbuf, Hname. cbn [negb orb].
  destruct name as [|c name]; [congruence|].
  split.
  - destruct (remove_tail env fuel url ["upload: ok -> " ++ url] w s0) as (tail & Ht & Hf).
    destruct (runPrediction_requests env fuel url w s0) as (evs & id & n & Hr & Hfe).
    exists (evs ++ tail)%list, id, n. split.
    + unfold tryCatch at 1. unfold bind at 1. rewrite Hup.
      unfold tryCatch in Ht. cbn [app] in Ht. rewrite Ht, Hr, app_assoc. reflexivity.
    + rewrite fetches_app, Hf, app_nil_r. exact Hfe.
  - intros resp. unfold tryCatch at 1. unfold bind at 1. rewrite Hup.
    unfold bind, collectingLogs.
    destruct (runPredictionWithUrl env fuel url w s0) as [[j | e' |] s1] eqn:Hrun.
    + cbn [fst snd]. erewrite predictionResponse_succeeded by exact Hrun.
      cbn [fst]. intros H _. injection H as <-. cbn [res_body]. eauto.
    + mstep. intros H. injection H as <-. discriminate.
    + discriminate.
Qed.

Lemma uploaded_url_is_submitted_witness :
  exists evs id n,
    trace (snd (apiRemove Scenario.plainEnv 302
                  (mkHttpRequest false None
                     (Some (mkUploadedFile (Some Scenario.clip) (Some "clip.mp4"))))
                  Scenario2.catboxUp init))
    = (trace (snd (uploadToReplicate Scenario.plainEnv Scenario.clip (Some "clip.mp4")
                     Scenario2.catboxUp init)) ++ evs)%list /\
    fetches evs =
      startRequest Scenario.plainEnv "https://files.catbox.moe/ab12cd.mp4"
        :: repeat (pollRequest Scenario.plainEnv id) n.
Proof.
  refine (proj1 (uploaded_url_is_submitted Scenario.plainEnv 302
                   (mkHttpRequest false None
                      (Some (mkUploadedFile (Some Scenario.clip) (Some "clip.mp4"))))
                   (mkUploadedFile (Some Scenario.clip) (Some "clip.mp4"))
                   Scenario.clip "clip.mp4" Scenario2.catboxUp init
                   "https://files.catbox.moe/ab12cd.mp4"
                   (snd (uploadToReplicate Scenario.plainEnv Scenario.clip (Some "clip.mp4")
                           Scenario2.catboxUp init))
                   _ _ _ _ _ _ _ _));
    try reflexivity.
  discriminate.
Defined.

(** *** The download proxy *)

Lemma underscoreUnsafe_safe s : every isDownloadNameChar (underscoreUnsafe s) = true.
Proof.
  induction s as [|c s IH]; [reflexivity|].
  cbn [underscoreUnsafe every]. rewrite IH, andb_true_r.
  destruct (isDownloadNameChar c) eqn:E; [exact E | reflexivity].
Qed.

Lemma underscoreUnsafe_length s : String.length (underscoreUnsafe s) = String.length s.
Proof. induction s as [|c s IH]; cbn; congruence. Qed.

Lemma underscoreUnsafe_fixed s :
  every isDownloadNameChar s = true -> underscoreUnsafe s = s.
Proof.
  induction s as [|c s IH]; [reflexivity|].
  cbn [every underscoreUnsafe]. intros H. apply andb_prop in H as [Hc Hs].
  rewrite Hc, (IH Hs). reflexivity.
Qed.

Lemma every_includes f c s :
  f c = false -> every f s = true -> Js.includes (String c EmptyString) s = false.
Proof.
  intros Hc. induction s as [|d s IH]; [reflexivity|].
  cbn [every]. intros H. apply andb_prop in H as [Hd Hs].
  cbn [Js.includes Js.startsWith]. rewrite (IH Hs), orb_false_r.
  destruct (Ascii.eqb c d) eqn:E; [|reflexivity].
  apply Ascii.eqb_eq in E. subst d. congruence.
Qed.

Lemma orElse_default v d : d <> "" -> Js.orElse v d <> "".
Proof. intros Hd. destruct v as [[|c r]|]; cbn; try exact Hd. discriminate. Qed.

Lemma slice0_length n : forall s, String.length (Js.slice0 n s) <= n.
Proof.
  unfold Js.slice0. induction n as [|n IH]; intros [|c s]; cbn; try lia.
  specialize (IH s). lia.
Qed.

Lemma slice0_prefix n : forall s, exists rest, s = Js.slice0 n s ++ rest.
Proof.
  unfold Js.slice0. induction n as [|n IH]; intros [|c s]; cbn.
  - exists "". reflexivity.
  - exists (String c s). reflexivity.
  - exists "". reflexivity.
  - destruct (IH s) as [rest Hr]. exists rest. rewrite <- Hr. reflexivity.
Qed.

(** X18. The file name [GET /api/download] puts in its
    [Content-Disposition] header holds only letters, digits, [.], [_] and
    [-], whatever the query asks for: it has the length of the name asked
    for, holds no double quote, is the name itself when that is already
    clean, and is [cleaned.mp4] when the query gives none. *)
Theorem download_filename_is_clean q :
  every isDownloadNameChar (downloadFilename q) = true /\
  Js.includes doubleQuote (downloadFilename q) = false /\
  String.length (downloadFilename q) =
    String.length (Json.toString (Json.or (q_filename q) (Some (JStr "cleaned.mp4")))) /\
  (forall n, q_filename q = Some (JStr n) -> n <> "" -> every isDownloadNameChar n = true ->
             downloadFilename q = n) /\
  (Json.truthy (q_filename q) = false -> downloadFilename q = "cleaned.mp4").
Proof.
  unfold downloadFilename.
  split; [apply underscoreUnsafe_safe|].
  split; [apply (every_includes isDownloadNameChar);
          [reflexivity | apply underscoreUnsafe_safe]|].
  split; [apply underscoreUnsafe_length|].
  split.
  - intros n -> Hne Hn. unfold Json.or, Json.truthy.
    destruct n as [|c n]; [congruence|]. cbn [String.eqb negb Json.toString Json.toStr].
    apply underscoreUnsafe_fixed, Hn.
  - intros H. unfold Json.or. rewrite H. reflexivity.
Qed.

(** X19. [GET /api/download] answers every request and never lets an
    error out.  With no [url] (or a blank one) it answers 400 [Missing url]
    and does nothing; otherwise it issues exactly one request, a GET of the
    trimmed [url] without body and without [Authorization] header. *)
Theorem download_issues_one_get contentTypeOf q w s :
  (exists resp, fst (apiDownload contentTypeOf q w s) = Ret resp) /\
  (downloadUrl q = "" ->
     apiDownload contentTypeOf q w s = (Ret (SendText 400 "Missing url"), s)) /\
  (downloadUrl q <> "" ->
     snd (apiDownload contentTypeOf q w s) =
       mkState (S (fetched s)) (clockReads s)
         (trace s ++ [EFetch (mkRequest GET (downloadUrl q) None NoBody)])%list).
Proof.
  unfold apiDownload. cbv zeta.
  destruct (downloadUrl q) as [|a u].
  { split; [eexists; reflexivity|]. split; [reflexivity | congruence]. }
  unfold textOrEmpty, respText. mstep.
  destruct (net w (fetched s)) as [msg | r].
  { split; [eexists; reflexivity|]. split; [discriminate | reflexivity]. }
  mstep. destruct (resp_ok r); cbn [negb].
  - mstep. split; [eexists; reflexivity|]. split; [discriminate | reflexivity].
  - destruct (resp_body r); mstep;
      (split; [eexists; reflexivity|]; split; [discriminate | reflexivity]).
Qed.

(** X20. A download whose upstream does not answer 2xx is answered 502
    with [Upstream error <status> <text>], where the text is the first 200
    characters of the upstream body at most (none when the body cannot be
    read); a download whose upstream cannot be reached is answered 500 with
    the error's message. *)
Theorem download_upstream_failure contentTypeOf q w s :
  downloadUrl q <> "" ->
  (forall r, net w (fetched s) = Resp r -> resp_ok r = false ->
     exists t,
       fst (apiDownload contentTypeOf q w s) =
         Ret (SendText 502 ("Upstream error " ++ Js.ofNat (resp_status r) ++ " " ++ t)) /\
       String.length t <= 200 /\
       match resp_body r with
       | BodyText text _ => exists rest, text = t ++ rest
       | BodyError _ => t = ""
       end) /\
  (forall msg, net w (fetched s) = NetworkError msg ->
     fst (apiDownload contentTypeOf q w s) =
       Ret (SendText 500 (Js.orElse (Some msg) "download proxy error"))).
Proof.
  intros Hne. unfold apiDownload. cbv zeta.
  destruct (downloadUrl q) as [|a u]; [congruence|].
  unfold textOrEmpty, respText. split.
  - intros r Hnet Hok. mstep. rewrite Hnet. mstep. rewrite Hok. cbn [negb].
    destruct (resp_body r) as [msg | text p]; mstep.
    + exists "". split; [reflexivity|]. split; [cbn; lia | reflexivity].
    + exists (Js.slice0 200 text). split; [reflexivity|].
      split; [apply slice0_length | apply slice0_prefix].
  - intros msg Hnet. mstep. rewrite Hnet. reflexivity.
Qed.

Lemma download_upstream_failure_witness :
  exists t,
    fst (apiDownload (fun _ => None) Scenario2.slyQuery Scenario2.upstreamMissing init) =
      Ret (SendText 502 ("Upstream error 404 " ++ t)) /\
    String.length t <= 200.
Proof.
  assert (Hne : downloadUrl Scenario2.slyQuery <> "") by (vm_compute; discriminate).
  destruct (proj1 (download_upstream_failure (fun _ => None) Scenario2.slyQuery
                     Scenario2.upstreamMissing init Hne)
              (mkResponse 404
                 (BodyText Scenario2.longPage (inl "Unexpected token N in JSON at position 0")))
              eq_refl eq_refl) as (t & Ht & Hlen & _).
  exists t. split; [exact Ht | exact Hlen].
Defined.

(** X21. What [GET /api/download] sends on with the upstream body: a
    non-empty [Content-Type], [application/octet-stream] when the upstream
    names none, and a [Content-Disposition] of the form
    [attachment; filename=<quoted name>] whose name holds only letters,
    digits, [.], [_] and [-], so that nothing of the query but those
    characters reaches the header.  The body is sent on only for a 2xx
    answer of the upstream. *)
Theorem download_headers_are_clean contentTypeOf q w s ct cd b :
  fst (apiDownload contentTypeOf q w s) = Ret (Pipe ct cd b) ->
  ct <> "" /\
  (forall r, contentTypeOf r = None -> net w (fetched s) = Resp r ->
             ct = "application/octet-stream") /\
  (exists n, cd = "attachment; filename=" ++ doubleQuote ++ n ++ doubleQuote /\
             every isDownloadNameChar n = true) /\
  exists r, net w (fetched s) = Resp r /\ resp_ok r = true /\ b = resp_body r.
Proof.
  unfold apiDownload. cbv zeta.
  destruct (downloadUrl q) as [|a u]; [discriminate|].
  unfold textOrEmpty, respText. mstep.
  destruct (net w (fetched s)) as [msg | r]; [discriminate|].
  mstep. destruct (resp_ok r) eqn:Hok; cbn [negb].
  2: { destruct (resp_body r); mstep; discriminate. }
  mstep. intros H. injection H as <- <- <-.
  split; [apply orElse_default; discriminate|].
  split; [intros r' Hct Hr; injection Hr as <-; rewrite Hct; reflexivity|].
  split; [eexists; split; [reflexivity | apply underscoreUnsafe_safe]|].
  exists r. auto.
Qed.

Lemma download_headers_are_clean_witness :
  exists n,
    "attachment; filename=" ++ doubleQuote ++ "a___x_y.mp4" ++ doubleQuote
      = "attachment; filename=" ++ doubleQuote ++ n ++ doubleQuote /\
    every isDownloadNameChar n = true.
Proof.
  exact (proj1 (proj2 (proj2
           (download_headers_are_clean (fun _ => None) Scenario2.slyQuery
              Scenario2.upstreamServes init
              "application/octet-stream"
              ("attachment; filename=" ++ doubleQuote ++ "a___x_y.mp4" ++ doubleQuote)
              (BodyText "video bytes" (inl "Unexpected token in JSON at position 0"))
              eq_refl)))).
Defined.

(** *** The model identifier, whatever its shape *)

Lemma split_head : forall s, exists tl, Js.split ":" s = Js.takeWhile notColon s :: tl.
Proof.
  induction s as [|c s (tl & IH)]; [exists []; reflexivity|].
  cbn [Js.split Js.takeWhile]. unfold notColon at 1.
  destruct (Ascii.eqb c ":"); cbn [negb]; [eexists; reflexivity|].
  rewrite IH. eexists. reflexivity.
Qed.

(** X22. The submission endpoint for any model identifier with a colon,
    read at its first colon: with nothing before it the endpoint is the
    generic one; otherwise it is the one of the model before it and of the
    version that runs from it to the next colon or the end, and, when that
    version is empty, of the whole identifier in the place of the
    version. *)
Theorem endpoint_by_first_colon env m rest :
  Js.includes ":" m = false ->
  REPLICATE_MODEL_VERSION env = Some (m ++ ":" ++ rest) ->
  endpoint env =
    match m with
    | EmptyString => "https://api.replicate.com/v1/predictions"
    | _ =>
        "https://api.replicate.com/v1/models/" ++ m ++ "/versions/" ++
        match Js.takeWhile notColon rest with
        | EmptyString => m ++ ":" ++ rest
        | v => v
        end ++ "/predictions"
    end.
Proof.
  intros Hm Hid.
  unfold endpoint, REPLICATE_MODEL_SLUG, REPLICATE_VERSION_ID. rewrite Hid.
  unfold parseReplicateModelVersion.
  destruct (m ++ ":" ++ rest) as [|c id] eqn:E.
  { destruct m; discriminate. }
  rewrite <- E. rewrite includes_colon_app, split_at_colon by assumption.
  destruct (split_head rest) as (tl & ->). cbn [nth_error model version].
  destruct m as [|a m]; [reflexivity|]. cbn [orNull].
  destruct (Js.takeWhile notColon rest) as [|b v]; cbn [orNull]; [|reflexivity].
  unfold Js.or. cbn [Js.truthy]. rewrite E. reflexivity.
Qed.

Lemma endpoint_by_first_colon_witness :
  endpoint (mkEnv (Some "r8_token") (Some "owner/name:abc:def") None None)
    = "https://api.replicate.com/v1/models/owner/name/versions/abc/predictions".
Proof.
  exact (endpoint_by_first_colon (mkEnv (Some "r8_token") (Some "owner/name:abc:def") None None)
           "owner/name" "abc:def" eq_refl eq_refl).
Defined.

(** X23. The health check tells whether [POST /api/remove] is in service:
    its [replicateConfigured] is [false] exactly when every request to
    [POST /api/remove] is refused with the 500 answer [Server not
    configured. ...] and without any effect. *)
Theorem health_agrees_with_remove env :
  res_body (apiHealth env) = HealthBody true "SoraWatermarkCleaner" false <->
  (forall fuel req w s, apiRemove env fuel req w s = (Ret notConfigured, s)).
Proof.
  unfold apiHealth. cbn [res_body]. split.
  - intros H. injection H as H. intros fuel req w s.
    apply apiRemove_unconfigured. apply andb_false_iff. exact H.
  - intros H. specialize (H 0 (mkHttpRequest false None None) Scenario.allDown init).
    unfold apiRemove, tryCatch in H.
    destruct (Js.truthy (REPLICATE_API_TOKEN env));
      destruct (Js.truthy (REPLICATE_MODEL_VERSION env)); try reflexivity.
    cbn in H. discriminate H.
Qed.
